(** * hiking-helper: the itinerary composer, the location resolver and the
      calendar date range of [main_v01.py], embedded and verified.

    The Python program is embedded shallowly:
    - a Python [str] is the Rocq [string] of its UTF-8 bytes (so that
      [urllib.parse.quote] works on it byte by byte, and slicing counts code
      points by skipping UTF-8 continuation bytes);
    - the values a forecast snapshot may hold are [pyval];
    - the [weather_info] dict is a [gmap string pyval];
    - a call that may raise returns a [result];
    - the body of [generate_full_details] runs in a small state monad over
      the local list [details] and the caller's [weather_info] object;
    - how the runtime prints a [float] is a variable of the section that
      holds the composer: the claims are about which lines are emitted,
      not about the digits of a temperature. *)

From Stdlib Require Import ZArith QArith String Ascii List Lia.
From Stdlib Require Import Floats.SpecFloat DecimalString DecimalZ.
From stdpp Require Import base gmap strings list.

Open Scope Z_scope.

(** ** Exceptions and results *)

(** The exceptions the modelled code can meet. [KeyboardInterrupt] and
    [SystemExit] derive from [BaseException] only; all the others derive
    from [Exception]. *)
Inductive py_exception : Type :=
| TypeError
| OverflowError
| GeocoderTimedOut
| GeocoderServiceError
| OtherException (name : string)
| KeyboardInterrupt
| SystemExit.

(** [isinstance(e, Exception)]: what an [except Exception] clause catches. *)
Definition is_Exception (e : py_exception) : bool :=
  match e with
  | KeyboardInterrupt | SystemExit => false
  | _ => true
  end.

(** The outcome of a call: it returns a value or raises. *)
Inductive result (A : Type) : Type :=
| Ok (a : A)
| Raise (e : py_exception).
Arguments Ok {A} a.
Arguments Raise {A} e.

(** ** Python strings *)

Module PyStr.

(** ["\n"] *)
Definition NL : string := String (ascii_of_nat 10) EmptyString.

(** [s * n] *)
Fixpoint mul (s : string) (n : nat) : string :=
  match n with
  | O => EmptyString
  | S n' => s +:+ mul s n'
  end.

(** [sep.join(parts)] *)
Definition join (sep : string) (parts : list string) : string :=
  String.concat sep parts.

(** [bool(s)]: a string is truthy when it is not empty. *)
Definition truthy (s : string) : bool :=
  match s with
  | EmptyString => false
  | String _ _ => true
  end.

(** [str(n)] for an [int]. *)
Definition of_Z (z : Z) : string := NilZero.string_of_int (Z.to_int z).

(** A decimal number left-padded with zeros to [width] digits, as
    [strftime] prints the fields of a date. *)
Definition zpad (width : nat) (z : Z) : string :=
  let digits := of_Z z in
  mul "0" (width - String.length digits) +:+ digits.

(** Bytes [10xxxxxx] continue a UTF-8 code point; every other byte
    starts one. *)
Definition is_continuation (a : ascii) : bool :=
  let n := N_of_ascii a in ((128 <=? n) && (n <? 192))%N.

(** Walks the bytes from the end of the string and keeps them until
    [n] code points are complete. *)
Fixpoint take_codepoints_rev (rev_bytes : list ascii) (n : nat) : list ascii :=
  match n, rev_bytes with
  | O, _ => []
  | _, [] => []
  | S n', b :: rest =>
      b :: take_codepoints_rev rest (if is_continuation b then n else n')
  end.

(** [s[-n:]]: the last [n] code points of [s] (all of [s] when it has
    fewer). [-0] is [0], so [s[-0:]] is [s[0:]], all of [s]. *)
Definition last_codepoints (n : nat) (s : string) : string :=
  match n with
  | O => s
  | S _ =>
      string_of_list_ascii
        (rev (take_codepoints_rev (rev (list_ascii_of_string s)) n))
  end.

End PyStr.

(** ** [urllib.parse.quote] and percent-decoding *)

Module Url.

(** [_ALWAYS_SAFE]: ASCII letters, digits and [_.-~]. *)
Definition always_safe (a : ascii) : bool :=
  let n := N_of_ascii a in
  (((65 <=? n) && (n <=? 90)) || ((97 <=? n) && (n <=? 122))
   || ((48 <=? n) && (n <=? 57))
   || (n =? 95) || (n =? 46) || (n =? 45) || (n =? 126))%N.

(** The default [safe='/'] of [quote]. *)
Definition is_safe (a : ascii) : bool :=
  always_safe a || (N_of_ascii a =? 47)%N.

(** One upper-case hexadecimal digit, as ['%{:02X}'] prints it. *)
Definition hex_digit (n : N) : ascii :=
  if (n <? 10)%N then ascii_of_N (48 + n) else ascii_of_N (55 + n).

Definition quote_byte (a : ascii) : string :=
  if is_safe a then String a EmptyString
  else
    let n := N_of_ascii a in
    String "%" (String (hex_digit (n / 16)) (String (hex_digit (n mod 16)) EmptyString)).

(** [urllib.parse.quote(s)]: every byte of the UTF-8 encoding of [s]
    that is not safe becomes [%XX]. *)
Fixpoint quote (s : string) : string :=
  match s with
  | EmptyString => EmptyString
  | String a rest => quote_byte a +:+ quote rest
  end.

(** The number of bytes of the UTF-8 encoding of [s] that [quote]
    escapes. *)
Definition escaped_bytes (s : string) : nat :=
  List.length (List.filter (fun a => negb (is_safe a)) (list_ascii_of_string s)).

(** The value of a hexadecimal digit of either case. *)
Definition hex_value (a : ascii) : option N :=
  let n := N_of_ascii a in
  if ((48 <=? n) && (n <=? 57))%N then Some (n - 48)%N
  else if ((65 <=? n) && (n <=? 70))%N then Some (n - 55)%N
  else if ((97 <=? n) && (n <=? 102))%N then Some (n - 87)%N
  else None.

(** Percent-decoding ([urllib.parse.unquote_to_bytes]): [%XX] with two
    hexadecimal digits is the byte [XX]; anything else stands for
    itself. The result is again the UTF-8 encoding of a string. *)
Fixpoint percent_decode (s : string) : string :=
  match s with
  | EmptyString => EmptyString
  | String c rest =>
      if Ascii.eqb c "%" then
        match rest with
        | String h (String l rest') =>
            match hex_value h, hex_value l with
            | Some x, Some y => String (ascii_of_N (16 * x + y)) (percent_decode rest')
            | _, _ => String c (percent_decode rest)
            end
        | _ => String c (percent_decode rest)
        end
      else String c (percent_decode rest)
  end.

(** The map-search link of the navigation section (line 61). *)
Definition MAP_SEARCH : string := "https://www.google.com/maps/search/?api=1&query=".

Definition map_url (mountain_name : string) : string :=
  MAP_SEARCH +:+ quote mountain_name.

(** The trail-notes search link (lines 104-105). *)
Definition BIJI_SEARCH : string := "https://hiking.biji.co/index.php?q=".
Definition BIJI_TAIL : string := "&node=search".

Definition biji_link (mountain_name : string) : string :=
  let encoded_name := quote mountain_name in
  BIJI_SEARCH +:+ encoded_name +:+ BIJI_TAIL.

(** The value of a query parameter that starts right after [prefix]:
    everything up to the next [&]. *)
Fixpoint until_amp (s : string) : string :=
  match s with
  | EmptyString => EmptyString
  | String c rest => if Ascii.eqb c "&" then EmptyString else String c (until_amp rest)
  end.

Definition query_value (prefix url : string) : string :=
  until_amp (String.substring (String.length prefix)
               (String.length url - String.length prefix) url).

End Url.

(** ** Dates: [datetime.date], [datetime.time], [datetime.datetime] *)

Module Cal.

Record date : Type := mkdate { year : Z; month : Z; day : Z }.
Record time : Type := mktime { hour : Z; minute : Z; second : Z }.
Record datetime : Type := mkdatetime { dt_date : date; dt_time : time }.

Definition MAXYEAR : Z := 9999.

Definition is_leap (y : Z) : bool :=
  (y mod 4 =? 0) && (negb (y mod 100 =? 0) || (y mod 400 =? 0)).

Definition days_in_month (y m : Z) : Z :=
  match m with
  | 1 | 3 | 5 | 7 | 8 | 10 | 12 => 31
  | 4 | 6 | 9 | 11 => 30
  | 2 => if is_leap y then 29 else 28
  | _ => 0
  end.

(** Number of days before January 1st of year [y]. *)
Definition days_before_year (y : Z) : Z :=
  let y' := y - 1 in
  y' * 365 + y' / 4 - y' / 100 + y' / 400.

(** Number of days of year [y] before the first day of month [m]. *)
Definition days_before_month (y m : Z) : Z :=
  match m with
  | 1 => 0 | 2 => 31 | 3 => 59 | 4 => 90 | 5 => 120 | 6 => 151
  | 7 => 181 | 8 => 212 | 9 => 243 | 10 => 273 | 11 => 304 | 12 => 334
  | _ => 0
  end + (if (2 <? m) && is_leap y then 1 else 0).

(** [date.toordinal()]: 0001-01-01 is day 1. *)
Definition toordinal (d : date) : Z :=
  days_before_year (year d) + days_before_month (year d) (month d) + day d.

(** Seconds from the start of day 0 to the date-time, the scale on
    which [timedelta] arithmetic is exact. *)
Definition total_seconds (dt : datetime) : Z :=
  toordinal (dt_date dt) * 86400
  + hour (dt_time dt) * 3600 + minute (dt_time dt) * 60 + second (dt_time dt).

Definition valid_date (d : date) : Prop :=
  1 <= year d <= MAXYEAR /\ 1 <= month d <= 12
  /\ 1 <= day d <= days_in_month (year d) (month d).

Definition valid_time (t : time) : Prop :=
  0 <= hour t < 24 /\ 0 <= minute t < 60 /\ 0 <= second t < 60.

(** The calendar day after [d]. *)
Definition next_day (d : date) : date :=
  if day d <? days_in_month (year d) (month d)
  then mkdate (year d) (month d) (day d + 1)
  else if month d <? 12
       then mkdate (year d) (month d + 1) 1
       else mkdate (year d + 1) 1 1.

(** [datetime.datetime.combine(d, t)] *)
Definition combine (d : date) (t : time) : datetime := mkdatetime d t.

(** [dt + timedelta(seconds=delta)] for [0 <= delta]: the seconds are
    added to the time of day, whole days carry into the date, and a date
    past year 9999 raises [OverflowError]. The library computes the sum on
    the scale of ordinals and seconds; [add_six_hours] below shows that
    this definition agrees with it. *)
Definition add_seconds (dt : datetime) (delta : Z) : result datetime :=
  let t := dt_time dt in
  let total := hour t * 3600 + minute t * 60 + second t + delta in
  let d' := Nat.iter (Z.to_nat (total / 86400)) next_day (dt_date dt) in
  let secs := total mod 86400 in
  if year d' <=? MAXYEAR
  then Ok (mkdatetime d' (mktime (secs / 3600) (secs mod 3600 / 60) (secs mod 60)))
  else Raise OverflowError.

(** [timedelta(hours=6)] in seconds. *)
Definition SIX_HOURS : Z := 6 * 3600.

(** [dt.strftime("%Y%m%dT%H%M%S")]. Every field is zero-padded to its
    width; for [%Y] that is what all platforms print from year 1000 on. *)
Definition strftime (dt : datetime) : string :=
  let d := dt_date dt in
  let t := dt_time dt in
  PyStr.zpad 4 (year d) +:+ PyStr.zpad 2 (month d) +:+ PyStr.zpad 2 (day d)
  +:+ "T"
  +:+ PyStr.zpad 2 (hour t) +:+ PyStr.zpad 2 (minute t) +:+ PyStr.zpad 2 (second t).

(** Lines 236-239: the [dates] token of the calendar link. *)
Definition dates_str (hiking_date : date) (hiking_time : time) : result string :=
  let start_dt := combine hiking_date hiking_time in
  match add_seconds start_dt SIX_HOURS with
  | Ok end_dt => Ok (strftime start_dt +:+ "/" +:+ strftime end_dt)
  | Raise e => Raise e
  end.

End Cal.

(** ** The location resolver *)

Module Geo.

(** What [geolocator.geocode] hands back on a match. *)
Record Location : Type :=
  mkLocation { latitude : spec_float; longitude : spec_float; address : string }.

(** The three ways a call of the geocoding collaborator can end. *)
Inductive geocode_outcome : Type :=
| Located (location : Location)
| NoMatch
| Raised (e : py_exception).

(** The collaborator: query string and timeout in seconds. *)
Definition geocoder : Type := string -> Z -> geocode_outcome.

Definition coordinates : Type :=
  (option spec_float * option spec_float * option string)%type.

(** [None, None, None] *)
Definition NotFound : coordinates := (None, None, None).

(** Lines 10-20. The constructor of the geolocator only stores its
    settings; the call of [geocode] is the one place that can fail. A
    [Location] is always truthy, so [if location:] only tests for
    [None]. *)
Definition get_coordinates (geocode : geocoder) (place_name : string)
  : result coordinates :=
  let search_query := "台灣 " +:+ place_name in
  match geocode search_query 10 with
  | Located location =>
      Ok (Some (latitude location), Some (longitude location), Some (address location))
  | NoMatch => Ok NotFound
  | Raised e => if is_Exception e then Ok NotFound else Raise e
  end.

End Geo.


(** ** [urllib.parse.urlencode] and the decoding of a query string *)

Module Query.

(** [quote_plus] with its default [safe='']: the always-safe bytes stand
    for themselves, a space becomes [+], every other byte becomes
    [%XX]. *)
Definition quote_plus_byte (a : ascii) : string :=
  if Url.always_safe a then String a EmptyString
  else if (N_of_ascii a =? 32)%N then String "+" EmptyString
  else
    let n := N_of_ascii a in
    String "%" (String (Url.hex_digit (n / 16))
                  (String (Url.hex_digit (n mod 16)) EmptyString)).

Fixpoint quote_plus (s : string) : string :=
  match s with
  | EmptyString => EmptyString
  | String a rest => quote_plus_byte a +:+ quote_plus rest
  end.

(** One [key=value] field. *)
Definition field (kv : string * string) : string :=
  quote_plus (fst kv) +:+ "=" +:+ quote_plus (snd kv).

(** [urllib.parse.urlencode(query)] for a dict of strings, in insertion
    order. *)
Definition urlencode (query : list (string * string)) : string :=
  PyStr.join "&" (map field query).

(** [s.replace('+', ' ')] *)
Fixpoint plus_to_space (s : string) : string :=
  match s with
  | EmptyString => EmptyString
  | String a rest =>
      String (if Ascii.eqb a "+" then " "%char else a) (plus_to_space rest)
  end.

(** [urllib.parse.unquote_plus] *)
Definition unquote_plus (s : string) : string :=
  Url.percent_decode (plus_to_space s).

(** [s.split(c)]: the pieces between the occurrences of [c]; never
    empty. *)
Fixpoint split_on (c : ascii) (s : string) : list string :=
  match s with
  | EmptyString => [EmptyString]
  | String a rest =>
      if Ascii.eqb a c then EmptyString :: split_on c rest
      else
        let pieces := split_on c rest in
        String a (hd EmptyString pieces) :: tl pieces
  end.

(** [s.split(c, 1)], with an empty second part when [c] does not occur. *)
Fixpoint split_first (c : ascii) (s : string) : string * string :=
  match s with
  | EmptyString => (EmptyString, EmptyString)
  | String a rest =>
      if Ascii.eqb a c then (EmptyString, rest)
      else
        let halves := split_first c rest in
        (String a (fst halves), snd halves)
  end.

(** The fields of [parse_qsl]: empty fields are skipped, the others are
    cut at their first [=] and both sides decoded. *)
Definition parse_fields (fields : list string) : list (string * string) :=
  map (fun f =>
         let nv := split_first "=" f in
         (unquote_plus (fst nv), unquote_plus (snd nv)))
      (List.filter PyStr.truthy fields).

(** [urllib.parse.parse_qsl(qs, keep_blank_values=True)] *)
Definition parse_qsl (qs : string) : list (string * string) :=
  if PyStr.truthy qs then parse_fields (split_on "&" qs) else [].

End Query.

(** ** Python values in a forecast snapshot *)

Inductive pyval : Type :=
| PyNone
| PyInt (z : Z)
| PyFloat (f : spec_float)
| PyStr (s : string).

(** The real number a finite binary float stands for. *)
Definition finite_value (s : bool) (m : positive) (e : Z) : Q :=
  (inject_Z (if s then Z.neg m else Z.pos m) * Qpower (inject_Z 2) e)%Q.

(** The number a value stands for, when it is an [int] or a finite
    [float]. *)
Definition num_value (v : pyval) : option Q :=
  match v with
  | PyInt z => Some (inject_Z z)
  | PyFloat (S754_zero _) => Some (inject_Z 0)
  | PyFloat (S754_finite s m e) => Some (finite_value s m e)
  | _ => None
  end.

(** Python orders a [float] against an [int] by their exact values; a NaN
    is unordered. *)
Definition float_compare_int (f : spec_float) (t : Z) : option comparison :=
  match f with
  | S754_nan => None
  | S754_zero _ => Some (0 ?= t)
  | S754_infinity s => Some (if s then Lt else Gt)
  | S754_finite s m e => Some (Qcompare (finite_value s m e) (inject_Z t))
  end.

(** [v >= t] for an [int] literal [t]. *)
Definition py_ge (v : pyval) (t : Z) : result bool :=
  match v with
  | PyInt z => Ok (t <=? z)
  | PyFloat f =>
      Ok (match float_compare_int f t with
          | Some Gt | Some Eq => true
          | _ => false
          end)
  | PyNone | PyStr _ => Raise TypeError
  end.

(** [v < t] for an [int] literal [t]. *)
Definition py_lt (v : pyval) (t : Z) : result bool :=
  match v with
  | PyInt z => Ok (z <? t)
  | PyFloat f =>
      Ok (match float_compare_int f t with
          | Some Lt => true
          | _ => false
          end)
  | PyNone | PyStr _ => Raise TypeError
  end.

(** [v[-5:]]: only a [str] can be sliced. *)
Definition py_last5 (v : pyval) : result string :=
  match v with
  | PyStr s => Ok (PyStr.last_codepoints 5 s)
  | _ => Raise TypeError
  end.

(** [x in xs] for a list of [int] literals. *)
Definition py_in (x : Z) (xs : list Z) : bool := existsb (Z.eqb x) xs.

(** [bool(weather_info)]: [None] and the empty dict are falsy. *)
Definition dict_truthy (weather_info : option (gmap string pyval)) : bool :=
  match weather_info with
  | None => false
  | Some d => negb (bool_decide (d = ∅))
  end.

(** [d.get(key, fallback)] *)
Definition dict_get (d : gmap string pyval) (key : string) (fallback : pyval) : pyval :=
  default fallback (d !! key).

(** ** Forecast snapshots used as examples *)

(** Scenario A of the specification: max 5, min -2, rain 60. *)
Definition snapshot_A : gmap string pyval :=
  <["max_temp" := PyInt 5]>
    (<["min_temp" := PyInt (-2)]>
       (<["rain_prob" := PyInt 60]>
          (<["sunrise" := PyStr "2024-01-15T06:30"]>
             (<["sunset" := PyStr "2024-01-15T17:10"]> ∅)))).

(** Scenario A with the minimum temperature absent. *)
Definition snapshot_without_min : gmap string pyval :=
  delete "min_temp" snapshot_A.

(** The binary64 floats written [9.9] and [10.0]. *)
Definition float_9_9 : spec_float := S754_finite false 5573204538870989 (-49).
Definition float_10_0 : spec_float := S754_finite false 5629499534213120 (-49).

(** A float printer that is right on the two floats above; the examples
    need one to run. *)
Definition sample_float_str (f : spec_float) : string :=
  match f with
  | S754_finite false 5573204538870989 (-49) => "9.9"
  | S754_finite false 5629499534213120 (-49) => "10.0"
  | _ => "nan"
  end.

(** A geocoding collaborator that always times out. *)
Definition geocode_timing_out : Geo.geocoder :=
  fun _ _ => Geo.Raised GeocoderTimedOut.

(** ** The state of a call and its monad *)

(** What a call of [generate_full_details] can touch: the dict object the
    caller passed as [weather_info], and its own local list [details]. *)
Record frame : Type :=
  mkframe { weather_info : option (gmap string pyval); details : list string }.

Definition M (A : Type) : Type := frame -> result A * frame.

#[local] Instance M_ret : MRet M := fun A a fr => (Ok a, fr).

#[local] Instance M_bind : MBind M := fun A B f m fr =>
  match m fr with
  | (Ok a, fr') => f a fr'
  | (Raise e, fr') => (Raise e, fr')
  end.

(** A fallible expression: its exception leaves the state as it is. *)
Definition lift {A : Type} (r : result A) : M A := fun fr => (r, fr).

(** [details = []] *)
Definition new_details : M unit :=
  fun fr => (Ok tt, mkframe (weather_info fr) []).

(** [details.append(line)] *)
Definition append (line : string) : M unit :=
  fun fr => (Ok tt, mkframe (weather_info fr) (details fr ++ [line])).

(** Reads the argument [weather_info]. *)
Definition arg_weather_info : M (option (gmap string pyval)) :=
  fun fr => (Ok (weather_info fr), fr).

(** An [if] without [else] falls through. *)
Definition skip : M unit := mret tt.

(** [if b: body] *)
Definition when (b : bool) (body : M unit) : M unit :=
  if b then body else skip.

(** Reads the local [details]. *)
Definition get_details : M (list string) :=
  fun fr => (Ok (details fr), fr).

(** ** The fixed lines of the itinerary *)

Definition DIVIDER : string := PyStr.NL +:+ PyStr.mul "-" 20 +:+ PyStr.NL.
Definition NOTES_HEADING : string := "【📝 行程筆記】".
Definition FORECAST_HEADING : string := PyStr.NL +:+ "【☀️ 當日天氣預報】".
Definition RAIN_WARNING : string := "⚠️ 降雨機率高，務必攜帶雨衣/雨褲！".
Definition COLD_WARNING : string := "⚠️ 氣溫較低，請攜帶保暖中層。".
Definition SEASONAL_HEADING : string := PyStr.NL +:+ "【☀️ 季節性氣候提醒】".
Definition SEASONAL_NOTICE : string := "⚠️ 日期較遠，暫無精準預報，請出發前 3 天再次確認。".
Definition ICE_ADVICE : string := "❄️ 冬季高山可能結冰，建議攜帶冰爪。".
Definition PLUM_RAIN_ADVICE : string := "🌧️ 梅雨季節，注意午後雷陣雨。".
Definition TYPHOON_ADVICE : string := "🌪️ 颱風季/夏季，注意防曬與天氣警報。".
Definition GEAR_HEADING : string := PyStr.NL +:+ "【🎒 裝備檢查】".
Definition GEAR_1 : string := "□ 證件 / 入山證 / 離線地圖".
Definition GEAR_2 : string := "□ 頭燈 (含備用電池) ★重要".
Definition GEAR_3 : string := "□ 雨具 / 保暖衣物".
Definition GEAR_4 : string := "□ 行動水 / 行動糧".

(** ** The lines of a text *)

(** [text.split("\n")]: the lines a text is read as. *)
Definition text_lines (text : string) : list string :=
  Query.split_on (ascii_of_nat 10) text.

(** Notes of two lines, the second of which is the wording of a
    warning. *)
Definition notes_quoting (warning : string) : string :=
  "出發前再確認：" +:+ PyStr.NL +:+ warning.

(** ** The interactive front end: what it shows and what it keeps *)

(** The calls that put something on the page, in the order they are
    made. *)
Inductive st_call : Type :=
| st_success (body : string)
| st_warning (body : string)
| st_error (body : string)
| st_map (lat lon : option spec_float)
| st_link_button (label url : string)
| st_text (body : string).

(** One day of the forecast table: a row of the DataFrame, with the
    columns date, max and min temperature, rain probability, sunrise and
    sunset. *)
Record forecast_row : Type :=
  mkrow { row_date : pyval; row_max : pyval; row_min : pyval;
          row_rain : pyval; row_sunrise : pyval; row_sunset : pyval }.

(** [st.session_state]: the three fields the script keeps between two
    interactions. A coordinate is a [float] or [None]. *)
Record session_state : Type :=
  mksession { weather_df : option (list forecast_row);
              searched_mountain : string;
              map_coords : option (option spec_float * option spec_float) }.

(** Lines 115-117. *)
Definition initial_session : session_state := mksession None EmptyString None.

(** ** The forecast client *)

(** A decoded JSON document. A dict is the list of its items; a key is
    looked up at its first item. *)
#[local] Set Warnings "-register-all".
Inductive pyobj : Type :=
| ObjNone
| ObjBool (b : bool)
| ObjInt (z : Z)
| ObjFloat (f : spec_float)
| ObjStr (s : string)
| ObjList (items : list pyobj)
| ObjDict (items : list (string * pyobj)).

Definition items_lookup (key : string) (items : list (string * pyobj)) : option pyobj :=
  snd <$> List.find (fun kv => String.eqb (fst kv) key) items.

(** [o.get(key, fallback)]: only a dict has the method. *)
Definition obj_get (o : pyobj) (key : string) (fallback : pyobj) : result pyobj :=
  match o with
  | ObjDict items => Ok (default fallback (items_lookup key items))
  | _ => Raise (OtherException "AttributeError")
  end.

#[local] Instance result_ret : MRet result := fun A a => Ok a.

#[local] Instance result_bind : MBind result := fun A B f r =>
  match r with
  | Ok a => f a
  | Raise e => Raise e
  end.

(** The request of line 32: the URL and the query parameters. *)
Record forecast_request : Type :=
  mkrequest { req_url : string;
              req_latitude : option spec_float;
              req_longitude : option spec_float;
              req_daily : list string;
              req_timezone : string }.

(** Whether a decoded value is a dict. *)
Definition is_dict (o : pyobj) : bool :=
  match o with
  | ObjDict _ => true
  | _ => false
  end.

(** The URL and the [params] of lines 24-30. *)
Definition open_meteo_request (lat lon : option spec_float) : forecast_request :=
  mkrequest "https://api.open-meteo.com/v1/forecast" lat lon
    ["temperature_2m_max"; "temperature_2m_min"; "precipitation_probability_max";
     "sunrise"; "sunset"]
    "Asia/Taipei".

(** The columns handed to [pd.DataFrame] when no daily value is there. *)
Definition empty_columns : list (string * pyobj) :=
  [("日期", ObjNone); ("最高溫", ObjNone); ("最低溫", ObjNone);
   ("降雨機率(%)", ObjNone); ("日出", ObjNone); ("日落", ObjNone)].

Section Forecast.

(** [requests.get(url, params=params)] followed by [response.json()]: the
    decoded document, or the exception either call raises. *)
Variable fetch : forecast_request -> result pyobj.

(** [pd.DataFrame(columns)]: the table, or the exception the constructor
    raises. *)
Variable DataFrame : list (string * pyobj) -> result (list forecast_row).

(** [str(e)] of an exception. *)
Variable exc_str : py_exception -> string.

(** The [try] block of lines 32-43. *)
Definition fetch_forecast_table (lat lon : option spec_float) : result (list forecast_row) :=
  let params := open_meteo_request lat lon in
  data ← fetch params ;
  daily ← obj_get data "daily" (ObjDict []) ;
  c_time ← obj_get daily "time" ObjNone ;
  c_max ← obj_get daily "temperature_2m_max" ObjNone ;
  c_min ← obj_get daily "temperature_2m_min" ObjNone ;
  c_rain ← obj_get daily "precipitation_probability_max" ObjNone ;
  c_sunrise ← obj_get daily "sunrise" ObjNone ;
  c_sunset ← obj_get daily "sunset" ObjNone ;
  DataFrame [("日期", c_time); ("最高溫", c_max); ("最低溫", c_min);
             ("降雨機率(%)", c_rain); ("日出", c_sunrise); ("日落", c_sunset)].

(** Lines 22-46: the table and nothing shown, or [None] and the error
    shown; only what [except Exception] does not catch is raised. *)
Definition get_weather_forecast (lat lon : option spec_float)
  : result (option (list forecast_row) * list st_call) :=
  match fetch_forecast_table lat lon with
  | Ok df => Ok (Some df, [])
  | Raise e =>
      if is_Exception e
      then Ok (None, [st_error ("天氣資料讀取失敗: " +:+ exc_str e)])
      else Raise e
  end.

End Forecast.

(** ** The search of lines 141-155 *)

(** [bool(lat)]: [None] and a zero are falsy, every other float is
    truthy. *)
Definition coordinate_truthy (lat : option spec_float) : bool :=
  match lat with
  | None => false
  | Some (S754_zero _) => false
  | Some _ => true
  end.

(** [f"{addr}"] *)
Definition format_address (addr : option string) : string :=
  match addr with
  | None => "None"
  | Some s => s
  end.

Definition FOUND_PREFIX : string := "📍 定位成功：".
Definition NO_FORECAST_WARNING : string := "定位成功但查無天氣資料。".
Definition NOT_FOUND_ERROR : string := "❌ 找不到此地點，請嘗試縮短名稱。".

(** One run of the search block: the session it leaves, what it shows,
    and whether it ends by raising. [forecast] is [get_weather_forecast]
    with its collaborators. *)
Definition search
  (geocode : Geo.geocoder)
  (forecast : option spec_float -> option spec_float ->
              result (option (list forecast_row) * list st_call))
  (btn_search : bool) (search_input : string) (s : session_state)
  : session_state * list st_call * result unit :=
  if btn_search && PyStr.truthy search_input then
    match Geo.get_coordinates geocode search_input with
    | Raise e => (s, [], Raise e)
    | Ok (lat, lon, addr) =>
        if coordinate_truthy lat then
          let s1 := mksession (weather_df s) search_input (Some (lat, lon)) in
          match forecast lat lon with
          | Raise e => (s1, [], Raise e)
          | Ok (Some df, shown) =>
              (mksession (Some df) search_input (Some (lat, lon)),
               shown ++ [st_success (FOUND_PREFIX +:+ format_address addr)],
               Ok tt)
          | Ok (None, shown) =>
              (s1, shown ++ [st_warning NO_FORECAST_WARNING], Ok tt)
          end
        else (s, [st_error NOT_FOUND_ERROR], Ok tt)
    end
  else (s, [], Ok tt).

(** The session after one interaction with the search block, whatever
    the collaborators answer. *)
Inductive search_step : session_state -> session_state -> Prop :=
| search_step_intro geocode forecast btn_search search_input s :
    search_step s (fst (fst (search geocode forecast btn_search search_input s))).

(** The sessions the search block can lead to from the initial one. *)
Inductive reachable : session_state -> Prop :=
| reachable_initial : reachable initial_session
| reachable_step s s' : reachable s -> search_step s s' -> reachable s'.

(** What every reachable session satisfies: before the first successful
    search nothing is stored; afterwards the stored latitude is a truthy
    float and the stored name is not empty. *)
Definition session_inv (s : session_state) : Prop :=
  match map_coords s with
  | None => weather_df s = None /\ searched_mountain s = EmptyString
  | Some (lat, lon) =>
      coordinate_truthy lat = true /\ PyStr.truthy (searched_mountain s) = true
  end.

(** ** The location panel of lines 157-163 *)

(** [sub in s] *)
Fixpoint contains (sub s : string) : bool :=
  String.prefix sub s
  || match s with
     | EmptyString => false
     | String _ rest => contains sub rest
     end.

(** [21 < lat < 26]: the second comparison is made only when the first
    holds; [None] cannot be compared. *)
Definition within_taiwan_latitudes (lat : option spec_float) : result bool :=
  match lat with
  | None => Raise TypeError
  | Some f =>
      Ok (match float_compare_int f 21 with
          | Some Gt =>
              match float_compare_int f 26 with
              | Some Lt => true
              | _ => false
              end
          | _ => false
          end)
  end.

Definition OUTSIDE_TAIWAN_WARNING : string := "⚠️ 定位點似乎不在台灣本島，請確認關鍵字。".

(** The map and the warning under it. The name is tested first; the
    latitude is compared only when the name does not contain the
    country. *)
Definition location_panel (s : session_state) : result (list st_call) :=
  match map_coords s with
  | None => Ok []
  | Some (lat, lon) =>
      if contains "台灣" (searched_mountain s) then Ok [st_map lat lon]
      else
        match within_taiwan_latitudes lat with
        | Raise e => Raise e
        | Ok true => Ok [st_map lat lon]
        | Ok false => Ok [st_map lat lon; st_warning OUTSIDE_TAIWAN_WARNING]
        end
  end.

(** The cell of the sunrise and sunset columns of lines 173-174:
    [x[-5:] if x else "-"]. *)
Definition display_time (x : pyval) : result string :=
  match x with
  | PyNone => Ok "-"
  | PyStr s => if PyStr.truthy s then Ok (PyStr.last_codepoints 5 s) else Ok "-"
  | PyInt z => if z =? 0 then Ok "-" else Raise TypeError
  | PyFloat (S754_zero _) => Ok "-"
  | PyFloat _ => Raise TypeError
  end.

(** ** Collaborators and sessions used as examples *)

(** The binary64 floats written [24.0] and [121.0]. *)
Definition float_24_0 : spec_float := S754_finite false 3 3.
Definition float_121_0 : spec_float := S754_finite false 121 0.

(** A geocoder that finds every place at 24.0 N, 121.0 E. *)
Definition geocode_found : Geo.geocoder :=
  fun _ _ => Geo.Located (Geo.mkLocation float_24_0 float_121_0 "玉山, 台灣").

(** A geocoder that finds every place at 0.0 N, 0.0 E. *)
Definition geocode_equator : Geo.geocoder :=
  fun _ _ => Geo.Located (Geo.mkLocation (S754_zero false) (S754_zero false) "Null Island").

(** A forecast client whose request failed. *)
Definition forecast_unavailable (lat lon : option spec_float)
  : result (option (list forecast_row) * list st_call) :=
  Ok (None, [st_error "天氣資料讀取失敗: timed out"]).

(** The row of scenario A. *)
Definition row_A : forecast_row :=
  mkrow (PyStr "2024-01-15") (PyInt 5) (PyInt (-2)) (PyInt 60)
    (PyStr "2024-01-15T06:30") (PyStr "2024-01-15T17:10").

(** A session left by a successful search for another mountain. *)
Definition session_A : session_state :=
  mksession (Some [row_A]) "合歡山" (Some (Some float_24_0, Some float_121_0)).

(** A request that cannot connect; a response without daily values; a
    response that is a list; table constructors that build nothing or
    refuse their columns; a printer of exceptions. *)
Definition fetch_refused (request : forecast_request) : result pyobj :=
  Raise (OtherException "ConnectionError").
Definition fetch_api_error (request : forecast_request) : result pyobj :=
  Ok (ObjDict [("error", ObjBool true); ("reason", ObjStr "bad latitude")]).
Definition fetch_list (request : forecast_request) : result pyobj :=
  Ok (ObjList []).
Definition frame_empty (columns : list (string * pyobj)) : result (list forecast_row) :=
  Ok [].
Definition frame_refusing (columns : list (string * pyobj)) : result (list forecast_row) :=
  Raise (OtherException "ValueError").
Definition exc_name (e : py_exception) : string :=
  match e with
  | OtherException name => name
  | _ => "error"
  end.

(** ** The itinerary content composer *)

Section Composer.

(** How the runtime prints a [float] inside an f-string. No claim depends
    on the digits, so the printer stays abstract. *)
Variable float_str : spec_float -> string.

(** [f"{v}"] *)
Definition py_format (v : pyval) : string :=
  match v with
  | PyNone => "None"
  | PyInt z => PyStr.of_Z z
  | PyFloat f => float_str f
  | PyStr s => s
  end.

(** Lines 48-108, statement by statement. *)
Definition generate_full_details_body
  (mountain_name route_name : string) (date_obj : Cal.date) (custom_notes : string)
  : M string :=
  new_details ;;
  when (PyStr.truthy custom_notes)
    (append NOTES_HEADING ;;
     append custom_notes ;;
     append DIVIDER) ;;
  let map_url := Url.map_url mountain_name in
  append ("📍 Google Maps 導航：" +:+ map_url) ;;
  append DIVIDER ;;
  append ("【目的地】" +:+ mountain_name) ;;
  when (PyStr.truthy route_name)
    (append ("【路線】" +:+ route_name)) ;;
  info ← arg_weather_info ;
  (if dict_truthy info then
     let d := default ∅ info in
     let max_t := dict_get d "max_temp" (PyStr "?") in
     let min_t := dict_get d "min_temp" (PyStr "?") in
     let rain := dict_get d "rain_prob" (PyInt 0) in
     sunrise ← lift (py_last5 (dict_get d "sunrise" (PyStr "未知"))) ;
     sunset ← lift (py_last5 (dict_get d "sunset" (PyStr "未知"))) ;
     append FORECAST_HEADING ;;
     append ("🌡️ 氣溫預測：" +:+ py_format min_t +:+ "°C ~ " +:+ py_format max_t +:+ "°C") ;;
     append ("☔ 降雨機率：" +:+ py_format rain +:+ "%") ;;
     append ("🌅 日出日落：" +:+ sunrise +:+ " / " +:+ sunset) ;;
     rainy ← lift (py_ge rain 30) ;
     when rainy (append RAIN_WARNING) ;;
     cold ← lift (py_lt min_t 10) ;
     when cold (append COLD_WARNING)
   else
     let month := Cal.month date_obj in
     append SEASONAL_HEADING ;;
     append SEASONAL_NOTICE ;;
     (if py_in month [12; 1; 2; 3] then append ICE_ADVICE
      else if py_in month [5; 6] then append PLUM_RAIN_ADVICE
      else if py_in month [7; 8; 9] then append TYPHOON_ADVICE
      else skip)) ;;
  append GEAR_HEADING ;;
  append GEAR_1 ;;
  append GEAR_2 ;;
  append GEAR_3 ;;
  append GEAR_4 ;;
  let biji_link := Url.biji_link mountain_name in
  append (PyStr.NL +:+ "🔗 健行筆記搜尋：" +:+ biji_link) ;;
  ds ← get_details ;
  mret (PyStr.join PyStr.NL ds).

(** A call: the body runs on the caller's [weather_info] object; [stale]
    is whatever an earlier call left in the slot of the local list. *)
Definition call_generate_full_details
  (mountain_name route_name : string) (date_obj : Cal.date)
  (weather_info : option (gmap string pyval)) (custom_notes : string)
  (stale : list string) : result string * frame :=
  generate_full_details_body mountain_name route_name date_obj custom_notes
    (mkframe weather_info stale).

(** [generate_full_details(mountain_name, route_name, date_obj,
    weather_info, custom_notes)]: the value the call returns. *)
Definition generate_full_details
  (mountain_name route_name : string) (date_obj : Cal.date)
  (weather_info : option (gmap string pyval)) (custom_notes : string)
  : result string :=
  fst (call_generate_full_details mountain_name route_name date_obj
         weather_info custom_notes []).

(** ** The sections of the itinerary, as lists of lines

    The same text section by section; [generate_full_details_sections]
    below shows that the body emits exactly these lines. *)

(** Step 1: the trip notes. *)
Definition notes_lines (custom_notes : string) : list string :=
  if PyStr.truthy custom_notes then [NOTES_HEADING; custom_notes; DIVIDER] else [].

(** Steps 2 and 3: navigation link and header. *)
Definition head_lines (mountain_name route_name custom_notes : string) : list string :=
  notes_lines custom_notes
  ++ ["📍 Google Maps 導航：" +:+ Url.map_url mountain_name;
      DIVIDER;
      "【目的地】" +:+ mountain_name]
  ++ (if PyStr.truthy route_name then ["【路線】" +:+ route_name] else []).

(** Steps 5 and 6: gear checklist and trail-notes link. *)
Definition tail_lines (mountain_name : string) : list string :=
  [GEAR_HEADING; GEAR_1; GEAR_2; GEAR_3; GEAR_4;
   PyStr.NL +:+ "🔗 健行筆記搜尋：" +:+ Url.biji_link mountain_name].

(** The three lines of forecast details. *)
Definition forecast_detail_lines (d : gmap string pyval) (sunrise sunset : string)
  : list string :=
  [FORECAST_HEADING;
   "🌡️ 氣溫預測：" +:+ py_format (dict_get d "min_temp" (PyStr "?"))
     +:+ "°C ~ " +:+ py_format (dict_get d "max_temp" (PyStr "?")) +:+ "°C";
   "☔ 降雨機率：" +:+ py_format (dict_get d "rain_prob" (PyInt 0)) +:+ "%";
   "🌅 日出日落：" +:+ sunrise +:+ " / " +:+ sunset].

(** Step 4a: the forecast branch. *)
Definition forecast_lines (d : gmap string pyval) : result (list string) :=
  match py_last5 (dict_get d "sunrise" (PyStr "未知")) with
  | Raise e => Raise e
  | Ok sunrise =>
  match py_last5 (dict_get d "sunset" (PyStr "未知")) with
  | Raise e => Raise e
  | Ok sunset =>
  match py_ge (dict_get d "rain_prob" (PyInt 0)) 30 with
  | Raise e => Raise e
  | Ok rainy =>
  match py_lt (dict_get d "min_temp" (PyStr "?")) 10 with
  | Raise e => Raise e
  | Ok cold =>
      Ok (forecast_detail_lines d sunrise sunset
          ++ (if rainy then [RAIN_WARNING] else [])
          ++ (if cold then [COLD_WARNING] else []))
  end end end end.

(** The advisory of the [if]/[elif] chain on the month (lines 89-94). *)
Definition seasonal_advice (month : Z) : list string :=
  if py_in month [12; 1; 2; 3] then [ICE_ADVICE]
  else if py_in month [5; 6] then [PLUM_RAIN_ADVICE]
  else if py_in month [7; 8; 9] then [TYPHOON_ADVICE]
  else [].

(** Step 4b: the seasonal branch. *)
Definition seasonal_lines (date_obj : Cal.date) : list string :=
  [SEASONAL_HEADING; SEASONAL_NOTICE] ++ seasonal_advice (Cal.month date_obj).

(** Step 4: the weather section. *)
Definition weather_lines (date_obj : Cal.date) (info : option (gmap string pyval))
  : result (list string) :=
  if dict_truthy info then forecast_lines (default ∅ info)
  else Ok (seasonal_lines date_obj).

(** The advisory the specification maps each month to (section 4.2,
    step 4b), written from its words. *)
Definition spec_advisory (month : Z) : list string :=
  match month with
  | 12 | 1 | 2 | 3 => [ICE_ADVICE]
  | 5 | 6 => [PLUM_RAIN_ADVICE]
  | 7 | 8 | 9 => [TYPHOON_ADVICE]
  | _ => []
  end.

(** The lines of the forecast branch whose text comes from the caller or
    is printed from the snapshot: the notes, the destination and route
    lines, and the three detail lines. *)
Definition copied_lines (mountain_name route_name custom_notes : string)
  (d : gmap string pyval) (sunrise sunset : string) : list string :=
  (if PyStr.truthy custom_notes then [custom_notes] else [])
  ++ ["【目的地】" +:+ mountain_name]
  ++ (if PyStr.truthy route_name then ["【路線】" +:+ route_name] else [])
  ++ ["🌡️ 氣溫預測：" +:+ py_format (dict_get d "min_temp" (PyStr "?"))
        +:+ "°C ~ " +:+ py_format (dict_get d "max_temp" (PyStr "?")) +:+ "°C";
      "☔ 降雨機率：" +:+ py_format (dict_get d "rain_prob" (PyInt 0)) +:+ "%";
      "🌅 日出日落：" +:+ sunrise +:+ " / " +:+ sunset].

(** The lines of the forecast branch the composer words itself, the two
    advisories apart: headings, dividers, the two links and the gear
    checklist. *)
Definition fixed_lines (mountain_name custom_notes : string) : list string :=
  (if PyStr.truthy custom_notes then [NOTES_HEADING; DIVIDER] else [])
  ++ ["📍 Google Maps 導航：" +:+ Url.map_url mountain_name;
      DIVIDER;
      FORECAST_HEADING]
  ++ tail_lines mountain_name.

(** ** Snapshots as the data model types them *)

(** A field that is an [int] or a [float]. *)
Definition is_number (v : pyval) : bool :=
  match v with
  | PyInt _ | PyFloat _ => true
  | _ => false
  end.

(** A field that is a [str]. *)
Definition is_str (v : pyval) : bool :=
  match v with
  | PyStr _ => true
  | _ => false
  end.

(** An optional field: absent, or present with the right type. *)
Definition absent_or (p : pyval -> bool) (o : option pyval) : bool :=
  match o with
  | None => true
  | Some v => p v
  end.

(** A snapshot as the data model describes a ForecastDay: numeric
    temperatures and rain probability, sunrise and sunset strings, each
    of them possibly absent. The composer is given other dicts as well
    (a field that is present but [None], a maximum temperature that is
    not a number); what it needs to print one is [printable_snapshot]
    below. *)
Definition typed_snapshot (d : gmap string pyval) : bool :=
  absent_or is_number (d !! "max_temp")
  && absent_or is_number (d !! "min_temp")
  && absent_or is_number (d !! "rain_prob")
  && absent_or is_str (d !! "sunrise")
  && absent_or is_str (d !! "sunset").

(** ** The submit block of lines 213-260 *)

(** [hiking_date.strftime("%Y-%m-%d")] *)
Definition selected_date_str (hiking_date : Cal.date) : string :=
  PyStr.zpad 4 (Cal.year hiking_date) +:+ "-"
  +:+ PyStr.zpad 2 (Cal.month hiking_date) +:+ "-"
  +:+ PyStr.zpad 2 (Cal.day hiking_date).

(** One entry of the mask [weather_df["日期"] == selected_date_str]. *)
Definition row_is_on (date_str : string) (r : forecast_row) : bool :=
  match row_date r with
  | PyStr s => String.eqb s date_str
  | _ => false
  end.

(** The dict built from the first row of the day (lines 221-227). *)
Definition snapshot_of_row (r : forecast_row) : gmap string pyval :=
  <["max_temp" := row_max r]>
    (<["min_temp" := row_min r]>
       (<["rain_prob" := row_rain r]>
          (<["sunrise" := row_sunrise r]>
             (<["sunset" := row_sunset r]> ∅)))).

(** Lines 217-227: the snapshot of the chosen day, when the session has a
    table and the table has the day. *)
Definition day_weather_info (df : option (list forecast_row)) (hiking_date : Cal.date)
  : option (gmap string pyval) :=
  match df with
  | None => None
  | Some rows =>
      match List.filter (row_is_on (selected_date_str hiking_date)) rows with
      | [] => None
      | r :: _ => Some (snapshot_of_row r)
      end
  end.

(** Lines 231-234. *)
Definition cal_title (target_name route_name : string) : string :=
  if PyStr.truthy route_name
  then "⛰️ " +:+ target_name +:+ " - " +:+ route_name
  else "⛰️ " +:+ target_name +:+ " 登山".

Definition CAL_BASE : string := "https://calendar.google.com/calendar/render?action=TEMPLATE".

(** Lines 241-248. *)
Definition cal_url (title dates_str target_name details_text : string) : string :=
  let cal_params :=
    [("text", title); ("dates", dates_str); ("location", target_name);
     ("details", details_text)] in
  CAL_BASE +:+ "&" +:+ Query.urlencode cal_params.

(** One run of the submit block: what it shows, and whether it ends by
    raising. *)
Definition submit
  (submitted : bool) (target_name route_name : string)
  (hiking_date : Cal.date) (hiking_time : Cal.time) (custom_notes : string)
  (s : session_state) : list st_call * result unit :=
  if submitted && PyStr.truthy target_name then
    let shown := [st_success ("已建立行程：**" +:+ target_name +:+ "**")] in
    let day_info := day_weather_info (weather_df s) hiking_date in
    match generate_full_details target_name route_name hiking_date day_info custom_notes with
    | Raise e => (shown, Raise e)
    | Ok details_text =>
        let title := cal_title target_name route_name in
        match Cal.dates_str hiking_date hiking_time with
        | Raise e => (shown, Raise e)
        | Ok dates =>
            let url := cal_url title dates target_name details_text in
            let map_url := Url.map_url target_name in
            (shown ++ [st_link_button "🗺️ Google Maps 導航" map_url;
                       st_link_button "📅 加入 Google 行事曆" url;
                       st_text ("標題：" +:+ title);
                       st_text (PyStr.mul "-" 30);
                       st_text details_text],
             Ok tt)
        end
    end
  else ([], Ok tt).

(** ** Snapshots and rows the forecast branch prints without raising *)

(** A field that is present with the right type. *)
Definition present_and (p : pyval -> bool) (o : option pyval) : bool :=
  match o with
  | None => false
  | Some v => p v
  end.

(** What lines 74-83 need of a snapshot: sunrise and sunset sliceable,
    the rain probability comparable, each of them or absent, and the
    minimum temperature present and comparable. *)
Definition printable_snapshot (d : gmap string pyval) : bool :=
  absent_or is_str (d !! "sunrise")
  && absent_or is_str (d !! "sunset")
  && absent_or is_number (d !! "rain_prob")
  && present_and is_number (d !! "min_temp").

(** The same for a row of the forecast table. *)
Definition printable_row (r : forecast_row) : bool :=
  is_str (row_sunrise r) && is_str (row_sunset r)
  && is_number (row_rain r) && is_number (row_min r).

(** The number of code points of a string: the bytes that start one. *)
Definition codepoints (s : string) : nat :=
  List.length (List.filter (fun a => negb (PyStr.is_continuation a))
                 (list_ascii_of_string s)).

(** * Proofs *)

(** ** The body emits the sections *)

Ltac run_body :=
  unfold generate_full_details_body, weather_lines, forecast_lines,
    seasonal_lines, seasonal_advice, head_lines, notes_lines, tail_lines,
    forecast_detail_lines;
  unfold when, skip, append, new_details, lift, arg_weather_info, get_details;
  unfold mbind, M_bind, mret, M_ret;
  cbn [weather_info details fst snd].

Ltac step := cbn [weather_info details fst snd].

(** Every path through the body: the three truthiness tests, the month
    chain, and the four expressions of the forecast branch that may
    raise. *)
Ltac body_paths notes route info date :=
  destruct (PyStr.truthy notes); step;
  (destruct (PyStr.truthy route); step);
  (destruct (dict_truthy info); step);
  try (destruct (py_in (Cal.month date) [12; 1; 2; 3]);
       [reflexivity|];
       destruct (py_in (Cal.month date) [5; 6]); [reflexivity|];
       destruct (py_in (Cal.month date) [7; 8; 9]); reflexivity);
  (destruct (py_last5 (dict_get (default ∅ info) "sunrise" (PyStr "未知")));
   [|reflexivity]);
  (destruct (py_last5 (dict_get (default ∅ info) "sunset" (PyStr "未知")));
   [|reflexivity]);
  step;
  (destruct (py_ge (dict_get (default ∅ info) "rain_prob" (PyInt 0)) 30) as [[|]|];
   [| |reflexivity]);
  step;
  (destruct (py_lt (dict_get (default ∅ info) "min_temp" (PyStr "?")) 10) as [[|]|];
   reflexivity).

Lemma generate_full_details_body_result name route date notes fr :
  fst (generate_full_details_body name route date notes fr) =
  match weather_lines date (weather_info fr) with
  | Ok ws =>
      Ok (PyStr.join PyStr.NL (head_lines name route notes ++ ws ++ tail_lines name))
  | Raise e => Raise e
  end.
Proof.
  destruct fr as [info stale]. run_body. body_paths notes route info date.
Qed.

(** The body never writes to the caller's [weather_info]. *)
Lemma generate_full_details_body_frame name route date notes fr :
  weather_info (snd (generate_full_details_body name route date notes fr)) =
  weather_info fr.
Proof.
  destruct fr as [info stale]. run_body. body_paths notes route info date.
Qed.

Lemma generate_full_details_sections name route date info notes :
  generate_full_details name route date info notes =
  match weather_lines date info with
  | Ok ws =>
      Ok (PyStr.join PyStr.NL (head_lines name route notes ++ ws ++ tail_lines name))
  | Raise e => Raise e
  end.
Proof.
  unfold generate_full_details, call_generate_full_details.
  apply generate_full_details_body_result.
Qed.

(** ** Telling the lines apart *)

(** Two strings whose first three bytes differ are different. *)
Lemma differ_by_prefix (s1 s2 : string) :
  String.substring 0 3 s1 <> String.substring 0 3 s2 -> s1 <> s2.
Proof. intros Hne Heq. apply Hne. now rewrite Heq. Qed.

Ltac by_prefix :=
  apply differ_by_prefix; vm_compute; discriminate.

Ltac closed_neq :=
  let H := fresh in intro H; vm_compute in H; discriminate H.

Lemma RAIN_not_COLD : RAIN_WARNING <> COLD_WARNING.
Proof. closed_neq. Qed.

(** Neither warning is one of the forecast detail lines. *)
Lemma warning_not_detail w d sunrise sunset :
  w = RAIN_WARNING \/ w = COLD_WARNING ->
  ~ In w (forecast_detail_lines d sunrise sunset).
Proof.
  intros Hw Hin. unfold forecast_detail_lines in Hin.
  repeat (destruct Hin as [Hin|Hin]; [symmetry in Hin; revert Hin|]);
    try contradiction.
  all: destruct Hw as [-> | ->]; by_prefix.
Qed.

(** ** The forecast branch on typed snapshots *)

Lemma py_last5_str_or_absent d key fallback :
  absent_or is_str (d !! key) = true ->
  exists s, py_last5 (dict_get d key (PyStr fallback)) = Ok s.
Proof.
  unfold dict_get. destruct (d !! key) as [[| | |s]|]; cbn; try discriminate; eauto.
Qed.

Lemma py_ge_number v t : is_number v = true -> exists b, py_ge v t = Ok b.
Proof. destruct v; cbn; try discriminate; eauto. Qed.

Lemma py_lt_number v t : is_number v = true -> exists b, py_lt v t = Ok b.
Proof. destruct v; cbn; try discriminate; eauto. Qed.

Lemma typed_snapshot_fields d :
  typed_snapshot d = true ->
  absent_or is_number (d !! "min_temp") = true
  /\ absent_or is_number (d !! "rain_prob") = true
  /\ absent_or is_str (d !! "sunrise") = true
  /\ absent_or is_str (d !! "sunset") = true.
Proof.
  unfold typed_snapshot. rewrite !andb_true_iff. tauto.
Qed.

(** A typed snapshot with a minimum temperature is printed: the branch
    returns the detail lines followed by the warnings its two tests ask
    for. *)
Lemma forecast_lines_typed d v :
  typed_snapshot d = true -> d !! "min_temp" = Some v ->
  exists sunrise sunset rainy cold,
    py_ge (dict_get d "rain_prob" (PyInt 0)) 30 = Ok rainy
    /\ py_lt v 10 = Ok cold
    /\ forecast_lines d =
         Ok (forecast_detail_lines d sunrise sunset
             ++ (if rainy then [RAIN_WARNING] else [])
             ++ (if cold then [COLD_WARNING] else [])).
Proof.
  intros Ht Hmin. apply typed_snapshot_fields in Ht as (Hm & Hr & Hsr & Hss).
  destruct (py_last5_str_or_absent d "sunrise" "未知" Hsr) as [sunrise Esr].
  destruct (py_last5_str_or_absent d "sunset" "未知" Hss) as [sunset Ess].
  rewrite Hmin in Hm. cbn in Hm.
  destruct (py_lt_number v 10 Hm) as [cold Ecold].
  assert (Hrain : is_number (dict_get d "rain_prob" (PyInt 0)) = true).
  { unfold dict_get. destruct (d !! "rain_prob"); [exact Hr | reflexivity]. }
  destruct (py_ge_number _ 30 Hrain) as [rainy Erainy].
  exists sunrise, sunset, rainy, cold. split; [exact Erainy|]. split; [exact Ecold|].
  unfold forecast_lines. rewrite Esr, Ess, Erainy.
  replace (dict_get d "min_temp" (PyStr "?")) with v
    by (unfold dict_get; now rewrite Hmin).
  now rewrite Ecold.
Qed.

(** A snapshot with a field is not the empty dict. *)
Lemma dict_truthy_lookup (d : gmap string pyval) key v :
  d !! key = Some v -> dict_truthy (Some d) = true.
Proof.
  intros Hk. cbn. rewrite bool_decide_eq_false_2; [reflexivity|].
  intros ->. rewrite lookup_empty in Hk. discriminate.
Qed.

(** Where each warning sits in a forecast section. *)
Lemma rain_warning_in_forecast d sunrise sunset (rainy cold : bool) :
  In RAIN_WARNING (forecast_detail_lines d sunrise sunset
                   ++ (if rainy then [RAIN_WARNING] else [])
                   ++ (if cold then [COLD_WARNING] else []))
  <-> rainy = true.
Proof.
  rewrite !in_app_iff. split.
  - intros [H | [H | H]].
    + exfalso. revert H. apply warning_not_detail. now left.
    + destruct rainy; [reflexivity | destruct H].
    + destruct cold; [|destruct H]. destruct H as [H|[]].
      exfalso. now apply RAIN_not_COLD.
  - intros ->. right. left. now left.
Qed.

Lemma cold_warning_in_forecast d sunrise sunset (rainy cold : bool) :
  In COLD_WARNING (forecast_detail_lines d sunrise sunset
                   ++ (if rainy then [RAIN_WARNING] else [])
                   ++ (if cold then [COLD_WARNING] else []))
  <-> cold = true.
Proof.
  rewrite !in_app_iff. split.
  - intros [H | [H | H]].
    + exfalso. revert H. apply warning_not_detail. now right.
    + destruct rainy; [|destruct H]. destruct H as [H|[]].
      exfalso. now apply RAIN_not_COLD.
    + destruct cold; [reflexivity | destruct H].
  - intros ->. right. right. now left.
Qed.

(** The two comparisons, read as orders on numbers. *)
Lemma py_lt_num_value v t q b :
  num_value v = Some q -> py_lt v t = Ok b ->
  b = true <-> (q < inject_Z t)%Q.
Proof.
  destruct v as [|z|[s|s| |s m e]|s]; cbn; try discriminate;
    intros [= <-] [= <-].
  - rewrite Z.ltb_lt, Zlt_Qlt. reflexivity.
  - rewrite <- Zlt_Qlt. destruct t; cbn; split; intro; (reflexivity || discriminate || lia).
  - rewrite Qlt_alt. destruct (finite_value s m e ?= inject_Z t)%Q; split; congruence.
Qed.

Lemma py_ge_int r t b : py_ge (PyInt r) t = Ok b -> b = true <-> t <= r.
Proof. cbn. intros [= <-]. apply Z.leb_le. Qed.

(** The [if]/[elif] chain picks the advisory the specification lists. *)
Lemma seasonal_advice_spec month : seasonal_advice month = spec_advisory month.
Proof.
  destruct month as [|p|p]; [reflexivity| |reflexivity].
  do 4 (try destruct p as [p|p|]); reflexivity.
Qed.

(** Within the data model the forecast branch fails in one way only: a
    snapshot that has some field but no minimum temperature always
    raises. *)
Lemma missing_min_temp_always_raises name route date notes d :
  typed_snapshot d = true -> d <> ∅ -> d !! "min_temp" = None ->
  generate_full_details name route date (Some d) notes = Raise TypeError.
Proof.
  intros Ht Hne Hmin. rewrite generate_full_details_sections.
  unfold weather_lines. cbn [dict_truthy].
  rewrite bool_decide_eq_false_2 by exact Hne. cbn [negb].
  change (default ∅ (Some d)) with d.
  apply typed_snapshot_fields in Ht as (_ & Hr & Hsr & Hss).
  destruct (py_last5_str_or_absent d "sunrise" "未知" Hsr) as [sunrise Esr].
  destruct (py_last5_str_or_absent d "sunset" "未知" Hss) as [sunset Ess].
  assert (Hrain : is_number (dict_get d "rain_prob" (PyInt 0)) = true).
  { unfold dict_get. destruct (d !! "rain_prob"); [exact Hr | reflexivity]. }
  destruct (py_ge_number _ 30 Hrain) as [rainy Erainy].
  unfold forecast_lines. rewrite Esr, Ess, Erainy.
  unfold dict_get at 1. rewrite Hmin. reflexivity.
Qed.

(** ** Appending strings *)

Lemma append_cons a (s t : string) : String a s +:+ t = String a (s +:+ t).
Proof. reflexivity. Qed.

Lemma append_assoc (s1 s2 s3 : string) : (s1 +:+ s2) +:+ s3 = s1 +:+ (s2 +:+ s3).
Proof.
  induction s1 as [|a s1 IH]; [reflexivity|].
  rewrite !append_cons. f_equal. exact IH.
Qed.

Lemma append_empty_r (s : string) : s +:+ EmptyString = s.
Proof.
  induction s as [|a s IH]; [reflexivity|].
  rewrite append_cons. f_equal. exact IH.
Qed.

(** ** The lines of the returned text *)

Lemma split_on_not_nil c s : Query.split_on c s <> [].
Proof.
  destruct s as [|a s]; cbn [Query.split_on]; [discriminate|].
  destruct (Ascii.eqb a c); cbv zeta; discriminate.
Qed.

(** Cutting at a separator: the pieces before it, then the pieces after
    it. *)
Lemma split_on_app c x rest :
  Query.split_on c (x +:+ String c rest)
  = Query.split_on c x ++ Query.split_on c rest.
Proof.
  induction x as [|a x IH].
  - change (EmptyString +:+ String c rest) with (String c rest).
    cbn [Query.split_on]. now rewrite Ascii.eqb_refl.
  - rewrite append_cons. cbn [Query.split_on]. destruct (Ascii.eqb a c).
    + now rewrite IH.
    + cbv zeta. rewrite IH.
      destruct (Query.split_on c x) as [|p ps] eqn:E;
        [now apply split_on_not_nil in E | reflexivity].
Qed.

(** The lines of a text joined with newlines are the lines of its
    parts, in order. *)
Lemma text_lines_join parts :
  parts <> [] ->
  text_lines (PyStr.join PyStr.NL parts) = flat_map text_lines parts.
Proof.
  induction parts as [|x [|y parts] IH]; intros Hne.
  - contradiction.
  - cbn [flat_map]. rewrite app_nil_r. reflexivity.
  - change (PyStr.join PyStr.NL (x :: y :: parts))
      with (x +:+ String (ascii_of_nat 10) (PyStr.join PyStr.NL (y :: parts))).
    unfold text_lines at 1. rewrite split_on_app.
    change (Query.split_on (ascii_of_nat 10) (PyStr.join PyStr.NL (y :: parts)))
      with (text_lines (PyStr.join PyStr.NL (y :: parts))).
    rewrite IH by discriminate. reflexivity.
Qed.

Lemma line_of_joined w parts :
  parts <> [] ->
  In w (text_lines (PyStr.join PyStr.NL parts))
  <-> exists part, In part parts /\ In w (text_lines part).
Proof. intros Hne. rewrite text_lines_join by exact Hne. apply in_flat_map. Qed.

(** A text of one line in front of another text lengthens its first
    line. *)
Lemma text_lines_prefix a b :
  text_lines a = [a] ->
  text_lines (a +:+ b)
  = (a +:+ hd EmptyString (text_lines b)) :: tl (text_lines b).
Proof.
  unfold text_lines. induction a as [|x a IH]; intros Ha.
  - change (EmptyString +:+ b) with b.
    destruct (Query.split_on (ascii_of_nat 10) b) as [|p ps] eqn:E;
      [now apply split_on_not_nil in E | reflexivity].
  - rewrite append_cons. cbn [Query.split_on] in Ha |- *.
    destruct (Ascii.eqb x (ascii_of_nat 10)); [discriminate Ha|].
    cbv zeta in Ha |- *.
    destruct (Query.split_on (ascii_of_nat 10) a) as [|p ps] eqn:E;
      [now apply split_on_not_nil in E|].
    cbn [hd tl] in Ha. injection Ha as -> ->.
    rewrite (IH eq_refl). reflexivity.
Qed.

Lemma text_lines_single_app a b :
  text_lines a = [a] -> text_lines b = [b] -> text_lines (a +:+ b) = [a +:+ b].
Proof. intros Ha Hb. rewrite (text_lines_prefix a b Ha), Hb. reflexivity. Qed.

(** An encoded name is one line: a newline is escaped. *)
Lemma quote_byte_single_line a :
  text_lines (Url.quote_byte a) = [Url.quote_byte a].
Proof.
  destruct a as [b0 b1 b2 b3 b4 b5 b6 b7].
  destruct b0, b1, b2, b3, b4, b5, b6, b7; reflexivity.
Qed.

Lemma quote_single_line s : text_lines (Url.quote s) = [Url.quote s].
Proof.
  induction s as [|a s IH]; [reflexivity|].
  cbn [Url.quote]. apply text_lines_single_app; [apply quote_byte_single_line | exact IH].
Qed.

Lemma nav_line_single name :
  text_lines ("📍 Google Maps 導航：" +:+ Url.map_url name)
  = ["📍 Google Maps 導航：" +:+ Url.map_url name].
Proof.
  unfold Url.map_url. rewrite <- append_assoc.
  apply text_lines_single_app; [vm_compute; reflexivity | apply quote_single_line].
Qed.

Lemma text_lines_newline rest :
  text_lines (PyStr.NL +:+ rest) = EmptyString :: text_lines rest.
Proof. reflexivity. Qed.

Lemma link_line_lines name :
  text_lines (PyStr.NL +:+ "🔗 健行筆記搜尋：" +:+ Url.biji_link name)
  = [EmptyString; "🔗 健行筆記搜尋：" +:+ Url.biji_link name].
Proof.
  rewrite text_lines_newline. f_equal.
  unfold Url.biji_link. cbv zeta. rewrite <- !append_assoc.
  apply text_lines_single_app; [|vm_compute; reflexivity].
  apply text_lines_single_app; [vm_compute; reflexivity | apply quote_single_line].
Qed.

(** Each warning is one line. *)
Lemma warning_single_line w :
  w = RAIN_WARNING \/ w = COLD_WARNING -> text_lines w = [w].
Proof. intros [-> | ->]; vm_compute; reflexivity. Qed.

(** No line the composer words itself holds a warning. *)
Lemma fixed_lines_no_warning w name notes line :
  w = RAIN_WARNING \/ w = COLD_WARNING ->
  In line (fixed_lines name notes) -> ~ In w (text_lines line).
Proof.
  intros Hw Hline Hin. unfold fixed_lines, tail_lines in Hline.
  assert (Hcases :
    In line [NOTES_HEADING; DIVIDER; FORECAST_HEADING; GEAR_HEADING;
             GEAR_1; GEAR_2; GEAR_3; GEAR_4]
    \/ line = "📍 Google Maps 導航：" +:+ Url.map_url name
    \/ line = PyStr.NL +:+ "🔗 健行筆記搜尋：" +:+ Url.biji_link name).
  { destruct (PyStr.truthy notes); cbn [app In] in Hline |- *;
      intuition auto. }
  clear Hline. destruct Hcases as [Hclosed | [-> | ->]].
  - cbn [In] in Hclosed.
    repeat (destruct Hclosed as [<- | Hclosed]);
      try contradiction;
      destruct Hw as [-> | ->]; vm_compute in Hin;
      repeat (destruct Hin as [Hin | Hin]; [discriminate Hin|]);
      exact Hin.
  - rewrite nav_line_single in Hin. destruct Hin as [Hin | []].
    revert Hin. destruct Hw as [-> | ->]; by_prefix.
  - rewrite link_line_lines in Hin. destruct Hin as [Hin | [Hin | []]].
    + destruct Hw as [-> | ->]; discriminate Hin.
    + revert Hin. destruct Hw as [-> | ->]; by_prefix.
Qed.

(** The lines of an itinerary with a forecast section: those the composer
    words itself, those it copies, and the advisories. *)
Lemma forecast_itinerary_parts name route notes d sunrise sunset advisories line :
  In line (head_lines name route notes
           ++ (forecast_detail_lines d sunrise sunset ++ advisories)
           ++ tail_lines name)
  <-> In line (fixed_lines name notes)
      \/ In line (copied_lines name route notes d sunrise sunset)
      \/ In line advisories.
Proof.
  unfold head_lines, notes_lines, forecast_detail_lines, fixed_lines, copied_lines.
  destruct (PyStr.truthy notes), (PyStr.truthy route);
    rewrite !in_app_iff; cbn [In]; tauto.
Qed.

Lemma head_lines_not_nil name route notes rest :
  head_lines name route notes ++ rest <> [].
Proof.
  unfold head_lines, notes_lines. destruct (PyStr.truthy notes); discriminate.
Qed.

(** A warning is a line of the returned text exactly when it is among
    the advisories or a copied line holds it. *)
Lemma warning_line_of_text w name route notes d sunrise sunset advisories :
  w = RAIN_WARNING \/ w = COLD_WARNING ->
  (forall line, In line advisories -> line = RAIN_WARNING \/ line = COLD_WARNING) ->
  In w (text_lines
          (PyStr.join PyStr.NL
             (head_lines name route notes
              ++ (forecast_detail_lines d sunrise sunset ++ advisories)
              ++ tail_lines name)))
  <-> In w advisories
      \/ Exists (fun line => In w (text_lines line))
           (copied_lines name route notes d sunrise sunset).
Proof.
  intros Hw Hadv. rewrite line_of_joined by apply head_lines_not_nil.
  rewrite List.Exists_exists. split.
  - intros (line & Hline & Hin). apply forecast_itinerary_parts in Hline.
    destruct Hline as [Hfixed | [Hcopied | Hadvisory]].
    + exfalso. exact (fixed_lines_no_warning w name notes line Hw Hfixed Hin).
    + right. exists line. split; assumption.
    + left. rewrite (warning_single_line line (Hadv line Hadvisory)) in Hin.
      destruct Hin as [<- | []]. exact Hadvisory.
  - intros [Hadvisory | (line & Hcopied & Hin)].
    + exists w. split.
      * apply forecast_itinerary_parts. right. right. exact Hadvisory.
      * rewrite (warning_single_line w Hw). now left.
    + exists line. split; [|exact Hin].
      apply forecast_itinerary_parts. right. left. exact Hcopied.
Qed.

Lemma advisories_are_warnings (rainy cold : bool) line :
  In line ((if rainy then [RAIN_WARNING] else [])
           ++ (if cold then [COLD_WARNING] else [])) ->
  line = RAIN_WARNING \/ line = COLD_WARNING.
Proof.
  destruct rainy, cold; cbn [app In]; intuition auto.
Qed.

Lemma rain_warning_among_advisories (rainy cold : bool) :
  In RAIN_WARNING ((if rainy then [RAIN_WARNING] else [])
                   ++ (if cold then [COLD_WARNING] else []))
  <-> rainy = true.
Proof.
  pose proof RAIN_not_COLD as Hne.
  destruct rainy, cold; cbn [app In]; intuition (auto; try discriminate).
Qed.

Lemma cold_warning_among_advisories (rainy cold : bool) :
  In COLD_WARNING ((if rainy then [RAIN_WARNING] else [])
                   ++ (if cold then [COLD_WARNING] else []))
  <-> cold = true.
Proof.
  pose proof RAIN_not_COLD as Hne.
  destruct rainy, cold; cbn [app In]; intuition (auto; try discriminate).
Qed.

(** ** The forecast branch on the snapshots it can print *)

Lemma printable_snapshot_fields d :
  printable_snapshot d = true ->
  absent_or is_str (d !! "sunrise") = true
  /\ absent_or is_str (d !! "sunset") = true
  /\ absent_or is_number (d !! "rain_prob") = true
  /\ exists v, d !! "min_temp" = Some v /\ is_number v = true.
Proof.
  unfold printable_snapshot. rewrite !andb_true_iff.
  intros [[[Hsr Hss] Hr] Hm]. repeat split; try assumption.
  destruct (d !! "min_temp") as [v|]; [now exists v | discriminate Hm].
Qed.

(** A printable snapshot is printed: the branch returns the detail lines
    followed by the warnings its two tests ask for. *)
Lemma forecast_lines_printable d :
  printable_snapshot d = true ->
  exists v sunrise sunset rainy cold,
    d !! "min_temp" = Some v
    /\ py_last5 (dict_get d "sunrise" (PyStr "未知")) = Ok sunrise
    /\ py_last5 (dict_get d "sunset" (PyStr "未知")) = Ok sunset
    /\ py_ge (dict_get d "rain_prob" (PyInt 0)) 30 = Ok rainy
    /\ py_lt v 10 = Ok cold
    /\ forecast_lines d =
         Ok (forecast_detail_lines d sunrise sunset
             ++ (if rainy then [RAIN_WARNING] else [])
             ++ (if cold then [COLD_WARNING] else [])).
Proof.
  intros Hp. apply printable_snapshot_fields in Hp as (Hsr & Hss & Hr & v & Hmin & Hv).
  destruct (py_last5_str_or_absent d "sunrise" "未知" Hsr) as [sunrise Esr].
  destruct (py_last5_str_or_absent d "sunset" "未知" Hss) as [sunset Ess].
  destruct (py_lt_number v 10 Hv) as [cold Ecold].
  assert (Hrain : is_number (dict_get d "rain_prob" (PyInt 0)) = true).
  { unfold dict_get. destruct (d !! "rain_prob"); [exact Hr | reflexivity]. }
  destruct (py_ge_number _ 30 Hrain) as [rainy Erainy].
  exists v, sunrise, sunset, rainy, cold.
  repeat (split; [assumption|]).
  unfold forecast_lines. rewrite Esr, Ess, Erainy.
  replace (dict_get d "min_temp" (PyStr "?")) with v
    by (unfold dict_get; now rewrite Hmin).
  now rewrite Ecold.
Qed.

(** ** The claims about the composer *)

(** C1 (the code departs from it): a forecast snapshot whose minimum
    temperature is absent is not rendered with a placeholder; the
    comparison [min_t < 10] of line 83 meets the placeholder ['?'] and the
    call raises [TypeError]. *)
Theorem missing_min_temp_raises :
  generate_full_details "合歡山主峰" "" (Cal.mkdate 2024 1 15)
    (Some snapshot_without_min) ""
  = Raise TypeError.
Proof. rewrite generate_full_details_sections. vm_compute. reflexivity. Qed.

(** C2 (amended): on every forecast snapshot the branch can print
    (sunrise and sunset strings or absent, rain probability a number or
    absent, minimum temperature a number) whose rain probability is an
    integer [r] (any integer, so in particular 0 to 100), the composer
    returns an itinerary, and the rain-gear warning is one of the lines
    its weather section emits exactly when [30 <= r]. Read as text, the
    itinerary has the warning among its lines exactly when [30 <= r] or a
    line the composer copies (the notes, the destination line, the route
    line, the temperature, rain and sunrise/sunset lines) already holds
    it. *)
Theorem rain_warning_iff_at_least_30 name route date notes d r :
  printable_snapshot d = true ->
  d !! "rain_prob" = Some (PyInt r) ->
  exists sunrise sunset ws out,
    py_last5 (dict_get d "sunrise" (PyStr "未知")) = Ok sunrise
    /\ py_last5 (dict_get d "sunset" (PyStr "未知")) = Ok sunset
    /\ weather_lines date (Some d) = Ok ws
    /\ generate_full_details name route date (Some d) notes = Ok out
    /\ out = PyStr.join PyStr.NL
               (head_lines name route notes ++ ws ++ tail_lines name)
    /\ (In RAIN_WARNING ws <-> 30 <= r)
    /\ (In RAIN_WARNING (text_lines out)
        <-> 30 <= r
            \/ Exists (fun line => In RAIN_WARNING (text_lines line))
                 (copied_lines name route notes d sunrise sunset)).
Proof.
  intros Hp Hrain.
  destruct (forecast_lines_printable d Hp)
    as (v & sunrise & sunset & rainy & cold & Hmin & Esr & Ess & Erainy & Ecold & Elines).
  assert (Hws : weather_lines date (Some d) =
                Ok (forecast_detail_lines d sunrise sunset
                    ++ (if rainy then [RAIN_WARNING] else [])
                    ++ (if cold then [COLD_WARNING] else []))).
  { unfold weather_lines. rewrite (dict_truthy_lookup d _ _ Hmin). exact Elines. }
  assert (Hr : rainy = true <-> 30 <= r).
  { apply py_ge_int. rewrite <- Erainy. unfold dict_get. now rewrite Hrain. }
  exists sunrise, sunset. eexists. eexists.
  split; [exact Esr|]. split; [exact Ess|]. split; [exact Hws|].
  split; [rewrite generate_full_details_sections, Hws; reflexivity|].
  split; [reflexivity|]. split.
  - rewrite rain_warning_in_forecast. exact Hr.
  - rewrite warning_line_of_text
      by (first [now left | apply advisories_are_warnings]).
    rewrite rain_warning_among_advisories, Hr. reflexivity.
Qed.

(** C3 (amended): on every forecast snapshot the branch can print whose
    minimum temperature is a number [q] (an [int] or a finite [float]),
    the composer returns an itinerary, and the cold-weather warning is
    one of the lines its weather section emits exactly when [q < 10],
    whatever the rain field: the rain-gear warning is emitted or not by
    its own test. Read as text, the itinerary has the cold-weather
    warning among its lines exactly when [q < 10] or a line the composer
    copies already holds it. *)
Theorem cold_warning_iff_below_10 name route date notes d v q :
  printable_snapshot d = true ->
  d !! "min_temp" = Some v ->
  num_value v = Some q ->
  exists sunrise sunset rainy ws out,
    py_last5 (dict_get d "sunrise" (PyStr "未知")) = Ok sunrise
    /\ py_last5 (dict_get d "sunset" (PyStr "未知")) = Ok sunset
    /\ py_ge (dict_get d "rain_prob" (PyInt 0)) 30 = Ok rainy
    /\ weather_lines date (Some d) = Ok ws
    /\ generate_full_details name route date (Some d) notes = Ok out
    /\ out = PyStr.join PyStr.NL
               (head_lines name route notes ++ ws ++ tail_lines name)
    /\ (In COLD_WARNING ws <-> (q < 10)%Q)
    /\ (In RAIN_WARNING ws <-> rainy = true)
    /\ (In COLD_WARNING (text_lines out)
        <-> (q < 10)%Q
            \/ Exists (fun line => In COLD_WARNING (text_lines line))
                 (copied_lines name route notes d sunrise sunset)).
Proof.
  intros Hp Hmin Hq.
  destruct (forecast_lines_printable d Hp)
    as (v' & sunrise & sunset & rainy & cold & Hmin' & Esr & Ess & Erainy & Ecold & Elines).
  rewrite Hmin in Hmin'. injection Hmin' as <-.
  assert (Hws : weather_lines date (Some d) =
                Ok (forecast_detail_lines d sunrise sunset
                    ++ (if rainy then [RAIN_WARNING] else [])
                    ++ (if cold then [COLD_WARNING] else []))).
  { unfold weather_lines. rewrite (dict_truthy_lookup d _ _ Hmin). exact Elines. }
  assert (Hc : cold = true <-> (q < 10)%Q).
  { exact (py_lt_num_value v 10 q cold Hq Ecold). }
  exists sunrise, sunset, rainy. eexists. eexists.
  split; [exact Esr|]. split; [exact Ess|]. split; [exact Erainy|].
  split; [exact Hws|].
  split; [rewrite generate_full_details_sections, Hws; reflexivity|].
  split; [reflexivity|]. split; [|split].
  - rewrite cold_warning_in_forecast. exact Hc.
  - apply rain_warning_in_forecast.
  - rewrite warning_line_of_text
      by (first [now right | apply advisories_are_warnings]).
    rewrite cold_warning_among_advisories, Hc. reflexivity.
Qed.

(** C4: with no forecast snapshot the composer returns the itinerary
    whose weather section is the seasonal heading, the generic
    confirm-closer-to-departure notice, and exactly the advisory the
    specification maps the month of the date to: icy/crampon for months
    12, 1, 2, 3; plum rain for 5, 6; typhoon/sun for 7, 8, 9; nothing
    more for 4, 10, 11. *)
Theorem seasonal_advisory_by_month name route date notes :
  generate_full_details name route date None notes
  = Ok (PyStr.join PyStr.NL
          (head_lines name route notes
           ++ (SEASONAL_HEADING :: SEASONAL_NOTICE :: spec_advisory (Cal.month date))
           ++ tail_lines name)).
Proof.
  rewrite generate_full_details_sections. cbn [weather_lines dict_truthy].
  unfold seasonal_lines. now rewrite seasonal_advice_spec.
Qed.

(** C5 (the code departs from it): on a forecast snapshot whose sunrise
    is [None], as the table holds it for a missing value, neither weather
    section reaches the output: the slice of line 74 raises [TypeError]
    and the composer returns no text at all. *)
Theorem neither_weather_section_on_none_sunrise :
  weather_lines (Cal.mkdate 2024 1 15) (Some (<["sunrise" := PyNone]> snapshot_A))
  = Raise TypeError
  /\ generate_full_details "合歡山主峰" "西北稜線" (Cal.mkdate 2024 1 15)
       (Some (<["sunrise" := PyNone]> snapshot_A)) "07:00 登山口集合"
     = Raise TypeError.
Proof.
  rewrite generate_full_details_sections.
  assert (H : weather_lines (Cal.mkdate 2024 1 15)
                (Some (<["sunrise" := PyNone]> snapshot_A)) = Raise TypeError).
  { vm_compute. reflexivity. }
  rewrite H. split; reflexivity.
Qed.

(** C6: a call returns the same text whatever an earlier call left
    behind, and leaves the caller's forecast snapshot as it was: calling
    the composer a second time, on the state the first call ended in,
    returns the identical result, which is the function
    [generate_full_details] of the five arguments alone. *)
Theorem compose_twice_identical name route date info notes stale :
  let first := call_generate_full_details name route date info notes stale in
  let second :=
    call_generate_full_details name route date
      (weather_info (snd first)) notes (details (snd first)) in
  fst second = fst first
  /\ fst first = generate_full_details name route date info notes
  /\ weather_info (snd first) = info
  /\ weather_info (snd second) = info.
Proof.
  cbv zeta. unfold generate_full_details, call_generate_full_details.
  rewrite !generate_full_details_body_result.
  rewrite ?generate_full_details_body_frame.
  cbn [weather_info]. rewrite ?generate_full_details_body_frame.
  cbn [weather_info]. repeat split.
Qed.

(** C10: an empty forecast snapshot is composed exactly as no snapshot:
    it goes to the seasonal branch. *)
Theorem empty_snapshot_as_none name route date notes :
  generate_full_details name route date (Some ∅) notes
  = generate_full_details name route date None notes.
Proof.
  rewrite !generate_full_details_sections. reflexivity.
Qed.

End Composer.

(** ** Percent-encoding *)

Lemma decode_quote_byte a rest :
  Url.percent_decode (Url.quote_byte a +:+ rest) = String a (Url.percent_decode rest).
Proof.
  destruct a as [b0 b1 b2 b3 b4 b5 b6 b7].
  destruct b0, b1, b2, b3, b4, b5, b6, b7; reflexivity.
Qed.

Lemma decode_quote s : Url.percent_decode (Url.quote s) = s.
Proof.
  induction s as [|a s IH]; [reflexivity|].
  cbn [Url.quote]. rewrite decode_quote_byte. now rewrite IH.
Qed.

(** An encoded byte never contains [&]. *)
Lemma until_amp_quote_byte a rest :
  Url.until_amp (Url.quote_byte a +:+ rest) = Url.quote_byte a +:+ Url.until_amp rest.
Proof.
  destruct a as [b0 b1 b2 b3 b4 b5 b6 b7].
  destruct b0, b1, b2, b3, b4, b5, b6, b7; reflexivity.
Qed.

Lemma until_amp_quote s rest :
  Url.until_amp (Url.quote s +:+ rest) = Url.quote s +:+ Url.until_amp rest.
Proof.
  induction s as [|a s IH]; [reflexivity|].
  cbn [Url.quote]. rewrite !append_assoc, until_amp_quote_byte. now rewrite IH.
Qed.

Lemma substring_all (s : string) : String.substring 0 (String.length s) s = s.
Proof.
  induction s as [|a s IH]; cbn [String.length String.substring];
    [reflexivity | f_equal; exact IH].
Qed.

(** Dropping a known prefix from a URL. *)
Lemma substring_after_prefix (p x : string) :
  String.substring (String.length p)
    (String.length (p +:+ x) - String.length p) (p +:+ x) = x.
Proof.
  induction p as [|a p IH].
  - change (EmptyString +:+ x) with x. cbn [String.length].
    rewrite Nat.sub_0_r. apply substring_all.
  - rewrite append_cons. cbn [String.length String.substring Nat.sub]. exact IH.
Qed.

Lemma query_value_map_url name :
  Url.query_value Url.MAP_SEARCH (Url.map_url name) = Url.quote name.
Proof.
  unfold Url.query_value, Url.map_url. rewrite substring_after_prefix.
  rewrite <- (append_empty_r (Url.quote name)) at 1.
  rewrite until_amp_quote. apply append_empty_r.
Qed.

Lemma query_value_biji_link name :
  Url.query_value Url.BIJI_SEARCH (Url.biji_link name) = Url.quote name.
Proof.
  unfold Url.query_value, Url.biji_link. cbv zeta. rewrite substring_after_prefix.
  rewrite until_amp_quote. apply append_empty_r.
Qed.

(** C8: the composer embeds the map-search link and the trail-notes
    search link in its lines, and percent-decoding the destination name
    found in either link gives back the destination name, whatever bytes
    (multi-byte characters, spaces, reserved characters) it is made of. *)
Theorem destination_name_round_trip name route notes :
  In ("📍 Google Maps 導航：" +:+ Url.map_url name) (head_lines name route notes)
  /\ In (PyStr.NL +:+ "🔗 健行筆記搜尋：" +:+ Url.biji_link name) (tail_lines name)
  /\ Url.percent_decode (Url.query_value Url.MAP_SEARCH (Url.map_url name)) = name
  /\ Url.percent_decode (Url.query_value Url.BIJI_SEARCH (Url.biji_link name)) = name.
Proof.
  split; [|split; [|split]].
  - unfold head_lines. rewrite !in_app_iff. right. left. now left.
  - unfold tail_lines. do 5 right. now left.
  - rewrite query_value_map_url. apply decode_quote.
  - rewrite query_value_biji_link. apply decode_quote.
Qed.

(** ** The location resolver *)

(** C9: when the geocoding collaborator finds no match, or raises an
    error (a timeout included), the resolver returns [NotFound] and
    nothing propagates. *)
Theorem get_coordinates_not_found geocode place_name :
  (geocode ("台灣 " +:+ place_name) 10 = Geo.NoMatch
   \/ exists e, geocode ("台灣 " +:+ place_name) 10 = Geo.Raised e
                /\ is_Exception e = true) ->
  Geo.get_coordinates geocode place_name = Ok Geo.NotFound.
Proof.
  unfold Geo.get_coordinates. cbv zeta.
  intros [-> | (e & -> & He)]; [reflexivity|]. now rewrite He.
Qed.

(** On a match the resolver returns the three components of the
    location. *)
Lemma get_coordinates_located geocode place_name location :
  geocode ("台灣 " +:+ place_name) 10 = Geo.Located location ->
  Geo.get_coordinates geocode place_name
  = Ok (Some (Geo.latitude location), Some (Geo.longitude location),
        Some (Geo.address location)).
Proof. unfold Geo.get_coordinates. cbv zeta. now intros ->. Qed.

(** ** The calendar date range *)

Lemma is_leap_spec y :
  Cal.is_leap y = true <-> (y mod 4 = 0 /\ (y mod 100 <> 0 \/ y mod 400 = 0)).
Proof.
  unfold Cal.is_leap.
  rewrite andb_true_iff, orb_true_iff, negb_true_iff, !Z.eqb_eq, Z.eqb_neq.
  reflexivity.
Qed.

(** A year has 366 days when it is a leap year and 365 otherwise. *)
Lemma days_before_year_succ y :
  Cal.days_before_year (y + 1)
  = Cal.days_before_year y + (if Cal.is_leap y then 366 else 365).
Proof.
  unfold Cal.days_before_year. cbv zeta.
  replace (y + 1 - 1) with (y - 1 + 1) by lia.
  destruct (Cal.is_leap y) eqn:E.
  - apply is_leap_spec in E. Z.div_mod_to_equations. lia.
  - assert (H : ~ (y mod 4 = 0 /\ (y mod 100 <> 0 \/ y mod 400 = 0))).
    { rewrite <- is_leap_spec, E. discriminate. }
    Z.div_mod_to_equations. lia.
Qed.

Lemma month_cases m :
  1 <= m <= 12 ->
  m = 1 \/ m = 2 \/ m = 3 \/ m = 4 \/ m = 5 \/ m = 6 \/ m = 7 \/ m = 8
  \/ m = 9 \/ m = 10 \/ m = 11 \/ m = 12.
Proof. lia. Qed.

(** The table of days before a month adds up the months before it. *)
Lemma days_before_month_succ y m :
  1 <= m < 12 ->
  Cal.days_before_month y (m + 1) = Cal.days_before_month y m + Cal.days_in_month y m.
Proof.
  intros Hm. assert (H : 1 <= m <= 12) by lia. apply month_cases in H.
  unfold Cal.days_before_month, Cal.days_in_month.
  repeat (destruct H as [-> | H]); [..| lia];
    destruct (Cal.is_leap y); reflexivity.
Qed.

Lemma days_before_month_december y :
  Cal.days_before_month y 12 + Cal.days_in_month y 12
  = if Cal.is_leap y then 366 else 365.
Proof.
  unfold Cal.days_before_month, Cal.days_in_month.
  destruct (Cal.is_leap y); reflexivity.
Qed.

Lemma days_in_month_bounds y m : 1 <= m <= 12 -> 28 <= Cal.days_in_month y m <= 31.
Proof.
  intros H. apply month_cases in H. unfold Cal.days_in_month.
  repeat (destruct H as [-> | H]); [..| subst m];
    try destruct (Cal.is_leap y); lia.
Qed.

(** The day after a valid date is the next ordinal. *)
Lemma next_day_toordinal d :
  Cal.valid_date d -> Cal.toordinal (Cal.next_day d) = Cal.toordinal d + 1.
Proof.
  destruct d as [y m dd]. unfold Cal.valid_date, Cal.next_day, Cal.toordinal.
  cbn [Cal.year Cal.month Cal.day]. intros (Hy & Hm & Hd).
  destruct (Z.ltb_spec dd (Cal.days_in_month y m)) as [Hlt|Hge];
    [cbn [Cal.year Cal.month Cal.day]; lia|].
  destruct (Z.ltb_spec m 12) as [Hm12|Hm12]; cbn [Cal.year Cal.month Cal.day].
  - rewrite days_before_month_succ by lia. lia.
  - assert (m = 12) by lia. subst m.
    pose proof (days_before_month_december y) as Hdec.
    rewrite days_before_year_succ.
    change (Cal.days_before_month (y + 1) 1) with 0.
    destruct (Cal.is_leap y); lia.
Qed.

Lemma next_day_valid d :
  Cal.valid_date d -> Cal.year (Cal.next_day d) <= Cal.MAXYEAR ->
  Cal.valid_date (Cal.next_day d).
Proof.
  destruct d as [y m dd]. unfold Cal.valid_date, Cal.next_day.
  cbn [Cal.year Cal.month Cal.day]. intros (Hy & Hm & Hd).
  destruct (Z.ltb_spec dd (Cal.days_in_month y m)) as [Hlt|Hge];
    [cbn [Cal.year Cal.month Cal.day]; lia|].
  destruct (Z.ltb_spec m 12) as [Hm12|Hm12]; cbn [Cal.year Cal.month Cal.day];
    intros Hmax.
  - pose proof (days_in_month_bounds y (m + 1)). lia.
  - change (Cal.days_in_month (y + 1) 1) with 31. lia.
Qed.

(** Later years start at later ordinals. *)
Lemma days_before_year_mono y1 y2 :
  y1 <= y2 -> Cal.days_before_year y1 <= Cal.days_before_year y2.
Proof.
  unfold Cal.days_before_year. cbv zeta. intros H.
  Z.div_mod_to_equations. lia.
Qed.

(** The ordinal of a valid date lies within its year. *)
Lemma toordinal_within_year d :
  Cal.valid_date d ->
  Cal.days_before_year (Cal.year d) < Cal.toordinal d
  <= Cal.days_before_year (Cal.year d + 1).
Proof.
  destruct d as [y m dd]. unfold Cal.valid_date, Cal.toordinal.
  cbn [Cal.year Cal.month Cal.day]. intros (Hy & Hm & Hd).
  rewrite days_before_year_succ.
  apply month_cases in Hm. unfold Cal.days_before_month, Cal.days_in_month in *.
  repeat (destruct Hm as [Hm | Hm]); subst m;
    destruct (Cal.is_leap y); cbn in *; lia.
Qed.

(** Within a year, month and day are read off the day of the year. *)
Lemma day_of_year_inj y m1 d1 m2 d2 :
  1 <= m1 <= 12 -> 1 <= d1 <= Cal.days_in_month y m1 ->
  1 <= m2 <= 12 -> 1 <= d2 <= Cal.days_in_month y m2 ->
  Cal.days_before_month y m1 + d1 = Cal.days_before_month y m2 + d2 ->
  m1 = m2 /\ d1 = d2.
Proof.
  intros Hm1 Hd1 Hm2 Hd2.
  apply month_cases in Hm1. apply month_cases in Hm2.
  unfold Cal.days_before_month, Cal.days_in_month in *.
  destruct (Cal.is_leap y);
    repeat (destruct Hm1 as [Hm1 | Hm1]); subst m1;
    repeat (destruct Hm2 as [Hm2 | Hm2]); subst m2;
    cbn in *; lia.
Qed.

Lemma toordinal_inj d1 d2 :
  Cal.valid_date d1 -> Cal.valid_date d2 ->
  Cal.toordinal d1 = Cal.toordinal d2 -> d1 = d2.
Proof.
  intros H1 H2 Heq.
  pose proof (toordinal_within_year d1 H1) as B1.
  pose proof (toordinal_within_year d2 H2) as B2.
  assert (Hy : Cal.year d1 = Cal.year d2).
  { destruct (Z.lt_trichotomy (Cal.year d1) (Cal.year d2)) as [Hlt | [Heqy | Hgt]];
      [|exact Heqy|].
    - pose proof (days_before_year_mono (Cal.year d1 + 1) (Cal.year d2)). lia.
    - pose proof (days_before_year_mono (Cal.year d2 + 1) (Cal.year d1)). lia. }
  destruct d1 as [y1 m1 dd1], d2 as [y2 m2 dd2].
  unfold Cal.valid_date, Cal.toordinal in *. cbn [Cal.year Cal.month Cal.day] in *.
  subst y2. destruct H1 as (_ & Hm1 & Hdd1), H2 as (_ & Hm2 & Hdd2).
  assert (Hmd : m1 = m2 /\ dd1 = dd2)
    by (apply (day_of_year_inj y1); [exact Hm1 | exact Hdd1 | exact Hm2 | exact Hdd2 | lia]).
  destruct Hmd as [-> ->]. reflexivity.
Qed.

(** A valid date-time is determined by its position on the scale of
    seconds. *)
Lemma total_seconds_inj dt1 dt2 :
  Cal.valid_date (Cal.dt_date dt1) -> Cal.valid_time (Cal.dt_time dt1) ->
  Cal.valid_date (Cal.dt_date dt2) -> Cal.valid_time (Cal.dt_time dt2) ->
  Cal.total_seconds dt1 = Cal.total_seconds dt2 -> dt1 = dt2.
Proof.
  destruct dt1 as [d1 [h1 mi1 s1]], dt2 as [d2 [h2 mi2 s2]].
  unfold Cal.total_seconds, Cal.valid_time.
  cbn [Cal.dt_date Cal.dt_time Cal.hour Cal.minute Cal.second].
  intros Hd1 Ht1 Hd2 Ht2 Heq.
  assert (Hord : Cal.toordinal d1 = Cal.toordinal d2) by lia.
  rewrite (toordinal_inj d1 d2 Hd1 Hd2 Hord) in *.
  assert (h1 = h2) by lia. assert (mi1 = mi2) by lia. assert (s1 = s2) by lia.
  now subst.
Qed.

(** Splitting seconds of a day into hours, minutes and seconds loses
    nothing. *)
Lemma hms_recombine secs :
  0 <= secs < 86400 ->
  secs / 3600 * 3600 + secs mod 3600 / 60 * 60 + secs mod 60 = secs
  /\ Cal.valid_time (Cal.mktime (secs / 3600) (secs mod 3600 / 60) (secs mod 60)).
Proof.
  intros H. unfold Cal.valid_time. cbn [Cal.hour Cal.minute Cal.second].
  Z.div_mod_to_equations. lia.
Qed.

(** Six hours after a valid date-time: the same day, or the next day when
    the time of day passes midnight. *)
Lemma add_six_hours d t :
  Cal.valid_date d -> Cal.valid_time t ->
  (d = Cal.mkdate 9999 12 31 -> Cal.hour t < 18) ->
  exists end_dt,
    Cal.add_seconds (Cal.combine d t) Cal.SIX_HOURS = Ok end_dt
    /\ Cal.total_seconds end_dt = Cal.total_seconds (Cal.combine d t) + 6 * 3600
    /\ Cal.valid_date (Cal.dt_date end_dt)
    /\ Cal.valid_time (Cal.dt_time end_dt)
    /\ Cal.year d <= Cal.year (Cal.dt_date end_dt).
Proof.
  intros Hd Ht Hover. unfold Cal.add_seconds, Cal.total_seconds, Cal.combine.
  cbn [Cal.dt_date Cal.dt_time]. cbv zeta.
  destruct t as [h mi s]. unfold Cal.valid_time in Ht.
  cbn [Cal.hour Cal.minute Cal.second] in *.
  change Cal.SIX_HOURS with 21600.
  set (total := h * 3600 + mi * 60 + s + 21600).
  destruct (Z.lt_ge_cases total 86400) as [Hsame|Hnext].
  - assert (Hq : total / 86400 = 0 /\ total mod 86400 = total)
      by (Z.div_mod_to_equations; lia).
    destruct Hq as [-> ->].
    change (Nat.iter (Z.to_nat 0) Cal.next_day d) with d.
    assert (Hy : (Cal.year d <=? Cal.MAXYEAR) = true)
      by (apply Z.leb_le; unfold Cal.valid_date in Hd; lia).
    rewrite Hy. eexists. split; [reflexivity|].
    cbn [Cal.dt_date Cal.dt_time Cal.hour Cal.minute Cal.second].
    destruct (hms_recombine total) as [Hsum Hval]; [lia|].
    split; [lia|]. split; [exact Hd|]. split; [exact Hval|]. lia.
  - assert (Hq : total / 86400 = 1 /\ total mod 86400 = total - 86400)
      by (Z.div_mod_to_equations; lia).
    destruct Hq as [-> ->].
    change (Nat.iter (Z.to_nat 1) Cal.next_day d) with (Cal.next_day d).
    assert (Hyear : Cal.year d <= Cal.year (Cal.next_day d) <= Cal.MAXYEAR).
    { destruct d as [y m dd]. unfold Cal.valid_date, Cal.next_day in *.
      cbn [Cal.year Cal.month Cal.day] in *.
      destruct Hd as (Hy & Hm & Hdd).
      destruct (Z.ltb_spec dd (Cal.days_in_month y m));
        [cbn [Cal.year]; lia|].
      destruct (Z.ltb_spec m 12); cbn [Cal.year]; [lia|].
      assert (m = 12) by lia. subst m.
      change (Cal.days_in_month y 12) with 31 in *.
      assert (dd = 31) by lia. subst dd.
      destruct (Z.eq_dec y 9999) as [-> | Hne]; [|unfold Cal.MAXYEAR in *; lia].
      specialize (Hover eq_refl). lia. }
    assert (Hy : (Cal.year (Cal.next_day d) <=? Cal.MAXYEAR) = true)
      by (apply Z.leb_le; lia).
    rewrite Hy. eexists. split; [reflexivity|].
    cbn [Cal.dt_date Cal.dt_time Cal.hour Cal.minute Cal.second].
    destruct (hms_recombine (total - 86400)) as [Hsum Hval]; [lia|].
    rewrite next_day_toordinal by exact Hd.
    split; [lia|]. split; [apply next_day_valid; [exact Hd | lia]|].
    split; [exact Hval | lia].
Qed.

(** Checking a property of every number below a bound by running it. *)
Lemma forall_below (P : Z -> bool) (n : Z) :
  forallb P (map Z.of_nat (seq 0 (Z.to_nat n))) = true ->
  forall z, 0 <= z < n -> P z = true.
Proof.
  intros H z Hz. rewrite forallb_forall in H. apply H.
  apply in_map_iff. exists (Z.to_nat z). split; [lia|]. apply in_seq. lia.
Qed.

Lemma zpad_2_length z : 0 <= z < 100 -> String.length (PyStr.zpad 2 z) = 2%nat.
Proof.
  intros Hz. apply Nat.eqb_eq.
  apply (forall_below (fun z => Nat.eqb (String.length (PyStr.zpad 2 z)) 2) 100);
    [vm_compute; reflexivity | lia].
Qed.

Lemma zpad_4_length z : 0 <= z < 10000 -> String.length (PyStr.zpad 4 z) = 4%nat.
Proof.
  intros Hz. apply Nat.eqb_eq.
  apply (forall_below (fun z => Nat.eqb (String.length (PyStr.zpad 4 z)) 4) 10000);
    [vm_compute; reflexivity | lia].
Qed.

Lemma length_append (s1 s2 : string) :
  String.length (s1 +:+ s2) = (String.length s1 + String.length s2)%nat.
Proof.
  induction s1 as [|a s1 IH]; [reflexivity|].
  rewrite append_cons. cbn [String.length]. now rewrite IH.
Qed.

(** A valid date-time prints as the fifteen characters
    [YYYYMMDDTHHMMSS]. *)
Lemma strftime_length dt :
  Cal.valid_date (Cal.dt_date dt) -> Cal.valid_time (Cal.dt_time dt) ->
  String.length (Cal.strftime dt) = 15%nat.
Proof.
  destruct dt as [[y m dd] [h mi s]]. unfold Cal.valid_date, Cal.valid_time, Cal.strftime.
  cbn [Cal.dt_date Cal.dt_time Cal.year Cal.month Cal.day Cal.hour Cal.minute Cal.second].
  cbv zeta. intros (Hy & Hm & Hdd) (Hh & Hmi & Hs).
  pose proof (days_in_month_bounds y m Hm).
  rewrite !length_append.
  rewrite zpad_4_length by (unfold Cal.MAXYEAR in *; lia).
  rewrite !zpad_2_length by lia. reflexivity.
Qed.

(** C7: for a departure date (from year 1000 on) and a start time, the
    calendar link's end is the date-time exactly six hours after the
    start (the only valid date-time 21600 seconds later), both are
    printed as fifteen-character [YYYYMMDDTHHMMSS] timestamps joined by
    [/], and for 2024-03-01 06:00 the token is
    [20240301T060000/20240301T120000]. Only a start in the last six hours
    of year 9999 has no end date-time. *)
Theorem dates_str_six_hours d t :
  Cal.valid_date d -> Cal.valid_time t -> 1000 <= Cal.year d ->
  (d = Cal.mkdate 9999 12 31 -> Cal.hour t < 18) ->
  exists end_dt,
    Cal.add_seconds (Cal.combine d t) Cal.SIX_HOURS = Ok end_dt
    /\ Cal.total_seconds end_dt = Cal.total_seconds (Cal.combine d t) + 6 * 3600
    /\ Cal.valid_date (Cal.dt_date end_dt)
    /\ Cal.valid_time (Cal.dt_time end_dt)
    /\ (forall dt,
          Cal.valid_date (Cal.dt_date dt) -> Cal.valid_time (Cal.dt_time dt) ->
          Cal.total_seconds dt = Cal.total_seconds (Cal.combine d t) + 6 * 3600 ->
          dt = end_dt)
    /\ Cal.dates_str d t
       = Ok (Cal.strftime (Cal.combine d t) +:+ "/" +:+ Cal.strftime end_dt)
    /\ String.length (Cal.strftime (Cal.combine d t)) = 15%nat
    /\ String.length (Cal.strftime end_dt) = 15%nat
    /\ Cal.dates_str (Cal.mkdate 2024 3 1) (Cal.mktime 6 0 0)
       = Ok "20240301T060000/20240301T120000".
Proof.
  intros Hd Ht Hy Hover.
  destruct (add_six_hours d t Hd Ht Hover) as (end_dt & Hadd & Hsec & Hvd & Hvt & _).
  exists end_dt. split; [exact Hadd|]. split; [exact Hsec|].
  split; [exact Hvd|]. split; [exact Hvt|].
  split; [intros dt Hdv Htv Hdt; apply total_seconds_inj; auto; lia|].
  split; [unfold Cal.dates_str; cbv zeta; now rewrite Hadd|].
  split; [now apply strftime_length|].
  split; [now apply strftime_length|].
  vm_compute. reflexivity.
Qed.

(** ** The claims at concrete inputs *)

(** Scenario A (rain 60, minimum -2) meets the hypotheses of C2. *)
Lemma rain_warning_iff_at_least_30_witness :
  printable_snapshot snapshot_A = true
  /\ snapshot_A !! "rain_prob" = Some (PyInt 60)
  /\ exists sunrise sunset ws out,
       py_last5 (dict_get snapshot_A "sunrise" (PyStr "未知")) = Ok sunrise
       /\ py_last5 (dict_get snapshot_A "sunset" (PyStr "未知")) = Ok sunset
       /\ weather_lines sample_float_str (Cal.mkdate 2024 1 15) (Some snapshot_A) = Ok ws
       /\ generate_full_details sample_float_str "合歡山主峰" "" (Cal.mkdate 2024 1 15)
            (Some snapshot_A) ""
          = Ok out
       /\ out = PyStr.join PyStr.NL
                  (head_lines "合歡山主峰" "" "" ++ ws ++ tail_lines "合歡山主峰")
       /\ (In RAIN_WARNING ws <-> 30 <= 60)
       /\ (In RAIN_WARNING (text_lines out)
           <-> 30 <= 60
               \/ Exists (fun line => In RAIN_WARNING (text_lines line))
                    (copied_lines sample_float_str "合歡山主峰" "" "" snapshot_A
                       sunrise sunset)).
Proof.
  split; [vm_compute; reflexivity|].
  split; [vm_compute; reflexivity|].
  apply (rain_warning_iff_at_least_30 sample_float_str "合歡山主峰" ""
           (Cal.mkdate 2024 1 15) "" snapshot_A 60);
    vm_compute; reflexivity.
Defined.

(** C2 as it is stated fails on notes that quote the warning: the rain
    probability is 0, the forecast is printed, and the rain-gear warning
    is a line of the returned text all the same. *)
Lemma rain_warning_quoted_in_notes :
  (<["rain_prob" := PyInt 0]> snapshot_A) !! "rain_prob" = Some (PyInt 0)
  /\ ~ 30 <= 0
  /\ exists out,
       generate_full_details sample_float_str "合歡山主峰" "" (Cal.mkdate 2024 1 15)
         (Some (<["rain_prob" := PyInt 0]> snapshot_A)) (notes_quoting RAIN_WARNING)
       = Ok out
       /\ In RAIN_WARNING (text_lines out).
Proof.
  split; [vm_compute; reflexivity|]. split; [lia|].
  eexists. split; [vm_compute; reflexivity|].
  vm_compute. repeat (first [left; reflexivity | right]).
Qed.

(** Scenario A with the minimum temperature 9.9 meets the hypotheses of
    C3. *)
Lemma cold_warning_iff_below_10_witness :
  printable_snapshot (<["min_temp" := PyFloat float_9_9]> snapshot_A) = true
  /\ (<["min_temp" := PyFloat float_9_9]> snapshot_A) !! "min_temp"
     = Some (PyFloat float_9_9)
  /\ num_value (PyFloat float_9_9)
     = Some (finite_value false 5573204538870989 (-49))
  /\ exists sunrise sunset rainy ws out,
       py_last5 (dict_get (<["min_temp" := PyFloat float_9_9]> snapshot_A)
                   "sunrise" (PyStr "未知")) = Ok sunrise
       /\ py_last5 (dict_get (<["min_temp" := PyFloat float_9_9]> snapshot_A)
                      "sunset" (PyStr "未知")) = Ok sunset
       /\ py_ge (dict_get (<["min_temp" := PyFloat float_9_9]> snapshot_A)
                   "rain_prob" (PyInt 0)) 30 = Ok rainy
       /\ weather_lines sample_float_str (Cal.mkdate 2024 1 15)
            (Some (<["min_temp" := PyFloat float_9_9]> snapshot_A)) = Ok ws
       /\ generate_full_details sample_float_str "合歡山主峰" "" (Cal.mkdate 2024 1 15)
            (Some (<["min_temp" := PyFloat float_9_9]> snapshot_A)) ""
          = Ok out
       /\ out = PyStr.join PyStr.NL
                  (head_lines "合歡山主峰" "" "" ++ ws ++ tail_lines "合歡山主峰")
       /\ (In COLD_WARNING ws
           <-> (finite_value false 5573204538870989 (-49) < 10)%Q)
       /\ (In RAIN_WARNING ws <-> rainy = true)
       /\ (In COLD_WARNING (text_lines out)
           <-> (finite_value false 5573204538870989 (-49) < 10)%Q
               \/ Exists (fun line => In COLD_WARNING (text_lines line))
                    (copied_lines sample_float_str "合歡山主峰" "" ""
                       (<["min_temp" := PyFloat float_9_9]> snapshot_A)
                       sunrise sunset)).
Proof.
  split; [vm_compute; reflexivity|].
  split; [vm_compute; reflexivity|].
  split; [reflexivity|].
  apply (cold_warning_iff_below_10 sample_float_str "合歡山主峰" ""
           (Cal.mkdate 2024 1 15) ""
           (<["min_temp" := PyFloat float_9_9]> snapshot_A)
           (PyFloat float_9_9) (finite_value false 5573204538870989 (-49)));
    vm_compute; reflexivity.
Defined.

(** C3 as it is stated fails on notes that quote the warning: the
    minimum temperature is 20, the forecast is printed, and the
    cold-weather warning is a line of the returned text all the same. *)
Lemma cold_warning_quoted_in_notes :
  (<["min_temp" := PyInt 20]> snapshot_A) !! "min_temp" = Some (PyInt 20)
  /\ num_value (PyInt 20) = Some (inject_Z 20)
  /\ ~ (inject_Z 20 < 10)%Q
  /\ exists out,
       generate_full_details sample_float_str "合歡山主峰" "" (Cal.mkdate 2024 1 15)
         (Some (<["min_temp" := PyInt 20]> snapshot_A)) (notes_quoting COLD_WARNING)
       = Ok out
       /\ In COLD_WARNING (text_lines out).
Proof.
  split; [vm_compute; reflexivity|]. split; [reflexivity|].
  split; [intros H; vm_compute in H; discriminate H|].
  eexists. split; [vm_compute; reflexivity|].
  vm_compute. repeat (first [left; reflexivity | right]).
Qed.

(** 2024-03-01 06:00 meets the hypotheses of C7. *)
Lemma dates_str_six_hours_witness :
  Cal.valid_date (Cal.mkdate 2024 3 1)
  /\ Cal.valid_time (Cal.mktime 6 0 0)
  /\ 1000 <= Cal.year (Cal.mkdate 2024 3 1)
  /\ (Cal.mkdate 2024 3 1 = Cal.mkdate 9999 12 31 -> Cal.hour (Cal.mktime 6 0 0) < 18)
  /\ exists end_dt,
       Cal.add_seconds (Cal.combine (Cal.mkdate 2024 3 1) (Cal.mktime 6 0 0))
         Cal.SIX_HOURS = Ok end_dt
       /\ Cal.total_seconds end_dt
          = Cal.total_seconds (Cal.combine (Cal.mkdate 2024 3 1) (Cal.mktime 6 0 0))
            + 6 * 3600
       /\ Cal.valid_date (Cal.dt_date end_dt)
       /\ Cal.valid_time (Cal.dt_time end_dt)
       /\ (forall dt,
             Cal.valid_date (Cal.dt_date dt) -> Cal.valid_time (Cal.dt_time dt) ->
             Cal.total_seconds dt
             = Cal.total_seconds (Cal.combine (Cal.mkdate 2024 3 1) (Cal.mktime 6 0 0))
               + 6 * 3600 ->
             dt = end_dt)
       /\ Cal.dates_str (Cal.mkdate 2024 3 1) (Cal.mktime 6 0 0)
          = Ok (Cal.strftime (Cal.combine (Cal.mkdate 2024 3 1) (Cal.mktime 6 0 0))
                +:+ "/" +:+ Cal.strftime end_dt)
       /\ String.length
            (Cal.strftime (Cal.combine (Cal.mkdate 2024 3 1) (Cal.mktime 6 0 0)))
          = 15%nat
       /\ String.length (Cal.strftime end_dt) = 15%nat
       /\ Cal.dates_str (Cal.mkdate 2024 3 1) (Cal.mktime 6 0 0)
          = Ok "20240301T060000/20240301T120000".
Proof.
  split; [unfold Cal.valid_date, Cal.MAXYEAR; cbn; lia|].
  split; [unfold Cal.valid_time; cbn; lia|].
  split; [cbn; lia|].
  split; [intros _; cbn; lia|].
  apply (dates_str_six_hours (Cal.mkdate 2024 3 1) (Cal.mktime 6 0 0)).
  - unfold Cal.valid_date, Cal.MAXYEAR; cbn; lia.
  - unfold Cal.valid_time; cbn; lia.
  - cbn; lia.
  - intros _; cbn; lia.
Defined.

(** A collaborator that times out meets the hypothesis of C9. *)
Lemma get_coordinates_not_found_witness :
  (geocode_timing_out ("台灣 " +:+ "玉山") 10 = Geo.NoMatch
   \/ exists e, geocode_timing_out ("台灣 " +:+ "玉山") 10 = Geo.Raised e
                /\ is_Exception e = true)
  /\ Geo.get_coordinates geocode_timing_out "玉山" = Ok Geo.NotFound.
Proof.
  assert (H : geocode_timing_out ("台灣 " +:+ "玉山") 10 = Geo.NoMatch
              \/ exists e, geocode_timing_out ("台灣 " +:+ "玉山") 10 = Geo.Raised e
                           /\ is_Exception e = true).
  { right. exists GeocoderTimedOut. split; reflexivity. }
  split; [exact H|].
  apply (get_coordinates_not_found geocode_timing_out "玉山" H).
Defined.

(** ** The thresholds and the failure at their boundary values *)

Example rain_29_no_warning :
  forecast_lines sample_float_str (<["rain_prob" := PyInt 29]> snapshot_A)
  = Ok (forecast_detail_lines sample_float_str
          (<["rain_prob" := PyInt 29]> snapshot_A) "06:30" "17:10"
        ++ [COLD_WARNING]).
Proof. vm_compute. reflexivity. Qed.

Example rain_30_warning :
  forecast_lines sample_float_str (<["rain_prob" := PyInt 30]> snapshot_A)
  = Ok (forecast_detail_lines sample_float_str
          (<["rain_prob" := PyInt 30]> snapshot_A) "06:30" "17:10"
        ++ [RAIN_WARNING; COLD_WARNING]).
Proof. vm_compute. reflexivity. Qed.

Example min_10_0_no_warning :
  forecast_lines sample_float_str (<["min_temp" := PyFloat float_10_0]> snapshot_A)
  = Ok (forecast_detail_lines sample_float_str
          (<["min_temp" := PyFloat float_10_0]> snapshot_A) "06:30" "17:10"
        ++ [RAIN_WARNING]).
Proof. vm_compute. reflexivity. Qed.

Example min_9_9_warning :
  forecast_lines sample_float_str (<["min_temp" := PyFloat float_9_9]> snapshot_A)
  = Ok (forecast_detail_lines sample_float_str
          (<["min_temp" := PyFloat float_9_9]> snapshot_A) "06:30" "17:10"
        ++ [RAIN_WARNING; COLD_WARNING]).
Proof. vm_compute. reflexivity. Qed.

(** A minimum temperature that is NaN is compared without error and
    gives no warning. *)
Example min_nan_no_warning :
  forecast_lines sample_float_str (<["min_temp" := PyFloat S754_nan]> snapshot_A)
  = Ok (forecast_detail_lines sample_float_str
          (<["min_temp" := PyFloat S754_nan]> snapshot_A) "06:30" "17:10"
        ++ [RAIN_WARNING]).
Proof. vm_compute. reflexivity. Qed.

(** A field that is present but [None] raises as well. *)
Example sunrise_none_raises :
  generate_full_details sample_float_str "合歡山主峰" "" (Cal.mkdate 2024 1 15)
    (Some (<["sunrise" := PyNone]> snapshot_A)) ""
  = Raise TypeError.
Proof. vm_compute. reflexivity. Qed.

(** An interrupt is not an error and passes through the resolver. *)
Example get_coordinates_interrupt place_name :
  Geo.get_coordinates (fun _ _ => Geo.Raised KeyboardInterrupt) place_name
  = Raise KeyboardInterrupt.
Proof. reflexivity. Qed.

(** * Further properties of the code *)

(** ** The query string of the calendar link *)

Lemma unquote_plus_quote_plus_byte a rest :
  Url.percent_decode (Query.plus_to_space (Query.quote_plus_byte a +:+ rest))
  = String a (Url.percent_decode (Query.plus_to_space rest)).
Proof.
  destruct a as [b0 b1 b2 b3 b4 b5 b6 b7].
  destruct b0, b1, b2, b3, b4, b5, b6, b7; reflexivity.
Qed.

Lemma unquote_plus_quote_plus_app s rest :
  Url.percent_decode (Query.plus_to_space (Query.quote_plus s +:+ rest))
  = s +:+ Url.percent_decode (Query.plus_to_space rest).
Proof.
  induction s as [|a s IH]; [reflexivity|].
  cbn [Query.quote_plus]. rewrite append_assoc, unquote_plus_quote_plus_byte.
  rewrite IH. reflexivity.
Qed.

Lemma unquote_plus_quote_plus s : Query.unquote_plus (Query.quote_plus s) = s.
Proof.
  unfold Query.unquote_plus.
  rewrite <- (append_empty_r (Query.quote_plus s)).
  rewrite unquote_plus_quote_plus_app. apply append_empty_r.
Qed.

(** An encoded byte contains neither [=] nor [&]. *)
Lemma split_first_quote_plus_byte a rest :
  Query.split_first "=" (Query.quote_plus_byte a +:+ rest)
  = (Query.quote_plus_byte a +:+ fst (Query.split_first "=" rest),
     snd (Query.split_first "=" rest)).
Proof.
  destruct a as [b0 b1 b2 b3 b4 b5 b6 b7].
  destruct b0, b1, b2, b3, b4, b5, b6, b7; reflexivity.
Qed.

Lemma split_on_quote_plus_byte a rest :
  Query.split_on "&" (Query.quote_plus_byte a +:+ rest)
  = (Query.quote_plus_byte a +:+ hd EmptyString (Query.split_on "&" rest))
    :: tl (Query.split_on "&" rest).
Proof.
  destruct a as [b0 b1 b2 b3 b4 b5 b6 b7].
  destruct b0, b1, b2, b3, b4, b5, b6, b7; reflexivity.
Qed.

Lemma split_first_quote_plus s rest :
  Query.split_first "=" (Query.quote_plus s +:+ rest)
  = (Query.quote_plus s +:+ fst (Query.split_first "=" rest),
     snd (Query.split_first "=" rest)).
Proof.
  induction s as [|a s IH].
  - cbn [Query.quote_plus]. change (EmptyString +:+ rest) with rest.
    change (EmptyString +:+ fst (Query.split_first "=" rest))
      with (fst (Query.split_first "=" rest)).
    now destruct (Query.split_first "=" rest).
  - cbn [Query.quote_plus]. rewrite !append_assoc, split_first_quote_plus_byte.
    rewrite IH. reflexivity.
Qed.

Lemma split_on_quote_plus s rest :
  Query.split_on "&" (Query.quote_plus s +:+ rest)
  = (Query.quote_plus s +:+ hd EmptyString (Query.split_on "&" rest))
    :: tl (Query.split_on "&" rest).
Proof.
  induction s as [|a s IH].
  - cbn [Query.quote_plus]. change (EmptyString +:+ rest) with rest.
    change (EmptyString +:+ hd EmptyString (Query.split_on "&" rest))
      with (hd EmptyString (Query.split_on "&" rest)).
    destruct rest as [|c rest]; [reflexivity|].
    cbn [Query.split_on]. destruct (Ascii.eqb c "&"); reflexivity.
  - cbn [Query.quote_plus]. rewrite !append_assoc, split_on_quote_plus_byte.
    rewrite IH. reflexivity.
Qed.

(** A field is cut at the [=] between its key and its value. *)
Lemma split_first_field kv :
  Query.split_first "=" (Query.field kv)
  = (Query.quote_plus (fst kv), Query.quote_plus (snd kv)).
Proof.
  unfold Query.field. rewrite split_first_quote_plus.
  change (Query.split_first "=" ("=" +:+ Query.quote_plus (snd kv)))
    with (EmptyString, Query.quote_plus (snd kv)).
  cbn [fst snd]. now rewrite append_empty_r.
Qed.

(** A field followed by more of the query is the first piece between
    the [&]. *)
Lemma split_on_field kv rest :
  Query.split_on "&" (Query.field kv +:+ rest)
  = (Query.field kv +:+ hd EmptyString (Query.split_on "&" rest))
    :: tl (Query.split_on "&" rest).
Proof.
  unfold Query.field. rewrite !append_assoc, split_on_quote_plus.
  change (("=" +:+ Query.quote_plus (snd kv) +:+ rest))
    with (String "=" (Query.quote_plus (snd kv) +:+ rest)).
  cbn [Query.split_on]. change (Ascii.eqb "=" "&") with false. cbv iota zeta.
  rewrite split_on_quote_plus. cbn [hd tl].
  change (String "=" (Query.quote_plus (snd kv)
                      +:+ hd EmptyString (Query.split_on "&" rest)))
    with ("=" +:+ Query.quote_plus (snd kv)
          +:+ hd EmptyString (Query.split_on "&" rest)).
  reflexivity.
Qed.

Lemma field_truthy kv rest : PyStr.truthy (Query.field kv +:+ rest) = true.
Proof.
  unfold Query.field. destruct (Query.quote_plus (fst kv)); reflexivity.
Qed.

Lemma parse_fields_field kv :
  (Query.unquote_plus (fst (Query.split_first "=" (Query.field kv))),
   Query.unquote_plus (snd (Query.split_first "=" (Query.field kv)))) = kv.
Proof.
  rewrite split_first_field. cbn [fst snd].
  rewrite !unquote_plus_quote_plus. now destruct kv.
Qed.

Lemma urlencode_cons kv kv' query :
  Query.urlencode (kv :: kv' :: query)
  = Query.field kv +:+ "&" +:+ Query.urlencode (kv' :: query).
Proof. reflexivity. Qed.

Lemma parse_fields_urlencode kv query :
  Query.parse_fields (Query.split_on "&" (Query.urlencode (kv :: query)))
  = kv :: query.
Proof.
  revert kv. induction query as [|kv' query IH]; intros kv.
  - change (Query.urlencode [kv]) with (Query.field kv).
    rewrite <- (append_empty_r (Query.field kv)), split_on_field.
    cbn [Query.split_on hd tl]. rewrite append_empty_r.
    unfold Query.parse_fields. cbn [List.filter].
    rewrite <- (append_empty_r (Query.field kv)) at 1. rewrite field_truthy.
    cbn [map]. cbv zeta. now rewrite parse_fields_field.
  - rewrite urlencode_cons, split_on_field.
    change (Query.split_on "&" ("&" +:+ Query.urlencode (kv' :: query)))
      with (EmptyString :: Query.split_on "&" (Query.urlencode (kv' :: query))).
    cbn [hd tl]. rewrite append_empty_r.
    unfold Query.parse_fields in *. cbn [List.filter].
    rewrite <- (append_empty_r (Query.field kv)) at 1. rewrite field_truthy.
    cbn [map]. cbv zeta. rewrite parse_fields_field. f_equal. apply IH.
Qed.

(** Every query string is parsed back to its pairs. *)
Lemma parse_qsl_urlencode_aux query :
  Query.parse_qsl (Query.urlencode query) = query.
Proof.
  destruct query as [|kv query]; [reflexivity|].
  unfold Query.parse_qsl.
  assert (Ht : PyStr.truthy (Query.urlencode (kv :: query)) = true).
  { destruct query as [|kv' query].
    - change (Query.urlencode [kv]) with (Query.field kv).
      rewrite <- (append_empty_r (Query.field kv)). apply field_truthy.
    - rewrite urlencode_cons. apply field_truthy. }
  rewrite Ht. apply parse_fields_urlencode.
Qed.

(** X1: parsing the query string that [urlencode] builds gives back the
    keys and values, whatever bytes they hold. *)
Theorem parse_qsl_urlencode query :
  Query.parse_qsl (Query.urlencode query) = query.
Proof.
  destruct query as [|kv query]; [reflexivity|].
  unfold Query.parse_qsl.
  assert (Ht : PyStr.truthy (Query.urlencode (kv :: query)) = true).
  { destruct query as [|kv' query].
    - change (Query.urlencode [kv]) with (Query.field kv).
      rewrite <- (append_empty_r (Query.field kv)). apply field_truthy.
    - rewrite urlencode_cons. apply field_truthy. }
  rewrite Ht. apply parse_fields_urlencode.
Qed.


(** The calendar link and its parsed query. *)
Lemma cal_url_decodes_aux title dates target_name details_text :
  exists qs,
    cal_url title dates target_name details_text
    = "https://calendar.google.com/calendar/render?" +:+ qs
    /\ Query.parse_qsl qs
       = [("action", "TEMPLATE"); ("text", title); ("dates", dates);
          ("location", target_name); ("details", details_text)].
Proof.
  exists (Query.urlencode
            [("action", "TEMPLATE"); ("text", title); ("dates", dates);
             ("location", target_name); ("details", details_text)]).
  split; [|apply parse_qsl_urlencode_aux].
  unfold cal_url. cbv zeta. rewrite urlencode_cons.
  change (Query.field ("action", "TEMPLATE")) with "action=TEMPLATE".
  change CAL_BASE
    with ("https://calendar.google.com/calendar/render?" +:+ "action=TEMPLATE").
  now rewrite append_assoc.
Qed.

(** X2: the calendar link is the calendar page followed by a query whose
    parsing gives the fixed action and the four parameters of the event:
    the title, the date range, the destination name and the itinerary
    text, each exactly as it was passed. *)
Theorem cal_url_decodes title dates target_name details_text :
  exists qs,
    cal_url title dates target_name details_text
    = "https://calendar.google.com/calendar/render?" +:+ qs
    /\ Query.parse_qsl qs
       = [("action", "TEMPLATE"); ("text", title); ("dates", dates);
          ("location", target_name); ("details", details_text)].
Proof.
  exists (Query.urlencode
            [("action", "TEMPLATE"); ("text", title); ("dates", dates);
             ("location", target_name); ("details", details_text)]).
  split; [|apply parse_qsl_urlencode_aux].
  unfold cal_url. cbv zeta. rewrite urlencode_cons.
  change (Query.field ("action", "TEMPLATE")) with "action=TEMPLATE".
  change CAL_BASE
    with ("https://calendar.google.com/calendar/render?" +:+ "action=TEMPLATE").
  now rewrite append_assoc.
Qed.

(** ** What [quote] lets through *)

Lemma in_string_cons b a (s : string) :
  In b (list_ascii_of_string (String a s)) <-> b = a \/ In b (list_ascii_of_string s).
Proof. cbn. split; intros [H|H]; auto. Qed.

Lemma quote_byte_chars a b :
  In b (list_ascii_of_string (Url.quote_byte a)) ->
  Url.is_safe b = true \/ b = "%"%char.
Proof.
  destruct a as [b0 b1 b2 b3 b4 b5 b6 b7].
  destruct b0, b1, b2, b3, b4, b5, b6, b7; cbn;
    intros H; repeat (destruct H as [<- | H]; [auto|]); destruct H.
Qed.

Lemma in_string_app b (s1 s2 : string) :
  In b (list_ascii_of_string (s1 +:+ s2))
  <-> In b (list_ascii_of_string s1) \/ In b (list_ascii_of_string s2).
Proof.
  induction s1 as [|a s1 IH].
  - change (EmptyString +:+ s2) with s2. cbn. tauto.
  - rewrite append_cons, !in_string_cons, IH. tauto.
Qed.

(** X3: the encoded destination name is made of unreserved ASCII
    characters, [/] and [%] only: it holds no space, no [&], [=], [?] or
    [#], and no byte outside ASCII. *)
Theorem quote_url_safe s b :
  In b (list_ascii_of_string (Url.quote s)) ->
  (Url.is_safe b = true \/ b = "%"%char)
  /\ (N_of_ascii b < 128)%N
  /\ b <> " "%char /\ b <> "&"%char /\ b <> "="%char /\ b <> "?"%char
  /\ b <> "#"%char.
Proof.
  intros Hin.
  assert (H : Url.is_safe b = true \/ b = "%"%char).
  { induction s as [|a s IH]; [destruct Hin|].
    cbn [Url.quote] in Hin. apply in_string_app in Hin as [Hin|Hin]; [|auto].
    now apply (quote_byte_chars a). }
  split; [exact H|].
  destruct H as [H | ->]; [|repeat split; (reflexivity || discriminate)].
  destruct b as [b0 b1 b2 b3 b4 b5 b6 b7].
  destruct b0, b1, b2, b3, b4, b5, b6, b7; try discriminate H;
    repeat split; (reflexivity || discriminate).
Qed.

(** The characters of an encoded name are one byte each. *)
Lemma quote_byte_no_continuation a :
  forallb (fun b => negb (PyStr.is_continuation b))
    (list_ascii_of_string (Url.quote_byte a)) = true.
Proof.
  destruct a as [b0 b1 b2 b3 b4 b5 b6 b7].
  destruct b0, b1, b2, b3, b4, b5, b6, b7; reflexivity.
Qed.

Lemma list_ascii_app (s1 s2 : string) :
  list_ascii_of_string (s1 +:+ s2)
  = list_ascii_of_string s1 ++ list_ascii_of_string s2.
Proof.
  induction s1 as [|a s1 IH]; [reflexivity|].
  rewrite append_cons. cbn [list_ascii_of_string]. now rewrite IH.
Qed.

Lemma filter_all_length {A} (p : A -> bool) (l : list A) :
  forallb p l = true -> List.length (List.filter p l) = List.length l.
Proof.
  induction l as [|a l IH]; [reflexivity|].
  cbn [forallb List.filter]. rewrite andb_true_iff. intros [Ha Hl].
  rewrite Ha. cbn [List.length]. now rewrite (IH Hl).
Qed.

Lemma quote_one_byte_characters s :
  codepoints (Url.quote s) = String.length (Url.quote s).
Proof.
  assert (H : forallb (fun b => negb (PyStr.is_continuation b))
                (list_ascii_of_string (Url.quote s)) = true).
  { induction s as [|a s IH]; [reflexivity|].
    cbn [Url.quote]. rewrite list_ascii_app, forallb_app.
    now rewrite quote_byte_no_continuation, IH. }
  unfold codepoints. rewrite (filter_all_length _ _ H).
  clear H. induction (Url.quote s) as [|a q IH]; [reflexivity|].
  cbn [list_ascii_of_string List.length String.length]. now rewrite IH.
Qed.

(** The bytes of a name that [quote] has to escape. *)
Lemma quote_byte_length a :
  String.length (Url.quote_byte a) = if Url.is_safe a then 1%nat else 3%nat.
Proof. unfold Url.quote_byte. now destruct (Url.is_safe a). Qed.

Lemma quote_length s :
  String.length (Url.quote s) = (String.length s + 2 * Url.escaped_bytes s)%nat.
Proof.
  unfold Url.escaped_bytes. induction s as [|a s IH]; [reflexivity|].
  cbn [Url.quote]. rewrite length_append, quote_byte_length, IH.
  cbn [String.length list_ascii_of_string List.filter].
  destruct (Url.is_safe a); cbn [negb List.length]; lia.
Qed.

Lemma quote_safe_string s :
  forallb Url.is_safe (list_ascii_of_string s) = true -> Url.quote s = s.
Proof.
  induction s as [|a s IH]; [reflexivity|].
  cbn [list_ascii_of_string forallb]. rewrite andb_true_iff. intros [Ha Hs].
  cbn [Url.quote]. unfold Url.quote_byte. rewrite Ha, (IH Hs). reflexivity.
Qed.

Lemma filter_nil_forallb (l : list ascii) :
  List.length (List.filter (fun a => negb (Url.is_safe a)) l) = 0%nat ->
  forallb Url.is_safe l = true.
Proof.
  induction l as [|a l IH]; [reflexivity|].
  cbn [List.filter forallb]. destruct (Url.is_safe a); cbn [negb List.length];
    [exact IH | discriminate].
Qed.

(** X4: the encoded name is as long as the UTF-8 encoding of the name
    plus two characters for each byte that is escaped; its characters
    are one byte each, so this is its length in characters as well.
    Hence it is never shorter than the name's UTF-8 encoding and at most
    three times as long, and [quote] leaves a name unchanged exactly
    when all its bytes are unreserved characters or [/]. Lengths of the
    name are counted in bytes of its UTF-8 encoding: a character outside
    ASCII is several bytes, each of them escaped. *)
Theorem quote_length_and_fixed_points s :
  String.length (Url.quote s) = (String.length s + 2 * Url.escaped_bytes s)%nat
  /\ codepoints (Url.quote s) = String.length (Url.quote s)
  /\ (Url.escaped_bytes s <= String.length s)%nat
  /\ (String.length s <= String.length (Url.quote s) <= 3 * String.length s)%nat
  /\ (Url.quote s = s <-> forallb Url.is_safe (list_ascii_of_string s) = true).
Proof.
  pose proof (quote_length s) as Hlen.
  assert (Hcount : (Url.escaped_bytes s <= String.length s)%nat).
  { clear Hlen. unfold Url.escaped_bytes. induction s as [|a s IH]; [cbn; lia|].
    cbn [list_ascii_of_string List.filter String.length].
    destruct (negb (Url.is_safe a)); cbn [List.length]; lia. }
  split; [exact Hlen|]. split; [apply quote_one_byte_characters|].
  split; [exact Hcount|]. split; [lia|]. split; [|apply quote_safe_string].
  intros Heq. apply filter_nil_forallb. rewrite Heq in Hlen.
  unfold Url.escaped_bytes in Hlen. lia.
Qed.

(** ** The end of the outing *)

Lemma six_hours_later_time h mi s :
  0 <= h < 24 -> 0 <= mi < 60 -> 0 <= s < 60 ->
  let total := h * 3600 + mi * 60 + s + 21600 in
  total / 86400 = (if h <? 18 then 0 else 1)
  /\ (total mod 86400) / 3600 = (h + 6) mod 24
  /\ (total mod 86400) mod 3600 / 60 = mi
  /\ (total mod 86400) mod 60 = s.
Proof.
  intros Hh Hmi Hs. cbv zeta.
  destruct (Z.ltb_spec h 18); Z.div_mod_to_equations; lia.
Qed.

(** The date-time six hours after the start. *)
Lemma end_of_outing_aux d t :
  Cal.valid_date d -> Cal.valid_time t ->
  (d = Cal.mkdate 9999 12 31 -> Cal.hour t < 18) ->
  Cal.add_seconds (Cal.combine d t) Cal.SIX_HOURS
  = Ok (Cal.mkdatetime
          (if Cal.hour t <? 18 then d else Cal.next_day d)
          (Cal.mktime ((Cal.hour t + 6) mod 24) (Cal.minute t) (Cal.second t))).
Proof.
  intros Hd Ht Hover. destruct t as [h mi s]. unfold Cal.valid_time in Ht.
  cbn [Cal.hour Cal.minute Cal.second] in *.
  destruct Ht as (Hh & Hmi & Hs).
  destruct (six_hours_later_time h mi s Hh Hmi Hs) as (Hq & Hhour & Hmin & Hsec).
  unfold Cal.add_seconds, Cal.combine.
  cbn [Cal.dt_date Cal.dt_time Cal.hour Cal.minute Cal.second]. cbv zeta.
  change Cal.SIX_HOURS with 21600. rewrite Hq, Hhour, Hmin, Hsec.
  destruct (Z.ltb_spec h 18) as [Hlt|Hge].
  - change (Nat.iter (Z.to_nat 0) Cal.next_day d) with d.
    replace (Cal.year d <=? Cal.MAXYEAR) with true; [reflexivity|].
    symmetry. apply Z.leb_le. unfold Cal.valid_date in Hd. lia.
  - change (Nat.iter (Z.to_nat 1) Cal.next_day d) with (Cal.next_day d).
    replace (Cal.year (Cal.next_day d) <=? Cal.MAXYEAR) with true; [reflexivity|].
    symmetry. apply Z.leb_le.
    destruct d as [y m dd]. unfold Cal.valid_date, Cal.next_day in *.
    cbn [Cal.year Cal.month Cal.day] in *. destruct Hd as (Hy & Hm & Hdd).
    destruct (Z.ltb_spec dd (Cal.days_in_month y m)); [cbn [Cal.year]; lia|].
    destruct (Z.ltb_spec m 12); cbn [Cal.year]; [lia|].
    assert (m = 12) by lia. subst m.
    change (Cal.days_in_month y 12) with 31 in *.
    assert (dd = 31) by lia. subst dd.
    destruct (Z.eq_dec y 9999) as [-> | Hne]; [|unfold Cal.MAXYEAR in *; lia].
    specialize (Hover eq_refl). lia.
Qed.

(** X5: six hours after the start the minutes and seconds are those of
    the start, the hour is the start hour plus six modulo 24, and the
    date is the departure date for a start before 18:00 and the next
    calendar day from 18:00 on. *)
Theorem end_of_outing d t :
  Cal.valid_date d -> Cal.valid_time t ->
  (d = Cal.mkdate 9999 12 31 -> Cal.hour t < 18) ->
  Cal.add_seconds (Cal.combine d t) Cal.SIX_HOURS
  = Ok (Cal.mkdatetime
          (if Cal.hour t <? 18 then d else Cal.next_day d)
          (Cal.mktime ((Cal.hour t + 6) mod 24) (Cal.minute t) (Cal.second t))).
Proof.
  intros Hd Ht Hover. destruct t as [h mi s]. unfold Cal.valid_time in Ht.
  cbn [Cal.hour Cal.minute Cal.second] in *.
  destruct Ht as (Hh & Hmi & Hs).
  destruct (six_hours_later_time h mi s Hh Hmi Hs) as (Hq & Hhour & Hmin & Hsec).
  unfold Cal.add_seconds, Cal.combine.
  cbn [Cal.dt_date Cal.dt_time Cal.hour Cal.minute Cal.second]. cbv zeta.
  change Cal.SIX_HOURS with 21600. rewrite Hq, Hhour, Hmin, Hsec.
  destruct (Z.ltb_spec h 18) as [Hlt|Hge].
  - change (Nat.iter (Z.to_nat 0) Cal.next_day d) with d.
    replace (Cal.year d <=? Cal.MAXYEAR) with true; [reflexivity|].
    symmetry. apply Z.leb_le. unfold Cal.valid_date in Hd. lia.
  - change (Nat.iter (Z.to_nat 1) Cal.next_day d) with (Cal.next_day d).
    replace (Cal.year (Cal.next_day d) <=? Cal.MAXYEAR) with true; [reflexivity|].
    symmetry. apply Z.leb_le.
    destruct d as [y m dd]. unfold Cal.valid_date, Cal.next_day in *.
    cbn [Cal.year Cal.month Cal.day] in *. destruct Hd as (Hy & Hm & Hdd).
    destruct (Z.ltb_spec dd (Cal.days_in_month y m)); [cbn [Cal.year]; lia|].
    destruct (Z.ltb_spec m 12); cbn [Cal.year]; [lia|].
    assert (m = 12) by lia. subst m.
    change (Cal.days_in_month y 12) with 31 in *.
    assert (dd = 31) by lia. subst dd.
    destruct (Z.eq_dec y 9999) as [-> | Hne]; [|unfold Cal.MAXYEAR in *; lia].
    specialize (Hover eq_refl). lia.
Qed.

(** X6: for a valid date and time the date range fails in one case
    only: a start on 9999-12-31 at 18:00 or later, whose end would fall
    in year 10000, raises [OverflowError]; every other start has a date
    range. *)
Theorem dates_str_overflow_iff d t :
  Cal.valid_date d -> Cal.valid_time t ->
  (Cal.dates_str d t = Raise OverflowError
   <-> d = Cal.mkdate 9999 12 31 /\ 18 <= Cal.hour t)
  /\ (forall e, Cal.dates_str d t = Raise e -> e = OverflowError)
  /\ ((exists token, Cal.dates_str d t = Ok token)
      <-> (d = Cal.mkdate 9999 12 31 -> Cal.hour t < 18)).
Proof.
  intros Hd Ht.
  assert (Hlast : d = Cal.mkdate 9999 12 31 -> 18 <= Cal.hour t ->
                  Cal.dates_str d t = Raise OverflowError).
  { intros -> Hh. destruct t as [h mi s]. unfold Cal.valid_time in Ht.
    cbn [Cal.hour Cal.minute Cal.second] in *. destruct Ht as (Hh' & Hmi & Hs).
    destruct (six_hours_later_time h mi s Hh' Hmi Hs) as (Hq & _).
    unfold Cal.dates_str, Cal.add_seconds, Cal.combine.
    cbn [Cal.dt_date Cal.dt_time Cal.hour Cal.minute Cal.second]. cbv zeta.
    change Cal.SIX_HOURS with 21600. rewrite Hq.
    destruct (Z.ltb_spec h 18); [lia|]. reflexivity. }
  assert (Hok : (d = Cal.mkdate 9999 12 31 -> Cal.hour t < 18) ->
                exists token, Cal.dates_str d t = Ok token).
  { intros Hover. unfold Cal.dates_str. cbv zeta.
    rewrite (end_of_outing_aux d t Hd Ht Hover). eauto. }
  assert (Hdec : (d = Cal.mkdate 9999 12 31 /\ 18 <= Cal.hour t)
                 \/ (d = Cal.mkdate 9999 12 31 -> Cal.hour t < 18)).
  { destruct (Z.lt_ge_cases (Cal.hour t) 18); [right; auto|].
    destruct d as [y m dd].
    destruct (Z.eq_dec y 9999) as [->|]; [|right; intros [=]; lia].
    destruct (Z.eq_dec m 12) as [->|]; [|right; intros [=]; lia].
    destruct (Z.eq_dec dd 31) as [->|]; [|right; intros [=]; lia].
    left. split; [reflexivity | assumption]. }
  split; [|split].
  - split; [|intros [H1 H2]; now apply Hlast].
    intros Hraise. destruct Hdec as [H|H]; [exact H|].
    destruct (Hok H) as [token Htok]. congruence.
  - intros e He. destruct Hdec as [[H1 H2]|H].
    + rewrite (Hlast H1 H2) in He. congruence.
    + destruct (Hok H) as [token Htok]. congruence.
  - split; [|exact Hok]. intros [token Htok] Hlastday.
    destruct (Z.lt_ge_cases (Cal.hour t) 18) as [Hlt|Hge]; [exact Hlt|].
    rewrite (Hlast Hlastday Hge) in Htok. discriminate.
Qed.

(** ** The search block *)

(** X7: when the geocoder finds nothing or fails with an error, a search
    leaves the session exactly as it was (the earlier location, name and
    forecast stay) and shows the not-found error only. *)
Theorem search_not_found_keeps_session geocode forecast search_input s :
  PyStr.truthy search_input = true ->
  (geocode ("台灣 " +:+ search_input) 10 = Geo.NoMatch
   \/ exists e, geocode ("台灣 " +:+ search_input) 10 = Geo.Raised e
                /\ is_Exception e = true) ->
  search geocode forecast true search_input s
  = (s, [st_error NOT_FOUND_ERROR], Ok tt).
Proof.
  intros Hin Hgeo. unfold search, Geo.get_coordinates. cbv zeta.
  rewrite Hin. cbn [andb].
  destruct Hgeo as [-> | (e & -> & He)]; [reflexivity|].
  rewrite He. reflexivity.
Qed.

(** X8: a location whose latitude is zero is taken for no location: the
    test [if lat:] is false for 0.0, so the search shows the not-found
    error and stores nothing, although the geocoder matched. *)
Theorem search_zero_latitude_not_found geocode forecast search_input s location sign :
  PyStr.truthy search_input = true ->
  geocode ("台灣 " +:+ search_input) 10 = Geo.Located location ->
  Geo.latitude location = S754_zero sign ->
  search geocode forecast true search_input s
  = (s, [st_error NOT_FOUND_ERROR], Ok tt).
Proof.
  intros Hin Hgeo Hlat. unfold search, Geo.get_coordinates. cbv zeta.
  rewrite Hin, Hgeo, Hlat. reflexivity.
Qed.

(** X9: when the place is found but its forecast cannot be fetched, the
    search stores the new name and coordinates and keeps the forecast
    table of the search before: the session then pairs the new mountain
    with the old mountain's forecast, and an itinerary submitted next is
    composed from that old table. *)
Theorem search_keeps_stale_forecast
  float_str geocode forecast search_input s location shown :
  PyStr.truthy search_input = true ->
  geocode ("台灣 " +:+ search_input) 10 = Geo.Located location ->
  coordinate_truthy (Some (Geo.latitude location)) = true ->
  forecast (Some (Geo.latitude location)) (Some (Geo.longitude location))
  = Ok (None, shown) ->
  let s' := fst (fst (search geocode forecast true search_input s)) in
  search geocode forecast true search_input s
  = (mksession (weather_df s) search_input
       (Some (Some (Geo.latitude location), Some (Geo.longitude location))),
     shown ++ [st_warning NO_FORECAST_WARNING], Ok tt)
  /\ searched_mountain s' = search_input
  /\ weather_df s' = weather_df s
  /\ forall target_name route_name hiking_date hiking_time custom_notes,
       submit float_str true target_name route_name hiking_date hiking_time
         custom_notes s'
       = submit float_str true target_name route_name hiking_date hiking_time
           custom_notes s.
Proof.
  intros Hin Hgeo Hlat Hfc. cbv zeta.
  assert (E : search geocode forecast true search_input s
              = (mksession (weather_df s) search_input
                   (Some (Some (Geo.latitude location), Some (Geo.longitude location))),
                 shown ++ [st_warning NO_FORECAST_WARNING], Ok tt)).
  { unfold search, Geo.get_coordinates. cbv zeta.
    rewrite Hin, Hgeo. cbn [andb]. rewrite Hlat, Hfc. reflexivity. }
  rewrite E. cbn [fst snd searched_mountain weather_df]. repeat split.
Qed.

(** One search keeps the invariant of the session. *)
Lemma search_keeps_inv geocode forecast btn_search search_input s :
  session_inv s ->
  session_inv (fst (fst (search geocode forecast btn_search search_input s))).
Proof.
  intros Hinv. unfold search.
  destruct (btn_search && PyStr.truthy search_input) eqn:Hgo; [|exact Hinv].
  apply andb_true_iff in Hgo as [_ Hin].
  destruct (Geo.get_coordinates geocode search_input) as [[[lat lon] addr]|e];
    [|exact Hinv].
  destruct (coordinate_truthy lat) eqn:Hlat; [|exact Hinv].
  cbv zeta.
  destruct (forecast lat lon) as [[[df|] shown]|e];
    cbn [fst snd]; unfold session_inv; cbn [map_coords searched_mountain];
    now split.
Qed.

(** The invariant holds on every reachable session. *)
Lemma reachable_session_inv_aux s :
  reachable s ->
  session_inv s /\ (map_coords s = None -> weather_df s = None).
Proof.
  intros Hr.
  assert (Hinv : session_inv s).
  { induction Hr as [|s s' _ IH Hstep]; [now split|].
    destruct Hstep. now apply search_keeps_inv. }
  split; [exact Hinv|]. unfold session_inv in Hinv.
  intros Hnone. rewrite Hnone in Hinv. tauto.
Qed.

(** X10: every session the search block can produce from the initial
    one is consistent: either nothing has been stored yet (no
    coordinates, no forecast table, empty name), or the stored latitude
    is a non-zero float and the stored name is not empty. In particular
    a forecast table is never stored without coordinates. *)
Theorem reachable_session_inv s :
  reachable s ->
  session_inv s /\ (map_coords s = None -> weather_df s = None).
Proof.
  intros Hr.
  assert (Hinv : session_inv s).
  { induction Hr as [|s s' _ IH Hstep]; [now split|].
    destruct Hstep. now apply search_keeps_inv. }
  split; [exact Hinv|]. unfold session_inv in Hinv.
  intros Hnone. rewrite Hnone in Hinv. tauto.
Qed.

(** ** The location panel *)

Lemma float_compare_int_value f q t :
  num_value (PyFloat f) = Some q ->
  float_compare_int f t = Some (q ?= inject_Z t)%Q.
Proof.
  destruct f as [sg|sg| |sg m e]; cbn [num_value float_compare_int];
    try discriminate; intros [= <-]; [|reflexivity].
  unfold Qcompare, inject_Z. cbn [Qnum Qden].
  change (0 * 1) with 0. now rewrite Z.mul_1_r.
Qed.

(** X11: on every reachable session the location panel is drawn without
    an error: the latitude compared with 21 and 26 is never [None]. *)
Theorem location_panel_never_raises s :
  reachable s -> exists shown, location_panel s = Ok shown.
Proof.
  intros Hr. destruct (reachable_session_inv_aux s Hr) as [Hinv _].
  unfold session_inv in Hinv. unfold location_panel.
  destruct (map_coords s) as [[lat lon]|]; [|eauto].
  destruct Hinv as [Hlat _].
  destruct (contains "台灣" (searched_mountain s)); [eauto|].
  destruct lat as [f|]; [|discriminate Hlat].
  unfold within_taiwan_latitudes.
  destruct (match float_compare_int f 21 with
            | Some Gt => match float_compare_int f 26 with
                         | Some Lt => true
                         | _ => false
                         end
            | _ => false
            end); eauto.
Qed.

(** X12: for a stored latitude of value [q], the panel warns that the
    point seems to lie outside Taiwan exactly when the stored name does
    not contain the country's name and [q] is not strictly between 21
    and 26; the bounds themselves warn. *)
Theorem outside_taiwan_warning_iff s f lon q :
  map_coords s = Some (Some f, lon) ->
  num_value (PyFloat f) = Some q ->
  (location_panel s = Ok [st_map (Some f) lon; st_warning OUTSIDE_TAIWAN_WARNING]
   <-> contains "台灣" (searched_mountain s) = false
       /\ ~ (21 < q /\ q < 26)%Q)
  /\ (location_panel s = Ok [st_map (Some f) lon]
      <-> contains "台灣" (searched_mountain s) = true
          \/ (21 < q /\ q < 26)%Q).
Proof.
  intros Hc Hq. unfold location_panel, within_taiwan_latitudes. rewrite Hc.
  rewrite !(float_compare_int_value f q _ Hq).
  change (inject_Z 21) with 21%Q. change (inject_Z 26) with 26%Q.
  destruct (contains "台灣" (searched_mountain s)).
  - split; split; try (intros [= ]); try tauto; try (intros [H _]; discriminate H).
  - rewrite (Qlt_alt q 26), (Qgt_alt q 21).
    destruct (q ?= 21)%Q; destruct (q ?= 26)%Q; split; split;
      try (intros [= ]); intuition congruence.
Qed.

(** ** The forecast client *)

Section ForecastClient.

Variable fetch : forecast_request -> result pyobj.
Variable DataFrame : list (string * pyobj) -> result (list forecast_row).
Variable exc_str : py_exception -> string.

Lemma obj_get_raises o key fallback e :
  obj_get o key fallback = Raise e -> e = OtherException "AttributeError".
Proof. destruct o; cbn; congruence. Qed.

Lemma obj_get_dict o key fallback :
  is_dict o = true -> exists v, obj_get o key fallback = Ok v.
Proof. destruct o; cbn; try discriminate; eauto. Qed.

(** What the [try] block can raise comes from the request, from the
    constructor of the table, or is the [AttributeError] of a [.get] on
    something that is not a dict. *)
Lemma fetch_forecast_table_raises lat lon e :
  fetch_forecast_table fetch DataFrame lat lon = Raise e ->
  fetch (open_meteo_request lat lon) = Raise e
  \/ (exists columns, DataFrame columns = Raise e)
  \/ e = OtherException "AttributeError".
Proof.
  unfold fetch_forecast_table. cbv zeta. unfold mbind, result_bind.
  destruct (fetch (open_meteo_request lat lon)) as [data|e0]; [|intros [= ->]; auto].
  destruct (obj_get data "daily" (ObjDict [])) as [daily|e0] eqn:Ed;
    [|intros [= ->]; right; right; eapply obj_get_raises; eauto].
  repeat match goal with
         | |- context [obj_get daily ?k ObjNone] =>
             let E := fresh "E" in
             destruct (obj_get daily k ObjNone) eqn:E;
             [|intros [= ->]; right; right; eapply obj_get_raises; eauto]
         end.
  intros H. right. left. eauto.
Qed.

(** X13: as long as the request and the table constructor fail only with
    errors (exceptions derived from [Exception]), the forecast client
    never raises: it returns the table and shows nothing, or returns
    [None] and shows one error message that carries the text of the
    exception. *)
Theorem get_weather_forecast_swallows_errors lat lon :
  (forall request e, fetch request = Raise e -> is_Exception e = true) ->
  (forall columns e, DataFrame columns = Raise e -> is_Exception e = true) ->
  (exists df,
     fetch_forecast_table fetch DataFrame lat lon = Ok df
     /\ get_weather_forecast fetch DataFrame exc_str lat lon = Ok (Some df, []))
  \/ (exists e,
        fetch_forecast_table fetch DataFrame lat lon = Raise e
        /\ get_weather_forecast fetch DataFrame exc_str lat lon
           = Ok (None, [st_error ("天氣資料讀取失敗: " +:+ exc_str e)])).
Proof.
  intros Hfetch Hframe. unfold get_weather_forecast.
  destruct (fetch_forecast_table fetch DataFrame lat lon) as [df|e] eqn:E;
    [left; eauto|].
  right. exists e. split; [reflexivity|].
  assert (He : is_Exception e = true).
  { destruct (fetch_forecast_table_raises lat lon e E) as [H | [[columns H] | ->]];
      [eapply Hfetch; eauto | eapply Hframe; eauto | reflexivity]. }
  now rewrite He.
Qed.

(** X14: a response that is a dict without the key [daily] (the body of
    an API error, for instance) is not rejected by the client itself:
    all six columns are [None] and everything rests on the table
    constructor. When the constructor refuses six scalar columns, as
    pandas does with a [ValueError], the client returns [None] and shows
    that error. *)
Theorem missing_daily_is_left_to_the_constructor lat lon items :
  fetch (open_meteo_request lat lon) = Ok (ObjDict items) ->
  items_lookup "daily" items = None ->
  fetch_forecast_table fetch DataFrame lat lon = DataFrame empty_columns
  /\ (DataFrame empty_columns = Raise (OtherException "ValueError") ->
      get_weather_forecast fetch DataFrame exc_str lat lon
      = Ok (None,
            [st_error ("天氣資料讀取失敗: " +:+ exc_str (OtherException "ValueError"))])).
Proof.
  intros Hfetch Hdaily.
  assert (E : fetch_forecast_table fetch DataFrame lat lon = DataFrame empty_columns).
  { unfold fetch_forecast_table. cbv zeta. unfold mbind, result_bind.
    rewrite Hfetch. cbn [obj_get]. rewrite Hdaily. reflexivity. }
  split; [exact E|]. intros Hrefuse. unfold get_weather_forecast.
  rewrite E, Hrefuse. reflexivity.
Qed.

(** X15: a response that is not a dict, or whose [daily] is not a dict
    (a JSON [null], a list, a string), ends in [None] with the
    [AttributeError] shown, and the table constructor is never
    reached. *)
Theorem malformed_response_gives_none lat lon :
  ((exists data, fetch (open_meteo_request lat lon) = Ok data /\ is_dict data = false)
   \/ (exists items daily,
         fetch (open_meteo_request lat lon) = Ok (ObjDict items)
         /\ items_lookup "daily" items = Some daily
         /\ is_dict daily = false)) ->
  fetch_forecast_table fetch DataFrame lat lon
  = Raise (OtherException "AttributeError")
  /\ get_weather_forecast fetch DataFrame exc_str lat lon
     = Ok (None,
           [st_error ("天氣資料讀取失敗: "
                      +:+ exc_str (OtherException "AttributeError"))]).
Proof.
  intros H.
  assert (E : fetch_forecast_table fetch DataFrame lat lon
              = Raise (OtherException "AttributeError")).
  { unfold fetch_forecast_table. cbv zeta. unfold mbind, result_bind.
    destruct H as [(data & -> & Hd) | (items & daily & -> & Hl & Hd)].
    - destruct data; try reflexivity. discriminate Hd.
    - cbn [obj_get]. rewrite Hl. cbn [default from_option id].
      destruct daily; try reflexivity. discriminate Hd. }
  split; [exact E|]. unfold get_weather_forecast. rewrite E. reflexivity.
Qed.

End ForecastClient.

(** ** Slicing the last code points *)

Lemma string_of_list_app (l1 l2 : list ascii) :
  string_of_list_ascii (l1 ++ l2)
  = string_of_list_ascii l1 +:+ string_of_list_ascii l2.
Proof.
  induction l1 as [|a l1 IH]; [reflexivity|].
  cbn [app string_of_list_ascii]. rewrite append_cons. now rewrite IH.
Qed.

Lemma string_length_list (s : string) :
  String.length s = List.length (list_ascii_of_string s).
Proof. induction s as [|a s IH]; cbn; [reflexivity | now rewrite IH]. Qed.

(** The bytes kept are the first bytes of the reversed string, and they
    hold at most [n] code points. *)
Lemma take_codepoints_rev_prefix l n :
  exists rest,
    l = PyStr.take_codepoints_rev l n ++ rest
    /\ (List.length (List.filter (fun a => negb (PyStr.is_continuation a))
                       (PyStr.take_codepoints_rev l n)) <= n)%nat.
Proof.
  revert n. induction l as [|b l IH]; intros n.
  - exists []. destruct n; cbn; split; (reflexivity || lia).
  - destruct n as [|n']; [exists (b :: l); cbn; split; (reflexivity || lia)|].
    cbn [PyStr.take_codepoints_rev].
    destruct (PyStr.is_continuation b) eqn:Hb.
    + destruct (IH (S n')) as (rest & Hrest & Hcount). exists rest.
      cbn [app List.filter]. rewrite Hb. cbn [negb]. split; [now f_equal | exact Hcount].
    + destruct (IH n') as (rest & Hrest & Hcount). exists rest.
      cbn [app List.filter]. rewrite Hb. cbn [negb List.length].
      split; [now f_equal | lia].
Qed.

Lemma filter_rev_length {A} (p : A -> bool) (l : list A) :
  List.length (List.filter p (rev l)) = List.length (List.filter p l).
Proof.
  induction l as [|a l IH]; [reflexivity|].
  cbn [rev List.filter]. rewrite List.filter_app, List.length_app, IH.
  cbn [List.filter]. destruct (p a); cbn [List.length]; lia.
Qed.

(** X16: a slice [s[-n:]] is an end of [s]: some front part followed by
    the slice gives [s] back. [s[-0:]] is all of [s]; for [n] from 1 on,
    as in the [x[-5:]] of the code, the slice holds at most [n] code
    points, however many bytes each takes. *)
Theorem last_codepoints_is_suffix n s :
  (exists front, s = front +:+ PyStr.last_codepoints n s)
  /\ PyStr.last_codepoints 0 s = s
  /\ (codepoints (PyStr.last_codepoints (S n) s) <= S n)%nat.
Proof.
  split; [|split; [reflexivity|]].
  - destruct n as [|n]; [now exists EmptyString|].
    unfold PyStr.last_codepoints.
    destruct (take_codepoints_rev_prefix (rev (list_ascii_of_string s)) (S n))
      as (rest & Hrest & _).
    exists (string_of_list_ascii (rev rest)).
    rewrite <- string_of_list_app, <- rev_app_distr, <- Hrest, rev_involutive.
    symmetry. apply string_of_list_ascii_of_string.
  - unfold PyStr.last_codepoints, codepoints.
    destruct (take_codepoints_rev_prefix (rev (list_ascii_of_string s)) (S n))
      as (rest & _ & Hcount).
    rewrite list_ascii_of_string_of_list_ascii, filter_rev_length. exact Hcount.
Qed.

Lemma take_codepoints_rev_single_bytes l more :
  forallb (fun a => negb (PyStr.is_continuation a)) l = true ->
  PyStr.take_codepoints_rev (l ++ more) (List.length l) = l.
Proof.
  induction l as [|b l IH]; [intros _; now destruct more|].
  cbn [forallb app List.length PyStr.take_codepoints_rev].
  rewrite andb_true_iff, negb_true_iff. intros [Hb Hl].
  rewrite Hb. now rewrite (IH Hl).
Qed.

Lemma forallb_rev {A} (p : A -> bool) (l : list A) :
  forallb p (rev l) = forallb p l.
Proof.
  induction l as [|a l IH]; [reflexivity|].
  cbn [rev forallb]. rewrite forallb_app, IH. cbn [forallb].
  destruct (p a), (forallb p l); reflexivity.
Qed.

(** A string that ends with [n] one-byte characters, [n] at least 1, is
    sliced to exactly those. *)
Lemma last_codepoints_single_byte_tail front tail n :
  String.length tail = S n ->
  forallb (fun a => negb (PyStr.is_continuation a)) (list_ascii_of_string tail) = true ->
  PyStr.last_codepoints (S n) (front +:+ tail) = tail.
Proof.
  intros Hlen Htail. unfold PyStr.last_codepoints.
  rewrite <- Hlen.
  rewrite list_ascii_app, rev_app_distr, string_length_list, <- length_rev.
  rewrite take_codepoints_rev_single_bytes by (now rewrite forallb_rev).
  rewrite rev_involutive. apply string_of_list_ascii_of_string.
Qed.

(** X17: a timestamp that ends in five one-byte characters, like the
    [HH:MM] of an ISO date-time, is trimmed to exactly these five
    characters, whatever precedes them, both in the composer
    ([x[-5:]]) and in the sunrise and sunset columns of the table. *)
Theorem trailing_time_is_kept front tail :
  String.length tail = 5%nat ->
  forallb (fun a => negb (PyStr.is_continuation a)) (list_ascii_of_string tail) = true ->
  py_last5 (PyStr (front +:+ tail)) = Ok tail
  /\ display_time (PyStr (front +:+ tail)) = Ok tail.
Proof.
  intros Hlen Htail.
  pose proof (last_codepoints_single_byte_tail front tail 4 Hlen Htail) as H.
  cbn [py_last5 display_time]. rewrite H.
  split; [reflexivity|].
  replace (PyStr.truthy (front +:+ tail)) with true; [reflexivity|].
  destruct tail; [discriminate Hlen|]. now destruct front.
Qed.

(** ** More on the composer and on the submit block *)

Section ComposerExtras.

Variable float_str : spec_float -> string.

Lemma py_last5_returns_iff (d : gmap string pyval) key fallback :
  (exists s, py_last5 (dict_get d key (PyStr fallback)) = Ok s)
  <-> absent_or is_str (d !! key) = true.
Proof.
  unfold dict_get. destruct (d !! key) as [[| | |s]|]; cbn;
    split; intros H; try discriminate; eauto; destruct H; discriminate.
Qed.

Lemma py_ge_returns_iff (d : gmap string pyval) key z t :
  (exists b, py_ge (dict_get d key (PyInt z)) t = Ok b)
  <-> absent_or is_number (d !! key) = true.
Proof.
  unfold dict_get. destruct (d !! key) as [[| | |s]|]; cbn;
    split; intros H; try discriminate; eauto; destruct H; discriminate.
Qed.

Lemma py_lt_returns_iff (d : gmap string pyval) key fallback t :
  (exists b, py_lt (dict_get d key (PyStr fallback)) t = Ok b)
  <-> present_and is_number (d !! key) = true.
Proof.
  unfold dict_get. destruct (d !! key) as [[| | |s]|]; cbn;
    split; intros H; try discriminate; eauto; destruct H; discriminate.
Qed.

Lemma py_last5_raises v e : py_last5 v = Raise e -> e = TypeError.
Proof. destruct v; cbn; congruence. Qed.

Lemma py_ge_raises v t e : py_ge v t = Raise e -> e = TypeError.
Proof. destruct v; cbn; congruence. Qed.

Lemma py_lt_raises v t e : py_lt v t = Raise e -> e = TypeError.
Proof. destruct v; cbn; congruence. Qed.

Lemma forecast_lines_returns_iff d :
  ((exists ws, forecast_lines float_str d = Ok ws) <-> printable_snapshot d = true)
  /\ (forall e, forecast_lines float_str d = Raise e -> e = TypeError).
Proof.
  unfold printable_snapshot. rewrite !andb_true_iff.
  rewrite <- (py_last5_returns_iff d "sunrise" "未知").
  rewrite <- (py_last5_returns_iff d "sunset" "未知").
  rewrite <- (py_ge_returns_iff d "rain_prob" 0 30).
  rewrite <- (py_lt_returns_iff d "min_temp" "?" 10).
  unfold forecast_lines.
  destruct (py_last5 (dict_get d "sunrise" (PyStr "未知"))) as [sunrise|e1] eqn:E1.
  2:{ split; [split; [intros [ws H]; discriminate H
                     | intros [[[[s H] _] _] _]; discriminate H]
             | intros e [= <-]; now apply py_last5_raises in E1]. }
  destruct (py_last5 (dict_get d "sunset" (PyStr "未知"))) as [sunset|e2] eqn:E2.
  2:{ split; [split; [intros [ws H]; discriminate H
                     | intros [[[_ [s H]] _] _]; discriminate H]
             | intros e [= <-]; now apply py_last5_raises in E2]. }
  destruct (py_ge (dict_get d "rain_prob" (PyInt 0)) 30) as [rainy|e3] eqn:E3.
  2:{ split; [split; [intros [ws H]; discriminate H
                     | intros [[_ [s H]] _]; discriminate H]
             | intros e [= <-]; now apply py_ge_raises in E3]. }
  destruct (py_lt (dict_get d "min_temp" (PyStr "?")) 10) as [cold|e4] eqn:E4.
  2:{ split; [split; [intros [ws H]; discriminate H
                     | intros [_ [s H]]; discriminate H]
             | intros e [= <-]; now apply py_lt_raises in E4]. }
  split; [|discriminate]. split; [|eauto]. intros _. repeat split; eauto.
Qed.

(** When the composer returns and what it raises. *)
Lemma generate_full_details_returns_iff_aux name route date info notes :
  ((exists out, generate_full_details float_str name route date info notes = Ok out)
   <-> dict_truthy info = false \/ printable_snapshot (default ∅ info) = true)
  /\ (forall e,
        generate_full_details float_str name route date info notes = Raise e ->
        e = TypeError).
Proof.
  rewrite generate_full_details_sections. unfold weather_lines.
  destruct (dict_truthy info).
  - destruct (forecast_lines_returns_iff (default ∅ info)) as [Hiff Hraise].
    destruct (forecast_lines float_str (default ∅ info)) as [ws|e0] eqn:E.
    + split; [|discriminate]. split; [intros _; right; apply Hiff; eauto | eauto].
    + split; [|intros e [= <-]; now apply Hraise].
      split; [intros [out H]; discriminate H|].
      intros [H|H]; [discriminate H|]. apply Hiff in H as [ws H]. discriminate H.
  - split; [|discriminate]. split; [now left | eauto].
Qed.

(** X18: the composer returns an itinerary exactly when the snapshot is
    [None] or empty, or the forecast branch can print it: sunrise and
    sunset are strings or absent, the rain probability is a number or
    absent, and the minimum temperature is present and a number. The
    maximum temperature may be anything. Whenever the composer raises,
    it raises [TypeError]. *)
Theorem generate_full_details_returns_iff name route date info notes :
  ((exists out, generate_full_details float_str name route date info notes = Ok out)
   <-> dict_truthy info = false \/ printable_snapshot (default ∅ info) = true)
  /\ (forall e,
        generate_full_details float_str name route date info notes = Raise e ->
        e = TypeError).
Proof.
  rewrite generate_full_details_sections. unfold weather_lines.
  destruct (dict_truthy info).
  - destruct (forecast_lines_returns_iff (default ∅ info)) as [Hiff Hraise].
    destruct (forecast_lines float_str (default ∅ info)) as [ws|e0] eqn:E.
    + split; [|discriminate]. split; [intros _; right; apply Hiff; eauto | eauto].
    + split; [|intros e [= <-]; now apply Hraise].
      split; [intros [out H]; discriminate H|].
      intros [H|H]; [discriminate H|]. apply Hiff in H as [ws H]. discriminate H.
  - split; [|discriminate]. split; [now left | eauto].
Qed.

Lemma join_three_then a b c x (rest : list string) :
  PyStr.join PyStr.NL ([a; b; c] ++ x :: rest)
  = a +:+ PyStr.NL +:+ b +:+ PyStr.NL +:+ c +:+ PyStr.NL
    +:+ PyStr.join PyStr.NL (x :: rest).
Proof. reflexivity. Qed.

(** X19: the user's notes only put a block in front: for non-empty
    notes the itinerary is the notes heading, the notes verbatim and a
    divider, each on its own line, followed by exactly the itinerary
    composed without notes; and the composer raises with notes exactly
    when it raises without. *)
Theorem custom_notes_come_first name route date info notes :
  PyStr.truthy notes = true ->
  generate_full_details float_str name route date info notes
  = match generate_full_details float_str name route date info EmptyString with
    | Ok out =>
        Ok (NOTES_HEADING +:+ PyStr.NL +:+ notes +:+ PyStr.NL +:+ DIVIDER
            +:+ PyStr.NL +:+ out)
    | Raise e => Raise e
    end.
Proof.
  intros Hnotes. rewrite !generate_full_details_sections.
  destruct (weather_lines float_str date info) as [ws|e]; [|reflexivity].
  unfold head_lines, notes_lines. rewrite Hnotes.
  cbn [PyStr.truthy app]. f_equal.
Qed.

(** X20: a reading that is NaN, as the table holds for a missing value,
    silences its advisory: with a NaN minimum temperature the itinerary
    has no cold-weather warning, and with a NaN rain probability it has
    no rain-gear warning; the composer still returns. *)
Theorem nan_readings_give_no_warning name route date notes d v :
  typed_snapshot d = true ->
  d !! "min_temp" = Some v ->
  exists ws,
    weather_lines float_str date (Some d) = Ok ws
    /\ generate_full_details float_str name route date (Some d) notes
       = Ok (PyStr.join PyStr.NL
               (head_lines name route notes ++ ws ++ tail_lines name))
    /\ (v = PyFloat S754_nan -> ~ In COLD_WARNING ws)
    /\ (d !! "rain_prob" = Some (PyFloat S754_nan) -> ~ In RAIN_WARNING ws).
Proof.
  intros Ht Hmin.
  destruct (forecast_lines_typed float_str d v Ht Hmin)
    as (sunrise & sunset & rainy & cold & Erainy & Ecold & Elines).
  assert (Hws : weather_lines float_str date (Some d) =
                Ok (forecast_detail_lines float_str d sunrise sunset
                    ++ (if rainy then [RAIN_WARNING] else [])
                    ++ (if cold then [COLD_WARNING] else []))).
  { unfold weather_lines. rewrite (dict_truthy_lookup d _ _ Hmin). exact Elines. }
  eexists. split; [exact Hws|]. split; [|split].
  - rewrite generate_full_details_sections, Hws. reflexivity.
  - intros ->. rewrite cold_warning_in_forecast. cbn in Ecold.
    injection Ecold as <-. discriminate.
  - intros Hrain. rewrite rain_warning_in_forecast.
    unfold dict_get in Erainy. rewrite Hrain in Erainy. cbn in Erainy.
    injection Erainy as <-. discriminate.
Qed.

(** X21: a snapshot that has nothing but a numeric minimum temperature
    is printed with the placeholders: [?] for the maximum, 0 for the
    rain probability, and the two-character "unknown" for sunrise and
    sunset (kept whole by the slice); no rain-gear warning is given. *)
Theorem absent_fields_use_placeholders date d v :
  d !! "min_temp" = Some v -> is_number v = true ->
  d !! "max_temp" = None -> d !! "rain_prob" = None ->
  d !! "sunrise" = None -> d !! "sunset" = None ->
  exists cold,
    py_lt v 10 = Ok cold
    /\ weather_lines float_str date (Some d)
       = Ok ([FORECAST_HEADING;
              "🌡️ 氣溫預測：" +:+ py_format float_str v +:+ "°C ~ " +:+ "?" +:+ "°C";
              "☔ 降雨機率：" +:+ "0" +:+ "%";
              "🌅 日出日落：" +:+ "未知" +:+ " / " +:+ "未知"]
             ++ (if cold then [COLD_WARNING] else [])).
Proof.
  intros Hmin Hnum Hmax Hrain Hsr Hss.
  destruct (py_lt_number v 10 Hnum) as [cold Ecold]. exists cold.
  split; [exact Ecold|].
  unfold weather_lines. rewrite (dict_truthy_lookup d _ _ Hmin).
  change (default ∅ (Some d)) with d.
  unfold forecast_lines, forecast_detail_lines, dict_get.
  rewrite Hmin, Hmax, Hrain, Hsr, Hss. cbn [default from_option id].
  rewrite Ecold. reflexivity.
Qed.

(** *** The day's snapshot *)

Lemma snapshot_of_row_lookups r :
  snapshot_of_row r !! "max_temp" = Some (row_max r)
  /\ snapshot_of_row r !! "min_temp" = Some (row_min r)
  /\ snapshot_of_row r !! "rain_prob" = Some (row_rain r)
  /\ snapshot_of_row r !! "sunrise" = Some (row_sunrise r)
  /\ snapshot_of_row r !! "sunset" = Some (row_sunset r).
Proof.
  unfold snapshot_of_row.
  repeat split;
    repeat (rewrite lookup_insert_eq || rewrite lookup_insert_ne by discriminate);
    reflexivity.
Qed.

Lemma printable_snapshot_of_row r :
  printable_snapshot (snapshot_of_row r) = printable_row r.
Proof.
  destruct (snapshot_of_row_lookups r) as (_ & Hmin & Hrain & Hsr & Hss).
  unfold printable_snapshot, printable_row. now rewrite Hmin, Hrain, Hsr, Hss.
Qed.

Lemma filter_nil_iff {A} (p : A -> bool) (l : list A) :
  List.filter p l = [] <-> forall x, In x l -> p x = false.
Proof.
  induction l as [|a l IH]; [cbn; tauto|].
  cbn [List.filter In]. destruct (p a) eqn:Ha.
  - split; [discriminate|]. intros H. specialize (H a (or_introl eq_refl)). congruence.
  - rewrite IH. split; [intros H x [<-|Hx]; auto | auto].
Qed.

(** The snapshot of the day, by cases on the table. *)
Lemma day_weather_info_cases_aux df hiking_date :
  (day_weather_info df hiking_date = None
   <-> df = None
       \/ exists rows, df = Some rows
            /\ forall r, In r rows ->
                 row_is_on (selected_date_str hiking_date) r = false)
  /\ (forall d, day_weather_info df hiking_date = Some d ->
        exists rows r,
          df = Some rows /\ In r rows
          /\ row_date r = PyStr (selected_date_str hiking_date)
          /\ d = snapshot_of_row r
          /\ printable_snapshot d = printable_row r
          /\ dict_truthy (Some d) = true
          /\ d !! "max_temp" = Some (row_max r)
          /\ d !! "min_temp" = Some (row_min r)
          /\ d !! "rain_prob" = Some (row_rain r)
          /\ d !! "sunrise" = Some (row_sunrise r)
          /\ d !! "sunset" = Some (row_sunset r)).
Proof.
  unfold day_weather_info. destruct df as [rows|].
  2:{ split; [split; auto | discriminate]. }
  destruct (List.filter (row_is_on (selected_date_str hiking_date)) rows)
    as [|r matching] eqn:E.
  - split; [|discriminate]. split; [|reflexivity]. intros _. right.
    exists rows. split; [reflexivity|]. now apply filter_nil_iff.
  - split.
    + split; [discriminate|]. intros [H | (rows' & [= <-] & H)]; [discriminate H|].
      apply filter_nil_iff in H. congruence.
    + intros d [= <-]. exists rows, r.
      assert (Hin : In r (List.filter (row_is_on (selected_date_str hiking_date)) rows))
        by (rewrite E; now left).
      apply List.filter_In in Hin as [Hin Hon].
      destruct (snapshot_of_row_lookups r) as (H1 & H2 & H3 & H4 & H5).
      split; [reflexivity|]. split; [exact Hin|]. split.
      { unfold row_is_on in Hon. destruct (row_date r); try discriminate Hon.
        apply String.eqb_eq in Hon. now subst. }
      split; [reflexivity|]. split; [apply printable_snapshot_of_row|].
      split; [exact (dict_truthy_lookup _ _ _ H2)|]. now repeat split.
Qed.

(** X22: the submit block gives the composer a snapshot exactly when the
    session has a table with a row whose date is the ISO form of the
    chosen date; the snapshot is built from the first such row and
    always has all five keys, so it is never empty and none of the
    composer's placeholders is used; it can be printed exactly when the
    row has string sunrise and sunset and numeric rain probability and
    minimum temperature. Without a table, or with no row for the day,
    the composer gets [None]. *)
Theorem day_weather_info_cases df hiking_date :
  (day_weather_info df hiking_date = None
   <-> df = None
       \/ exists rows, df = Some rows
            /\ forall r, In r rows ->
                 row_is_on (selected_date_str hiking_date) r = false)
  /\ (forall d, day_weather_info df hiking_date = Some d ->
        exists rows r,
          df = Some rows /\ In r rows
          /\ row_date r = PyStr (selected_date_str hiking_date)
          /\ d = snapshot_of_row r
          /\ printable_snapshot d = printable_row r
          /\ dict_truthy (Some d) = true
          /\ d !! "max_temp" = Some (row_max r)
          /\ d !! "min_temp" = Some (row_min r)
          /\ d !! "rain_prob" = Some (row_rain r)
          /\ d !! "sunrise" = Some (row_sunrise r)
          /\ d !! "sunset" = Some (row_sunset r)).
Proof.
  unfold day_weather_info. destruct df as [rows|].
  2:{ split; [split; auto | discriminate]. }
  destruct (List.filter (row_is_on (selected_date_str hiking_date)) rows)
    as [|r matching] eqn:E.
  - split; [|discriminate]. split; [|reflexivity]. intros _. right.
    exists rows. split; [reflexivity|]. now apply filter_nil_iff.
  - split.
    + split; [discriminate|]. intros [H | (rows' & [= <-] & H)]; [discriminate H|].
      apply filter_nil_iff in H. congruence.
    + intros d [= <-]. exists rows, r.
      assert (Hin : In r (List.filter (row_is_on (selected_date_str hiking_date)) rows))
        by (rewrite E; now left).
      apply List.filter_In in Hin as [Hin Hon].
      destruct (snapshot_of_row_lookups r) as (H1 & H2 & H3 & H4 & H5).
      split; [reflexivity|]. split; [exact Hin|]. split.
      { unfold row_is_on in Hon. destruct (row_date r); try discriminate Hon.
        apply String.eqb_eq in Hon. now subst. }
      split; [reflexivity|]. split; [apply printable_snapshot_of_row|].
      split; [exact (dict_truthy_lookup _ _ _ H2)|]. now repeat split.
Qed.

(** X23: with a destination given and a date range at hand, the submit
    block fails exactly when the table gives a snapshot for the day that
    the forecast branch cannot print (a sunrise or sunset that is not a
    string, a rain probability or minimum temperature that is not a
    number); the exception is then [TypeError]. A day without a row
    never fails. *)
Theorem submit_fails_iff target_name route_name hiking_date hiking_time custom_notes s dates :
  PyStr.truthy target_name = true ->
  Cal.dates_str hiking_date hiking_time = Ok dates ->
  forall e,
    snd (submit float_str true target_name route_name hiking_date hiking_time
           custom_notes s) = Raise e
    <-> e = TypeError
        /\ exists d, day_weather_info (weather_df s) hiking_date = Some d
                     /\ printable_snapshot d = false.
Proof.
  intros Hname Hdates e. unfold submit. rewrite Hname. cbn [andb]. cbv zeta.
  destruct (generate_full_details_returns_iff_aux target_name route_name hiking_date
              (day_weather_info (weather_df s) hiking_date) custom_notes)
    as [Hiff Hraise].
  destruct (generate_full_details float_str target_name route_name hiking_date
              (day_weather_info (weather_df s) hiking_date) custom_notes)
    as [text|e0] eqn:E.
  - rewrite Hdates. cbn [snd]. split; [discriminate|].
    intros [_ (d & Hd & Hp)]. exfalso.
    assert (Hok : dict_truthy (day_weather_info (weather_df s) hiking_date) = false
                  \/ printable_snapshot
                       (default ∅ (day_weather_info (weather_df s) hiking_date)) = true)
      by (apply Hiff; eauto).
    rewrite Hd in Hok. cbn [default from_option id] in Hok.
    destruct Hok as [Hf | Ht]; [|congruence].
    destruct (day_weather_info_cases_aux (weather_df s) hiking_date) as [_ Hsome].
    destruct (Hsome d Hd) as (rows & r & _ & _ & _ & _ & _ & Htruthy & _). congruence.
  - cbn [snd]. pose proof (Hraise e0 eq_refl) as ->. split.
    + intros [= <-]. split; [reflexivity|].
      destruct (day_weather_info (weather_df s) hiking_date) as [d|] eqn:Hd.
      * exists d. split; [reflexivity|].
        destruct (printable_snapshot d) eqn:Hp; [|reflexivity].
        assert (Hex : exists out, @Raise string TypeError = Ok out)
          by (apply Hiff; right; exact Hp).
        destruct Hex as [out Hout]. discriminate Hout.
      * assert (Hex : exists out, @Raise string TypeError = Ok out)
          by (apply Hiff; left; reflexivity).
        destruct Hex as [out Hout]. discriminate Hout.
    + intros [-> _]. reflexivity.
Qed.

(** X24: when the submit block succeeds, what it shows hangs together:
    the preview is the composer's itinerary for the day's snapshot, and
    the calendar link, decoded, carries that same itinerary as details,
    the date range as dates, the destination as location and the title
    that is shown above the preview. *)
Theorem submit_preview_matches_link
  target_name route_name hiking_date hiking_time custom_notes s shown :
  PyStr.truthy target_name = true ->
  submit float_str true target_name route_name hiking_date hiking_time custom_notes s
  = (shown, Ok tt) ->
  exists text dates qs,
    generate_full_details float_str target_name route_name hiking_date
      (day_weather_info (weather_df s) hiking_date) custom_notes = Ok text
    /\ Cal.dates_str hiking_date hiking_time = Ok dates
    /\ shown
       = [st_success ("已建立行程：**" +:+ target_name +:+ "**");
          st_link_button "🗺️ Google Maps 導航" (Url.map_url target_name);
          st_link_button "📅 加入 Google 行事曆"
            ("https://calendar.google.com/calendar/render?" +:+ qs);
          st_text ("標題：" +:+ cal_title target_name route_name);
          st_text (PyStr.mul "-" 30);
          st_text text]
    /\ Query.parse_qsl qs
       = [("action", "TEMPLATE"); ("text", cal_title target_name route_name);
          ("dates", dates); ("location", target_name); ("details", text)].
Proof.
  intros Hname. unfold submit. rewrite Hname. cbn [andb]. cbv zeta.
  destruct (generate_full_details float_str target_name route_name hiking_date
              (day_weather_info (weather_df s) hiking_date) custom_notes)
    as [text|e0]; [|discriminate].
  destruct (Cal.dates_str hiking_date hiking_time) as [dates|e0]; [|discriminate].
  intros [= <-].
  destruct (cal_url_decodes_aux (cal_title target_name route_name) dates target_name text)
    as (qs & Hurl & Hqs).
  exists text, dates, qs. rewrite Hurl. repeat split. exact Hqs.
Qed.

End ComposerExtras.

(** ** The further properties at concrete inputs *)

Lemma quote_url_safe_witness :
  In "%"%char (list_ascii_of_string (Url.quote " "))
  /\ ((Url.is_safe "%" = true \/ "%"%char = "%"%char)
      /\ (N_of_ascii "%" < 128)%N
      /\ "%"%char <> " "%char /\ "%"%char <> "&"%char /\ "%"%char <> "="%char
      /\ "%"%char <> "?"%char /\ "%"%char <> "#"%char).
Proof.
  assert (H : In "%"%char (list_ascii_of_string (Url.quote " ")))
    by (vm_compute; left; reflexivity).
  split; [exact H|]. exact (quote_url_safe " " "%" H).
Defined.

Lemma end_of_outing_witness :
  Cal.valid_date (Cal.mkdate 2024 2 29)
  /\ Cal.valid_time (Cal.mktime 20 30 15)
  /\ (Cal.mkdate 2024 2 29 = Cal.mkdate 9999 12 31 -> Cal.hour (Cal.mktime 20 30 15) < 18)
  /\ Cal.add_seconds (Cal.combine (Cal.mkdate 2024 2 29) (Cal.mktime 20 30 15))
       Cal.SIX_HOURS
     = Ok (Cal.mkdatetime (Cal.mkdate 2024 3 1) (Cal.mktime 2 30 15)).
Proof.
  assert (H1 : Cal.valid_date (Cal.mkdate 2024 2 29))
    by (vm_compute; repeat split; intros H; discriminate H).
  assert (H2 : Cal.valid_time (Cal.mktime 20 30 15))
    by (vm_compute; repeat split; intros H; discriminate H).
  assert (H3 : Cal.mkdate 2024 2 29 = Cal.mkdate 9999 12 31 ->
               Cal.hour (Cal.mktime 20 30 15) < 18)
    by (intros H; discriminate H).
  split; [exact H1|]. split; [exact H2|]. split; [exact H3|].
  exact (end_of_outing (Cal.mkdate 2024 2 29) (Cal.mktime 20 30 15) H1 H2 H3).
Defined.

Lemma dates_str_overflow_iff_witness :
  Cal.valid_date (Cal.mkdate 9999 12 31)
  /\ Cal.valid_time (Cal.mktime 18 0 0)
  /\ ((Cal.dates_str (Cal.mkdate 9999 12 31) (Cal.mktime 18 0 0) = Raise OverflowError
       <-> Cal.mkdate 9999 12 31 = Cal.mkdate 9999 12 31
           /\ 18 <= Cal.hour (Cal.mktime 18 0 0))
      /\ (forall e,
            Cal.dates_str (Cal.mkdate 9999 12 31) (Cal.mktime 18 0 0) = Raise e ->
            e = OverflowError)
      /\ ((exists token,
             Cal.dates_str (Cal.mkdate 9999 12 31) (Cal.mktime 18 0 0) = Ok token)
          <-> (Cal.mkdate 9999 12 31 = Cal.mkdate 9999 12 31 ->
               Cal.hour (Cal.mktime 18 0 0) < 18))).
Proof.
  assert (H1 : Cal.valid_date (Cal.mkdate 9999 12 31))
    by (vm_compute; repeat split; intros H; discriminate H).
  assert (H2 : Cal.valid_time (Cal.mktime 18 0 0))
    by (vm_compute; repeat split; intros H; discriminate H).
  split; [exact H1|]. split; [exact H2|].
  exact (dates_str_overflow_iff (Cal.mkdate 9999 12 31) (Cal.mktime 18 0 0) H1 H2).
Defined.

Lemma search_not_found_keeps_session_witness :
  PyStr.truthy "玉山" = true
  /\ (geocode_timing_out ("台灣 " +:+ "玉山") 10 = Geo.NoMatch
      \/ exists e, geocode_timing_out ("台灣 " +:+ "玉山") 10 = Geo.Raised e
                   /\ is_Exception e = true)
  /\ search geocode_timing_out forecast_unavailable true "玉山" session_A
     = (session_A, [st_error NOT_FOUND_ERROR], Ok tt).
Proof.
  assert (H1 : PyStr.truthy "玉山" = true) by reflexivity.
  assert (H2 : geocode_timing_out ("台灣 " +:+ "玉山") 10 = Geo.NoMatch
               \/ exists e, geocode_timing_out ("台灣 " +:+ "玉山") 10 = Geo.Raised e
                            /\ is_Exception e = true)
    by (right; exists GeocoderTimedOut; split; reflexivity).
  split; [exact H1|]. split; [exact H2|].
  exact (search_not_found_keeps_session geocode_timing_out forecast_unavailable
           "玉山" session_A H1 H2).
Defined.

Lemma search_zero_latitude_not_found_witness :
  PyStr.truthy "Null Island" = true
  /\ geocode_equator ("台灣 " +:+ "Null Island") 10
     = Geo.Located (Geo.mkLocation (S754_zero false) (S754_zero false) "Null Island")
  /\ Geo.latitude (Geo.mkLocation (S754_zero false) (S754_zero false) "Null Island")
     = S754_zero false
  /\ search geocode_equator forecast_unavailable true "Null Island" session_A
     = (session_A, [st_error NOT_FOUND_ERROR], Ok tt).
Proof.
  assert (H1 : PyStr.truthy "Null Island" = true) by reflexivity.
  assert (H2 : geocode_equator ("台灣 " +:+ "Null Island") 10
               = Geo.Located
                   (Geo.mkLocation (S754_zero false) (S754_zero false) "Null Island"))
    by reflexivity.
  assert (H3 : Geo.latitude
                 (Geo.mkLocation (S754_zero false) (S754_zero false) "Null Island")
               = S754_zero false) by reflexivity.
  split; [exact H1|]. split; [exact H2|]. split; [exact H3|].
  exact (search_zero_latitude_not_found geocode_equator forecast_unavailable
           "Null Island" session_A _ false H1 H2 H3).
Defined.

Lemma search_keeps_stale_forecast_witness :
  PyStr.truthy "玉山" = true
  /\ geocode_found ("台灣 " +:+ "玉山") 10
     = Geo.Located (Geo.mkLocation float_24_0 float_121_0 "玉山, 台灣")
  /\ coordinate_truthy (Some float_24_0) = true
  /\ forecast_unavailable (Some float_24_0) (Some float_121_0)
     = Ok (None, [st_error "天氣資料讀取失敗: timed out"])
  /\ (search geocode_found forecast_unavailable true "玉山" session_A
      = (mksession (Some [row_A]) "玉山" (Some (Some float_24_0, Some float_121_0)),
         [st_error "天氣資料讀取失敗: timed out"] ++ [st_warning NO_FORECAST_WARNING],
         Ok tt)
      /\ searched_mountain
           (fst (fst (search geocode_found forecast_unavailable true "玉山" session_A)))
         = "玉山"
      /\ weather_df
           (fst (fst (search geocode_found forecast_unavailable true "玉山" session_A)))
         = Some [row_A]
      /\ forall target_name route_name hiking_date hiking_time custom_notes,
           submit sample_float_str true target_name route_name hiking_date
             hiking_time custom_notes
             (fst (fst (search geocode_found forecast_unavailable true "玉山" session_A)))
           = submit sample_float_str true target_name route_name hiking_date
               hiking_time custom_notes session_A).
Proof.
  assert (H1 : PyStr.truthy "玉山" = true) by reflexivity.
  assert (H2 : geocode_found ("台灣 " +:+ "玉山") 10
               = Geo.Located (Geo.mkLocation float_24_0 float_121_0 "玉山, 台灣"))
    by reflexivity.
  assert (H3 : coordinate_truthy (Some float_24_0) = true) by reflexivity.
  assert (H4 : forecast_unavailable (Some float_24_0) (Some float_121_0)
               = Ok (None, [st_error "天氣資料讀取失敗: timed out"]))
    by reflexivity.
  split; [exact H1|]. split; [exact H2|]. split; [exact H3|]. split; [exact H4|].
  exact (search_keeps_stale_forecast sample_float_str geocode_found
           forecast_unavailable "玉山" session_A
           (Geo.mkLocation float_24_0 float_121_0 "玉山, 台灣")
           [st_error "天氣資料讀取失敗: timed out"] H1 H2 H3 H4).
Defined.

Lemma reachable_session_inv_witness :
  reachable (fst (fst (search geocode_found forecast_unavailable true "玉山"
                         initial_session)))
  /\ (session_inv (fst (fst (search geocode_found forecast_unavailable true "玉山"
                               initial_session)))
      /\ (map_coords (fst (fst (search geocode_found forecast_unavailable true "玉山"
                                  initial_session))) = None ->
          weather_df (fst (fst (search geocode_found forecast_unavailable true "玉山"
                                  initial_session))) = None)).
Proof.
  assert (H : reachable (fst (fst (search geocode_found forecast_unavailable true
                                     "玉山" initial_session))))
    by (exact (reachable_step _ _ reachable_initial
                 (search_step_intro geocode_found forecast_unavailable true "玉山"
                    initial_session))).
  split; [exact H|]. exact (reachable_session_inv _ H).
Defined.

Lemma location_panel_never_raises_witness :
  reachable (fst (fst (search geocode_found forecast_unavailable true "玉山"
                         initial_session)))
  /\ exists shown,
       location_panel (fst (fst (search geocode_found forecast_unavailable true "玉山"
                                   initial_session))) = Ok shown.
Proof.
  assert (H : reachable (fst (fst (search geocode_found forecast_unavailable true
                                     "玉山" initial_session))))
    by (exact (reachable_step _ _ reachable_initial
                 (search_step_intro geocode_found forecast_unavailable true "玉山"
                    initial_session))).
  split; [exact H|]. exact (location_panel_never_raises _ H).
Defined.

Lemma outside_taiwan_warning_iff_witness :
  map_coords session_A = Some (Some float_24_0, Some float_121_0)
  /\ num_value (PyFloat float_24_0) = Some (finite_value false 3 3)
  /\ ((location_panel session_A
       = Ok [st_map (Some float_24_0) (Some float_121_0);
             st_warning OUTSIDE_TAIWAN_WARNING]
       <-> contains "台灣" (searched_mountain session_A) = false
           /\ ~ (21 < finite_value false 3 3 /\ finite_value false 3 3 < 26)%Q)
      /\ (location_panel session_A = Ok [st_map (Some float_24_0) (Some float_121_0)]
          <-> contains "台灣" (searched_mountain session_A) = true
              \/ (21 < finite_value false 3 3 /\ finite_value false 3 3 < 26)%Q)).
Proof.
  assert (H1 : map_coords session_A = Some (Some float_24_0, Some float_121_0))
    by reflexivity.
  assert (H2 : num_value (PyFloat float_24_0) = Some (finite_value false 3 3))
    by reflexivity.
  split; [exact H1|]. split; [exact H2|].
  exact (outside_taiwan_warning_iff session_A float_24_0 (Some float_121_0)
           (finite_value false 3 3) H1 H2).
Defined.

Lemma get_weather_forecast_swallows_errors_witness :
  (forall request e, fetch_refused request = Raise e -> is_Exception e = true)
  /\ (forall columns e, frame_empty columns = Raise e -> is_Exception e = true)
  /\ ((exists df,
         fetch_forecast_table fetch_refused frame_empty
           (Some float_24_0) (Some float_121_0) = Ok df
         /\ get_weather_forecast fetch_refused frame_empty exc_name
              (Some float_24_0) (Some float_121_0) = Ok (Some df, []))
      \/ (exists e,
            fetch_forecast_table fetch_refused frame_empty
              (Some float_24_0) (Some float_121_0) = Raise e
            /\ get_weather_forecast fetch_refused frame_empty exc_name
                 (Some float_24_0) (Some float_121_0)
               = Ok (None, [st_error ("天氣資料讀取失敗: " +:+ exc_name e)]))).
Proof.
  assert (H1 : forall request e, fetch_refused request = Raise e -> is_Exception e = true)
    by (intros request e H; injection H as <-; reflexivity).
  assert (H2 : forall columns e, frame_empty columns = Raise e -> is_Exception e = true)
    by (intros columns e H; discriminate H).
  split; [exact H1|]. split; [exact H2|].
  exact (get_weather_forecast_swallows_errors fetch_refused frame_empty exc_name
           (Some float_24_0) (Some float_121_0) H1 H2).
Defined.

Lemma missing_daily_is_left_to_the_constructor_witness :
  fetch_api_error (open_meteo_request (Some float_24_0) (Some float_121_0))
  = Ok (ObjDict [("error", ObjBool true); ("reason", ObjStr "bad latitude")])
  /\ items_lookup "daily" [("error", ObjBool true); ("reason", ObjStr "bad latitude")]
     = None
  /\ (fetch_forecast_table fetch_api_error frame_refusing
        (Some float_24_0) (Some float_121_0)
      = frame_refusing empty_columns
      /\ (frame_refusing empty_columns = Raise (OtherException "ValueError") ->
          get_weather_forecast fetch_api_error frame_refusing exc_name
            (Some float_24_0) (Some float_121_0)
          = Ok (None,
                [st_error ("天氣資料讀取失敗: "
                           +:+ exc_name (OtherException "ValueError"))]))).
Proof.
  assert (H1 : fetch_api_error (open_meteo_request (Some float_24_0) (Some float_121_0))
               = Ok (ObjDict [("error", ObjBool true);
                              ("reason", ObjStr "bad latitude")]))
    by reflexivity.
  assert (H2 : items_lookup "daily"
                 [("error", ObjBool true); ("reason", ObjStr "bad latitude")] = None)
    by reflexivity.
  split; [exact H1|]. split; [exact H2|].
  exact (missing_daily_is_left_to_the_constructor fetch_api_error frame_refusing
           exc_name (Some float_24_0) (Some float_121_0) _ H1 H2).
Defined.

Lemma malformed_response_gives_none_witness :
  ((exists data,
      fetch_list (open_meteo_request (Some float_24_0) (Some float_121_0)) = Ok data
      /\ is_dict data = false)
   \/ (exists items daily,
         fetch_list (open_meteo_request (Some float_24_0) (Some float_121_0))
         = Ok (ObjDict items)
         /\ items_lookup "daily" items = Some daily
         /\ is_dict daily = false))
  /\ (fetch_forecast_table fetch_list frame_empty (Some float_24_0) (Some float_121_0)
      = Raise (OtherException "AttributeError")
      /\ get_weather_forecast fetch_list frame_empty exc_name
           (Some float_24_0) (Some float_121_0)
         = Ok (None,
               [st_error ("天氣資料讀取失敗: "
                          +:+ exc_name (OtherException "AttributeError"))])).
Proof.
  assert (H : (exists data,
                 fetch_list (open_meteo_request (Some float_24_0) (Some float_121_0))
                 = Ok data /\ is_dict data = false)
              \/ (exists items daily,
                    fetch_list (open_meteo_request (Some float_24_0) (Some float_121_0))
                    = Ok (ObjDict items)
                    /\ items_lookup "daily" items = Some daily
                    /\ is_dict daily = false))
    by (left; exists (ObjList []); split; reflexivity).
  split; [exact H|].
  exact (malformed_response_gives_none fetch_list frame_empty exc_name
           (Some float_24_0) (Some float_121_0) H).
Defined.

Lemma trailing_time_is_kept_witness :
  String.length "06:30" = 5%nat
  /\ forallb (fun a => negb (PyStr.is_continuation a)) (list_ascii_of_string "06:30")
     = true
  /\ (py_last5 (PyStr ("2024-01-15T" +:+ "06:30")) = Ok "06:30"
      /\ display_time (PyStr ("2024-01-15T" +:+ "06:30")) = Ok "06:30").
Proof.
  assert (H1 : String.length "06:30" = 5%nat) by reflexivity.
  assert (H2 : forallb (fun a => negb (PyStr.is_continuation a))
                 (list_ascii_of_string "06:30") = true) by reflexivity.
  split; [exact H1|]. split; [exact H2|].
  exact (trailing_time_is_kept "2024-01-15T" "06:30" H1 H2).
Defined.

Lemma custom_notes_come_first_witness :
  PyStr.truthy "集合 07:00" = true
  /\ generate_full_details sample_float_str "合歡山主峰" "" (Cal.mkdate 2024 1 15)
       (Some snapshot_A) "集合 07:00"
     = match generate_full_details sample_float_str "合歡山主峰" ""
               (Cal.mkdate 2024 1 15) (Some snapshot_A) EmptyString with
       | Ok out =>
           Ok (NOTES_HEADING +:+ PyStr.NL +:+ "集合 07:00" +:+ PyStr.NL +:+ DIVIDER
               +:+ PyStr.NL +:+ out)
       | Raise e => Raise e
       end.
Proof.
  assert (H : PyStr.truthy "集合 07:00" = true) by reflexivity.
  split; [exact H|].
  exact (custom_notes_come_first sample_float_str "合歡山主峰" ""
           (Cal.mkdate 2024 1 15) (Some snapshot_A) "集合 07:00" H).
Defined.

Lemma nan_readings_give_no_warning_witness :
  typed_snapshot (<["min_temp" := PyFloat S754_nan]> snapshot_A) = true
  /\ (<["min_temp" := PyFloat S754_nan]> snapshot_A) !! "min_temp"
     = Some (PyFloat S754_nan)
  /\ exists ws,
       weather_lines sample_float_str (Cal.mkdate 2024 1 15)
         (Some (<["min_temp" := PyFloat S754_nan]> snapshot_A)) = Ok ws
       /\ generate_full_details sample_float_str "合歡山主峰" "" (Cal.mkdate 2024 1 15)
            (Some (<["min_temp" := PyFloat S754_nan]> snapshot_A)) ""
          = Ok (PyStr.join PyStr.NL
                  (head_lines "合歡山主峰" "" "" ++ ws ++ tail_lines "合歡山主峰"))
       /\ (PyFloat S754_nan = PyFloat S754_nan -> ~ In COLD_WARNING ws)
       /\ ((<["min_temp" := PyFloat S754_nan]> snapshot_A) !! "rain_prob"
           = Some (PyFloat S754_nan) -> ~ In RAIN_WARNING ws).
Proof.
  assert (H1 : typed_snapshot (<["min_temp" := PyFloat S754_nan]> snapshot_A) = true)
    by (vm_compute; reflexivity).
  assert (H2 : (<["min_temp" := PyFloat S754_nan]> snapshot_A) !! "min_temp"
               = Some (PyFloat S754_nan)) by (vm_compute; reflexivity).
  split; [exact H1|]. split; [exact H2|].
  exact (nan_readings_give_no_warning sample_float_str "合歡山主峰" ""
           (Cal.mkdate 2024 1 15) ""
           (<["min_temp" := PyFloat S754_nan]> snapshot_A) (PyFloat S754_nan) H1 H2).
Defined.

Lemma absent_fields_use_placeholders_witness :
  ({["min_temp" := PyInt 3]} : gmap string pyval) !! "min_temp" = Some (PyInt 3)
  /\ is_number (PyInt 3) = true
  /\ ({["min_temp" := PyInt 3]} : gmap string pyval) !! "max_temp" = None
  /\ ({["min_temp" := PyInt 3]} : gmap string pyval) !! "rain_prob" = None
  /\ ({["min_temp" := PyInt 3]} : gmap string pyval) !! "sunrise" = None
  /\ ({["min_temp" := PyInt 3]} : gmap string pyval) !! "sunset" = None
  /\ exists cold,
       py_lt (PyInt 3) 10 = Ok cold
       /\ weather_lines sample_float_str (Cal.mkdate 2024 1 15)
            (Some {["min_temp" := PyInt 3]})
          = Ok ([FORECAST_HEADING;
                 "🌡️ 氣溫預測：" +:+ py_format sample_float_str (PyInt 3)
                   +:+ "°C ~ " +:+ "?" +:+ "°C";
                 "☔ 降雨機率：" +:+ "0" +:+ "%";
                 "🌅 日出日落：" +:+ "未知" +:+ " / " +:+ "未知"]
                ++ (if cold then [COLD_WARNING] else [])).
Proof.
  assert (H1 : ({["min_temp" := PyInt 3]} : gmap string pyval) !! "min_temp"
               = Some (PyInt 3)) by (vm_compute; reflexivity).
  assert (H2 : is_number (PyInt 3) = true) by reflexivity.
  assert (H3 : ({["min_temp" := PyInt 3]} : gmap string pyval) !! "max_temp" = None)
    by (vm_compute; reflexivity).
  assert (H4 : ({["min_temp" := PyInt 3]} : gmap string pyval) !! "rain_prob" = None)
    by (vm_compute; reflexivity).
  assert (H5 : ({["min_temp" := PyInt 3]} : gmap string pyval) !! "sunrise" = None)
    by (vm_compute; reflexivity).
  assert (H6 : ({["min_temp" := PyInt 3]} : gmap string pyval) !! "sunset" = None)
    by (vm_compute; reflexivity).
  split; [exact H1|]. split; [exact H2|]. split; [exact H3|]. split; [exact H4|].
  split; [exact H5|]. split; [exact H6|].
  exact (absent_fields_use_placeholders sample_float_str (Cal.mkdate 2024 1 15)
           {["min_temp" := PyInt 3]} (PyInt 3) H1 H2 H3 H4 H5 H6).
Defined.

Lemma submit_fails_iff_witness :
  PyStr.truthy "合歡山主峰" = true
  /\ Cal.dates_str (Cal.mkdate 2024 1 15) (Cal.mktime 6 0 0)
     = Ok "20240115T060000/20240115T120000"
  /\ forall e,
       snd (submit sample_float_str true "合歡山主峰" "" (Cal.mkdate 2024 1 15)
              (Cal.mktime 6 0 0) "" session_A) = Raise e
       <-> e = TypeError
           /\ exists d,
                day_weather_info (weather_df session_A) (Cal.mkdate 2024 1 15) = Some d
                /\ printable_snapshot d = false.
Proof.
  assert (H1 : PyStr.truthy "合歡山主峰" = true) by reflexivity.
  assert (H2 : Cal.dates_str (Cal.mkdate 2024 1 15) (Cal.mktime 6 0 0)
               = Ok "20240115T060000/20240115T120000") by (vm_compute; reflexivity).
  split; [exact H1|]. split; [exact H2|].
  exact (submit_fails_iff sample_float_str "合歡山主峰" "" (Cal.mkdate 2024 1 15)
           (Cal.mktime 6 0 0) "" session_A _ H1 H2).
Defined.

Lemma submit_preview_matches_link_witness :
  PyStr.truthy "合歡山主峰" = true
  /\ submit sample_float_str true "合歡山主峰" "" (Cal.mkdate 2024 1 15)
       (Cal.mktime 6 0 0) "" session_A
     = (fst (submit sample_float_str true "合歡山主峰" "" (Cal.mkdate 2024 1 15)
               (Cal.mktime 6 0 0) "" session_A), Ok tt)
  /\ exists text dates qs,
       generate_full_details sample_float_str "合歡山主峰" "" (Cal.mkdate 2024 1 15)
         (day_weather_info (weather_df session_A) (Cal.mkdate 2024 1 15)) ""
       = Ok text
       /\ Cal.dates_str (Cal.mkdate 2024 1 15) (Cal.mktime 6 0 0) = Ok dates
       /\ fst (submit sample_float_str true "合歡山主峰" "" (Cal.mkdate 2024 1 15)
                 (Cal.mktime 6 0 0) "" session_A)
          = [st_success ("已建立行程：**" +:+ "合歡山主峰" +:+ "**");
             st_link_button "🗺️ Google Maps 導航" (Url.map_url "合歡山主峰");
             st_link_button "📅 加入 Google 行事曆"
               ("https://calendar.google.com/calendar/render?" +:+ qs);
             st_text ("標題：" +:+ cal_title "合歡山主峰" "");
             st_text (PyStr.mul "-" 30);
             st_text text]
       /\ Query.parse_qsl qs
          = [("action", "TEMPLATE"); ("text", cal_title "合歡山主峰" "");
             ("dates", dates); ("location", "合歡山主峰"); ("details", text)].
Proof.
  assert (H1 : PyStr.truthy "合歡山主峰" = true) by reflexivity.
  assert (H2 : submit sample_float_str true "合歡山主峰" "" (Cal.mkdate 2024 1 15)
                 (Cal.mktime 6 0 0) "" session_A
               = (fst (submit sample_float_str true "合歡山主峰" ""
                         (Cal.mkdate 2024 1 15) (Cal.mktime 6 0 0) "" session_A),
                  Ok tt)) by (vm_compute; reflexivity).
  split; [exact H1|]. split; [exact H2|].
  exact (submit_preview_matches_link sample_float_str "合歡山主峰" ""
           (Cal.mkdate 2024 1 15) (Cal.mktime 6 0 0) "" session_A _ H1 H2).
Defined.
